(** * made_to_serve_utils: the legacy-data migration of [migrate_data.py]

    A shallow embedding of the opportunity-date classifier
    ([get_legacy_opportunities]), the opportunity merge
    ([generate_migrated_opportunities]) and the phone normaliser
    ([_format_phone]), with the properties of the specification stated
    and settled against them.

    Conventions of the embedding.
    - A Python [str] is a [string]; a character is a code point below 256
      (Latin-1), on which the regex class [\d] is ['0'..'9'].
    - A call that can end in [sys.exit] or in an exception returns a
      [result]: [Ok v], [Exit diag] (SystemExit, with the diagnostic that
      was printed or passed to [sys.exit]) or [Raise e].
    - A Python [dict] is an insertion-ordered association list.
    - [datetime.datetime.now()] is one instant [now] for the whole run.
    - [strftime] follows the platform the script is written for: the
      [%#m] and [%#d] directives drop the zero padding and [%Y] is four
      digits wide. *)

From Stdlib Require Import ZArith List String Ascii Bool Lia DecimalString.
Import ListNotations.
Local Open Scope string_scope.
Local Open Scope Z_scope.

(** ** Results of fallible calls *)

Inductive exn : Type :=
| KeyError
| IndexError
| ValueError
| TypeError
| OverflowError.

Inductive result (A : Type) : Type :=
| Ok (a : A)
| Exit (diag : string)
| Raise (e : exn).

Arguments Ok {A} a.
Arguments Exit {A} diag.
Arguments Raise {A} e.

Definition bind {A B : Type} (r : result A) (k : A -> result B) : result B :=
  match r with
  | Ok a => k a
  | Exit d => Exit d
  | Raise e => Raise e
  end.

Notation "x <- r ;; k" := (bind r (fun x => k))
  (at level 61, r at next level, right associativity).

(** [for x in xs: acc = body(acc, x)], stopping at the first exit or
    exception. *)
Fixpoint foldM {A S : Type} (body : S -> A -> result S) (xs : list A) (s : S)
  : result S :=
  match xs with
  | [] => Ok s
  | x :: xs' => s' <- body s x ;; foldM body xs' s'
  end.

Definition is_ok {A : Type} (r : result A) : bool :=
  match r with Ok _ => true | _ => false end.

(** ** Strings *)

Definition chr (n : nat) : ascii := ascii_of_nat n.
Definition ord (c : ascii) : Z := Z.of_nat (nat_of_ascii c).

Definition newline : string := String (chr 10) "".
Definition dquote : string := String (chr 34) "".

(** [\d] on Latin-1 text. *)
Definition is_decimal (c : ascii) : bool := (48 <=? ord c) && (ord c <=? 57).

(** [str.isdigit] on Latin-1 text: the decimal digits and the superscript
    digits U+00B2, U+00B3 and U+00B9. *)
Definition isdigit (c : ascii) : bool :=
  is_decimal c || (ord c =? 178) || (ord c =? 179) || (ord c =? 185).

(** [str.isspace] on Latin-1 text. *)
Definition isspace (c : ascii) : bool :=
  ((9 <=? ord c) && (ord c <=? 13)) || ((28 <=? ord c) && (ord c <=? 32))
  || (ord c =? 133) || (ord c =? 160).

Definition digit_val (c : ascii) : Z := ord c - 48.
Definition digit_char (n : Z) : ascii := chr (Z.to_nat (48 + n)).

Fixpoint str_filter (p : ascii -> bool) (s : string) : string :=
  match s with
  | EmptyString => EmptyString
  | String c s' => if p c then String c (str_filter p s') else str_filter p s'
  end.

Fixpoint str_mem (c : ascii) (s : string) : bool :=
  match s with
  | EmptyString => false
  | String a s' => Ascii.eqb a c || str_mem c s'
  end.

Fixpoint lstrip (s : string) : string :=
  match s with
  | EmptyString => EmptyString
  | String c s' => if isspace c then lstrip s' else s
  end.

Fixpoint str_rev_onto (s acc : string) : string :=
  match s with
  | EmptyString => acc
  | String c s' => str_rev_onto s' (String c acc)
  end.

Definition str_rev (s : string) : string := str_rev_onto s "".

Definition strip (s : string) : string := str_rev (lstrip (str_rev (lstrip s))).

(** [s.split(sep)] for a one-character separator. *)
Fixpoint split_on (sep : ascii) (s : string) : list string :=
  match s with
  | EmptyString => [""]
  | String c s' =>
      if Ascii.eqb c sep then "" :: split_on sep s'
      else match split_on sep s' with
           | [] => [String c ""]
           | p :: ps => String c p :: ps
           end
  end.

Fixpoint startswith (p s : string) : bool :=
  match p, s with
  | EmptyString, _ => true
  | String a p', String b s' => Ascii.eqb a b && startswith p' s'
  | String _ _, EmptyString => false
  end.

Definition endswith (p s : string) : bool := startswith (str_rev p) (str_rev s).

(** [p in s]: [p] occurs as a substring of [s]. *)
Fixpoint contains (p s : string) : bool :=
  startswith p s ||
  match s with
  | EmptyString => false
  | String _ s' => contains p s'
  end.

Definition slice_to (n : nat) (s : string) : string := substring 0 n s.

Fixpoint slice_from (n : nat) (s : string) : string :=
  match n, s with
  | O, _ => s
  | S n', String _ s' => slice_from n' s'
  | S _, EmptyString => EmptyString
  end.

Definition slice (i j : nat) (s : string) : string := slice_to (j - i) (slice_from i s).

(** [str(n)] for a Python [int]. *)
Definition str_int (n : Z) : string := NilZero.string_of_int (Z.to_int n).

(** ** Dictionaries: insertion-ordered association lists *)

Definition dict (V : Type) : Type := list (string * V).

Fixpoint dict_get {V : Type} (k : string) (d : dict V) : option V :=
  match d with
  | [] => None
  | (k', v) :: d' => if String.eqb k' k then Some v else dict_get k d'
  end.

Definition dict_mem {V : Type} (k : string) (d : dict V) : bool :=
  match dict_get k d with Some _ => true | None => false end.

(** [d[k] = v]: an existing key keeps its position, a new key goes last. *)
Fixpoint dict_set {V : Type} (k : string) (v : V) (d : dict V) : dict V :=
  match d with
  | [] => [(k, v)]
  | (k', v') :: d' =>
      if String.eqb k' k then (k', v) :: d' else (k', v') :: dict_set k v d'
  end.

(** [d[k]], a [KeyError] when the key is missing. *)
Definition dict_index {V : Type} (k : string) (d : dict V) : result V :=
  match dict_get k d with
  | Some v => Ok v
  | None => Raise KeyError
  end.

(** ** Regular expressions of the header guards

    The fragment of [re] the script uses: literals, [\d] and bounded greedy
    repetition.  [rmatch r s] lists, in backtracking order, what is left of
    [s] after each way [r] matches a prefix of it. *)

Inductive regex : Type :=
| RLit (c : ascii)
| RDigit
| RSeq (r1 r2 : regex)
| RRep (lo hi : nat) (r : regex).

Fixpoint rmatch (r : regex) (s : string) : list string :=
  match r with
  | RLit c =>
      match s with
      | String a s' => if Ascii.eqb a c then [s'] else []
      | EmptyString => []
      end
  | RDigit =>
      match s with
      | String a s' => if is_decimal a then [s'] else []
      | EmptyString => []
      end
  | RSeq r1 r2 => flat_map (rmatch r2) (rmatch r1 s)
  | RRep lo hi r1 =>
      (fix rep (lo hi : nat) (s : string) {struct hi} : list string :=
         match hi with
         | O => match lo with O => [s] | S _ => [] end
         | S hi' =>
             (flat_map (rep (Nat.pred lo) hi') (rmatch r1 s)
                ++ match lo with O => [s] | S _ => [] end)%list
         end) lo hi s
  end.

Fixpoint rseq (rs : list regex) : regex :=
  match rs with
  | [] => RRep 0 0 RDigit
  | [r] => r
  | r :: rs' => RSeq r (rseq rs')
  end.

Fixpoint rstr (s : string) : list regex :=
  match s with
  | EmptyString => []
  | String c s' => RLit c :: rstr s'
  end.

(** [re.match('^' r '$', s)]: without MULTILINE, [$] holds at the end of
    the string and just before a newline that ends it. *)
Definition re_match (r : regex) (s : string) : bool :=
  existsb (fun rest => String.eqb rest "" || String.eqb rest newline) (rmatch r s).

(** [^\d{4}-\d{2}-\d{2} 00:00:00$] *)
Definition iso_re : regex :=
  rseq ([RRep 4 4 RDigit; RLit "-"; RRep 2 2 RDigit; RLit "-"; RRep 2 2 RDigit]
          ++ rstr " 00:00:00")%list.

(** [^\d{1,2}/\d{1,2}/\d{4}$] *)
Definition date_re : regex :=
  rseq [RRep 1 2 RDigit; RLit "/"; RRep 1 2 RDigit; RLit "/"; RRep 4 4 RDigit].

(** [^\d{1,2}/\d{1,2}/\d{2,4}\-\d{1,2}\/\d{1,2}\/\d{2,4}$] *)
Definition range_re : regex :=
  rseq [RRep 1 2 RDigit; RLit "/"; RRep 1 2 RDigit; RLit "/"; RRep 2 4 RDigit;
        RLit "-";
        RRep 1 2 RDigit; RLit "/"; RRep 1 2 RDigit; RLit "/"; RRep 2 4 RDigit].

(** ** Calendar dates ([datetime.date], proleptic Gregorian) *)

Record date : Type := mk_date { year : Z; month : Z; day : Z }.

Definition is_leap (y : Z) : bool :=
  (y mod 4 =? 0) && (negb (y mod 100 =? 0) || (y mod 400 =? 0)).

Definition days_in_month (y m : Z) : Z :=
  if (m =? 2) && is_leap y then 29
  else nth (Z.to_nat m) [0; 31; 28; 31; 30; 31; 30; 31; 31; 30; 31; 30; 31] 0.

Definition days_before_year (y : Z) : Z :=
  let p := y - 1 in p * 365 + p / 4 - p / 100 + p / 400.

Definition days_before_month (y m : Z) : Z :=
  nth (Z.to_nat m) [0; 0; 31; 59; 90; 120; 151; 181; 212; 243; 273; 304; 334] 0
  + (if (2 <? m) && is_leap y then 1 else 0).

Definition toordinal (d : date) : Z :=
  days_before_year (year d) + days_before_month (year d) (month d) + day d.

(** Monday is 0, Saturday 5, Sunday 6. *)
Definition weekday (d : date) : Z := (toordinal d + 6) mod 7.

Definition valid_date (d : date) : bool :=
  (1 <=? year d) && (year d <=? 9999) && (1 <=? month d) && (month d <=? 12)
  && (1 <=? day d) && (day d <=? days_in_month (year d) (month d)).

Definition date_eqb (a b : date) : bool :=
  (year a =? year b) && (month a =? month b) && (day a =? day b).

Definition date_ltb (a b : date) : bool :=
  (year a <? year b)
  || ((year a =? year b)
      && ((month a <? month b) || ((month a =? month b) && (day a <? day b)))).

Definition date_leb (a b : date) : bool := negb (date_ltb b a).

(** [d + datetime.timedelta(days=1)]: the next calendar day, an
    [OverflowError] past 9999-12-31. *)
Definition next_day (d : date) : result date :=
  if day d <? days_in_month (year d) (month d)
  then Ok (mk_date (year d) (month d) (day d + 1))
  else if month d <? 12 then Ok (mk_date (year d) (month d + 1) 1)
  else if year d <? 9999 then Ok (mk_date (year d + 1) 1 1)
  else Raise OverflowError.

(** A naive [datetime.datetime]: a date and the time of day in
    microseconds. *)
Record datetime : Type := mk_datetime { dt_date : date; dt_tod : Z }.

Definition midnight (d : date) : datetime := mk_datetime d 0.

Definition dt_ltb (a b : datetime) : bool :=
  date_ltb (dt_date a) (dt_date b)
  || (date_eqb (dt_date a) (dt_date b) && (dt_tod a <? dt_tod b)).

Definition dt_gtb (a b : datetime) : bool := dt_ltb b a.

(** ** [strptime]

    [datetime.strptime] turns the format into a regular expression, one
    group per directive, takes the first match of a prefix of the text and
    rejects text that is left over.  A directive parser lists its matches
    in the order of the alternatives of its group. *)

Definition parser (A : Type) : Type := string -> list (A * string).

(** One character of the class [[lo-hi]], as its digit value. *)
Definition p_class (lo hi : Z) : parser Z := fun s =>
  match s with
  | String c s' =>
      if (48 + lo <=? ord c) && (ord c <=? 48 + hi) then [(digit_val c, s')] else []
  | EmptyString => []
  end.

Definition p_two (a b : parser Z) : parser Z := fun s =>
  flat_map (fun xs => map (fun ys => (10 * fst xs + fst ys, snd ys)) (b (snd xs))) (a s).

Definition p_alt (ps : list (parser Z)) : parser Z := fun s =>
  flat_map (fun p => p s) ps.

Definition p_skip (c : ascii) (p : parser Z) : parser Z := fun s =>
  match s with
  | String a s' => if Ascii.eqb a c then p s' else []
  | EmptyString => []
  end.

Definition p_digit : parser Z := p_class 0 9.

Inductive directive : Type := DY | Dy | Dm | Dd | DH | DM | DS.

Definition p_directive (d : directive) : parser Z :=
  match d with
  | DY => (* \d\d\d\d *)
      fun s => flat_map (fun xs => map (fun ys => (100 * fst xs + fst ys, snd ys))
                                       (p_two p_digit p_digit (snd xs)))
                        (p_two p_digit p_digit s)
  | Dy => (* \d\d *)
      p_two p_digit p_digit
  | Dm => (* 1[0-2]|0[1-9]|[1-9] *)
      p_alt [p_two (p_class 1 1) (p_class 0 2); p_two (p_class 0 0) (p_class 1 9);
             p_class 1 9]
  | Dd => (* 3[0-1]|[1-2]\d|0[1-9]|[1-9]| [1-9] *)
      p_alt [p_two (p_class 3 3) (p_class 0 1); p_two (p_class 1 2) p_digit;
             p_two (p_class 0 0) (p_class 1 9); p_class 1 9;
             p_skip " " (p_class 1 9)]
  | DH => (* 2[0-3]|[0-1]\d|\d *)
      p_alt [p_two (p_class 2 2) (p_class 0 3); p_two (p_class 0 1) p_digit; p_digit]
  | DM => (* [0-5]\d|\d *)
      p_alt [p_two (p_class 0 5) p_digit; p_digit]
  | DS => (* 6[0-1]|[0-5]\d|\d *)
      p_alt [p_two (p_class 6 6) (p_class 0 1); p_two (p_class 0 5) p_digit; p_digit]
  end.

(** [\s+], the longest run first. *)
Fixpoint p_spaces (s : string) : list string :=
  match s with
  | String c s' => if isspace c then (p_spaces s' ++ [s'])%list else []
  | EmptyString => []
  end.

Inductive fmt_item : Type :=
| FLit (c : ascii)
| FSpace
| FDir (d : directive).

Record fields : Type :=
  mk_fields { f_year : Z; f_month : Z; f_day : Z; f_hour : Z; f_minute : Z; f_second : Z }.

Definition no_fields : fields := mk_fields 1900 1 1 0 0 0.

Definition set_field (d : directive) (v : Z) (f : fields) : fields :=
  match d with
  | DY => mk_fields v (f_month f) (f_day f) (f_hour f) (f_minute f) (f_second f)
  | Dy => mk_fields (if v <=? 68 then v + 2000 else v + 1900)
                    (f_month f) (f_day f) (f_hour f) (f_minute f) (f_second f)
  | Dm => mk_fields (f_year f) v (f_day f) (f_hour f) (f_minute f) (f_second f)
  | Dd => mk_fields (f_year f) (f_month f) v (f_hour f) (f_minute f) (f_second f)
  | DH => mk_fields (f_year f) (f_month f) (f_day f) v (f_minute f) (f_second f)
  | DM => mk_fields (f_year f) (f_month f) (f_day f) (f_hour f) v (f_second f)
  | DS => mk_fields (f_year f) (f_month f) (f_day f) (f_hour f) (f_minute f) v
  end.

Fixpoint run_format (fmt : list fmt_item) (f : fields) (s : string)
  : list (fields * string) :=
  match fmt with
  | [] => [(f, s)]
  | FLit c :: fmt' =>
      match s with
      | String a s' => if Ascii.eqb a c then run_format fmt' f s' else []
      | EmptyString => []
      end
  | FSpace :: fmt' => flat_map (run_format fmt' f) (p_spaces s)
  | FDir d :: fmt' =>
      flat_map (fun vs => run_format fmt' (set_field d (fst vs) f) (snd vs))
               (p_directive d s)
  end.

(** [datetime.datetime.strptime(s, fmt)]; every failure is a
    [ValueError]. *)
Definition strptime (s : string) (fmt : list fmt_item) : result datetime :=
  match run_format fmt no_fields s with
  | [] => Raise ValueError
  | (f, rest) :: _ =>
      if negb (String.eqb rest "") then Raise ValueError
      else
        let d := mk_date (f_year f) (f_month f) (f_day f) in
        if valid_date d && (f_second f <=? 59)
        then Ok (mk_datetime d
                   (((f_hour f * 60 + f_minute f) * 60 + f_second f) * 1000000))
        else Raise ValueError
  end.

(** ['%m/%d/%Y'], ['%m/%d/%y'] and ['%Y-%m-%d %H:%M:%S'] *)
Definition fmt_mdY : list fmt_item := [FDir Dm; FLit "/"; FDir Dd; FLit "/"; FDir DY].
Definition fmt_mdy : list fmt_item := [FDir Dm; FLit "/"; FDir Dd; FLit "/"; FDir Dy].
Definition fmt_iso : list fmt_item :=
  [FDir DY; FLit "-"; FDir Dm; FLit "-"; FDir Dd; FSpace;
   FDir DH; FLit ":"; FDir DM; FLit ":"; FDir DS].

(** ** [strftime] *)

Definition pad2 (n : Z) : string :=
  String (digit_char (n / 10)) (String (digit_char (n mod 10)) "").

Definition nopad (n : Z) : string :=
  if n <? 10 then String (digit_char n) "" else pad2 n.

Definition pad4 (n : Z) : string := pad2 (n / 100) ++ pad2 (n mod 100).

(** [d.strftime('%#m/%#d/%Y')] *)
Definition strftime_mdY (d : date) : string :=
  nopad (month d) ++ "/" ++ nopad (day d) ++ "/" ++ pad4 (year d).

(** [d.strftime('%Y-%m-%d')] *)
Definition strftime_Ymd (d : date) : string :=
  pad4 (year d) ++ "-" ++ pad2 (month d) ++ "-" ++ pad2 (day d).

(** [t.strftime('%Y-%m-%d %H:%M:%S%z')] for a naive [t]: [%z] is empty. *)
Definition strftime_stamp (t : datetime) : string :=
  let secs := dt_tod t / 1000000 in
  strftime_Ymd (dt_date t) ++ " " ++ pad2 (secs / 3600) ++ ":"
    ++ pad2 (secs / 60 mod 60) ++ ":" ++ pad2 (secs mod 60).

(** ** The combined dataset *)

(** A cell of a sheet, as [get_all_sheets_records] leaves it. *)
Inductive cell : Type :=
| CNone
| CStr (s : string)
| CInt (n : Z)
| CBool (b : bool).

(** [str(v)] *)
Definition py_str (v : cell) : string :=
  match v with
  | CNone => "None"
  | CStr s => s
  | CInt n => str_int n
  | CBool true => "True"
  | CBool false => "False"
  end.

(** [v == s] for a string [s] *)
Definition cell_eq_str (v : cell) (s : string) : bool :=
  match v with
  | CStr t => String.eqb t s
  | _ => false
  end.

(** A sheet is its rows, the header first; the combined dataset maps a
    sheet name to the sheet. *)
Definition sheet : Type := list (list cell).
Definition dataset : Type := dict sheet.

(** [rows[0]], an [IndexError] on an empty list. *)
Definition first_row (rows : sheet) : result (list cell) :=
  match rows with
  | [] => Raise IndexError
  | r :: _ => Ok r
  end.

(** ** The opportunity-date classifier: [get_legacy_opportunities] *)

Definition labels : Type := list string.
Definition opportunity_map : Type := dict labels.

Definition ignored_columns : list string := ["Volunteers:"; "Total Hours:"].

Definition sheets_of_interest : list string :=
  ["2024 Handouts"; "2024 Meal Prep"; "2025 Saturday Handout";
   "2025 Sunday Handouts"; "2025 Meal Prep"; "2026 Saturday Handout";
   "2026 Sunday Handouts"; "2026 Meal Prep"].

Definition seventh : string := "seventh".
Definition riverside : string := "riverside".
Definition menchaca : string := "menchaca".
Definition meal_prep : string := "Meal Prep".

(** [strptime("4/5/2025", "%m/%d/%Y")], [strptime("10/18/2025", ...)] and
    [strptime("3/3/2024", ...)] *)
Definition first_day_of_saturday : datetime := midnight (mk_date 2025 4 5).
Definition first_day_of_riverside : datetime := midnight (mk_date 2025 10 18).
Definition missed_day : datetime := midnight (mk_date 2024 3 3).

(** [strptime(col, fmt)] on a header cell: a [TypeError] unless the cell
    is a string. *)
Definition strptime_cell (col : cell) (fmt : list fmt_item) : result datetime :=
  match col with
  | CStr s => strptime s fmt
  | _ => Raise TypeError
  end.

(** Lines 216-229: the labels of a literal date by weekday and era, or
    the exit on another weekday. *)
Definition classify (sheet_name : string) (col : cell) (col_date : datetime)
  : result labels :=
  if weekday (dt_date col_date) =? 5 then
    if dt_ltb col_date first_day_of_saturday then Ok [meal_prep]
    else if dt_ltb col_date first_day_of_riverside then Ok [seventh; meal_prep]
    else Ok [riverside; seventh; meal_prep]
  else if weekday (dt_date col_date) =? 6 then
    if dt_ltb col_date first_day_of_saturday then Ok [seventh]
    else Ok [menchaca]
  else
    Exit ("Unexpected weekday for date column " ++ py_str col
            ++ " in sheet " ++ sheet_name).

(** ['%m/%d/%y' if len(s.split('/')[-1]) == 2 else '%m/%d/%Y'] *)
Definition range_format (s : string) : list fmt_item :=
  if (String.length (last (split_on "/" s) "") =? 2)%nat then fmt_mdy else fmt_mdY.

(** Lines 240-249: the [while current_date <= end_date] loop.  [fuel]
    bounds the iterations; [get_range] gives it the number of days from
    the start to the end, which the loop never exceeds
    ([range_loop_fuel]). *)
Fixpoint range_loop (fuel : nat) (current_date end_date : date)
  (opportunities : opportunity_map) : result opportunity_map :=
  match fuel with
  | O => Ok opportunities
  | S fuel' =>
      if date_leb current_date end_date then
        if date_eqb current_date (dt_date missed_day) then
          next <- next_day current_date ;;
          range_loop fuel' next end_date opportunities
        else
          let opportunities' :=
            if weekday current_date =? 6 then
              let date_str := strftime_mdY current_date in
              if negb (dict_mem date_str opportunities)
              then dict_set date_str [seventh] opportunities
              else opportunities
            else opportunities in
          next <- next_day current_date ;;
          range_loop fuel' next end_date opportunities'
      else Ok opportunities
  end.

Definition days_between (start_date end_date : date) : nat :=
  Z.to_nat (toordinal end_date - toordinal start_date + 1).

(** Lines 234-237: the two ends of a date-range header. *)
Definition range_bounds (col : cell) : result (date * date) :=
  match split_on "-" (py_str col) with
  | [start_str; end_str] =>
      start_dt <- strptime start_str (range_format start_str) ;;
      end_dt <- strptime end_str (range_format end_str) ;;
      Ok (dt_date start_dt, dt_date end_dt)
  | _ => Raise ValueError
  end.

(** Lines 234-249: a date-range header. *)
Definition get_range (col : cell) (opportunities : opportunity_map)
  : result opportunity_map :=
  bounds <- range_bounds col ;;
  range_loop (days_between (fst bounds) (snd bounds)) (fst bounds) (snd bounds)
             opportunities.

(** Lines 203-204: an ISO timestamp header becomes an [M/D/YYYY] one. *)
Definition reinterpret_iso (col : cell) : result cell :=
  if re_match iso_re (py_str col) then
    t <- strptime_cell col fmt_iso ;;
    Ok (CStr (strftime_mdY (dt_date t)))
  else Ok col.

(** Lines 206-229: a literal-date header. *)
Definition get_literal (now : datetime) (sheet_name : string) (col : cell)
  (opportunities : opportunity_map) : result opportunity_map :=
  col_date <- strptime_cell col fmt_mdY ;;
  if dt_gtb col_date now then Ok opportunities
  else if date_eqb (dt_date col_date) (dt_date missed_day) then Ok opportunities
  else
    let date_str := strftime_mdY (dt_date col_date) in
    ls <- classify sheet_name col col_date ;;
    Ok (dict_set date_str ls opportunities).

(** Lines 201-253: the body of [for col in row]. *)
Definition process_col (now : datetime) (sheet_name : string)
  (opportunities : opportunity_map) (col0 : cell) : result opportunity_map :=
  col <- reinterpret_iso col0 ;;
  if re_match date_re (py_str col) then
    get_literal now sheet_name col opportunities
  else if existsb (cell_eq_str col) ignored_columns then Ok opportunities
  else if re_match range_re (py_str col) then get_range col opportunities
  else
    Exit ("Not a date string: " ++ dquote ++ py_str col ++ dquote
            ++ " in sheet " ++ sheet_name).

(** Lines 198-201: the body of [for sheet in sheets_of_interest]. *)
Definition process_sheet (now : datetime) (combined : dataset)
  (opportunities : opportunity_map) (sheet_name : string)
  : result opportunity_map :=
  rows <- dict_index sheet_name combined ;;
  row <- first_row rows ;;
  foldM (process_col now sheet_name) row opportunities.

Definition get_legacy_opportunities (now : datetime) (combined : dataset)
  : result opportunity_map :=
  foldM (process_sheet now combined) sheets_of_interest [].

(** ** The opportunities table *)

(** A [DataFrame]: its column names and its rows; a row maps a column to
    its cell, a column it does not list being missing ([CNone], which
    stands for both [None] and NaN).  The table that [to_csv] writes and
    [read_csv] reads back is the same table. *)
Definition row : Type := dict cell.

Record table : Type := mk_table { columns : list string; rows : list row }.

Definition row_get (col : string) (r : row) : cell :=
  match dict_get col r with
  | Some v => v
  | None => CNone
  end.

Definition has_column (col : string) (df : table) : bool :=
  existsb (String.eqb col) (columns df).

(** [df[col]]: the cells of a column, a [KeyError] when there is no such
    column. *)
Definition column (col : string) (df : table) : result (list cell) :=
  if has_column col df then Ok (map (row_get col) (rows df)) else Raise KeyError.

(** [pd.concat([df, pd.DataFrame([new_row])], ignore_index=True)]: the
    columns of [new_row] that [df] lacks are added after its own, and the
    row goes last. *)
Definition concat_row (df : table) (new_row : row) : table :=
  mk_table
    (columns df ++ filter (fun c => negb (has_column c df)) (map fst new_row))%list
    (rows df ++ [new_row])%list.

(** One element of [series.str.contains(date)]: missing or not a string
    gives NaN, which the mask [&] counts as no match.  [date] is a key of
    the opportunity map, digits and slashes, so the pattern is literal. *)
Definition cell_contains (date : string) (v : cell) : bool :=
  match v with
  | CStr s => contains date s
  | _ => false
  end.

(** ** The opportunity merge: [generate_migrated_opportunities] *)

Section Merge.

(** [strptime(s, '%Y-%m-%d %H:%M:%S%z')], as the wall-clock date and
    time it reads; the library function is left open. *)
Variable strptime_tz : string -> result datetime.

(** [str(uuid.uuid4())], the [n]-th identifier drawn in the run. *)
Variable uuid4 : nat -> string.

(** Lines 276-278: the timestamp of a row as [strptime] reads it, [+00]
    completed to [+0000] first; a [TypeError] on a cell that is not a
    string. *)
Definition row_datetime (date : cell) : result datetime :=
  match date with
  | CStr s => strptime_tz (if endswith "+00" s then s ++ "00" else s)
  | _ => Raise TypeError
  end.

(** Lines 274-288: the body of [for index, row in df.iterrows()]. *)
Definition check_row (now : datetime) (legacy_opportunities : opportunity_map)
  (df : table) (_ : unit) (r : row) : result unit :=
  date0 <- (if has_column "datetime" df then Ok (row_get "datetime" r)
            else Raise KeyError) ;;
  t <- row_datetime date0 ;;
  let date := strftime_mdY (dt_date t) in
  if dict_mem date legacy_opportunities then Ok tt
  else
    date_obj <- strptime date fmt_mdY ;;
    if dt_gtb date_obj now then Ok tt
    else Exit ("Not in opportunities" ++ newline ++ date).

Definition validate (now : datetime) (legacy_opportunities : opportunity_map)
  (df : table) : result unit :=
  foldM (check_row now legacy_opportunities df) (rows df) tt.

(** Line 293: [df[df['datetime'].str.contains(date) & (df['name'] == name)]] *)
Definition row_matches (date opportunity_name : string) (r : row) : bool :=
  cell_contains date (row_get "datetime" r)
  && cell_eq_str (row_get "name" r) opportunity_name.

Definition matches (df : table) (date opportunity_name : string)
  : result (list row) :=
  _ <- column "datetime" df ;;
  _ <- column "name" df ;;
  Ok (filter (row_matches date opportunity_name) (rows df)).

(** Lines 296-311 *)
Definition new_row (now : datetime) (id date_part opportunity_name : string) : row :=
  [("id", CStr id);
   ("image_url", CNone);
   ("title", CStr opportunity_name);
   ("datetime", CStr (date_part ++ " 09:00:00-0500"));
   ("location", CStr "location coming soon");
   ("description", CStr "description coming soon");
   ("spot_left", CInt 0);
   ("created_at", CStr (strftime_stamp now));
   ("Ended", CStr "t");
   ("start_time", CStr "start time coming soon");
   ("end_time", CStr "end time coming soon");
   ("redemption_code", CNone);
   ("hours_approved", CStr "f");
   ("location_link", CNone)].

(** Lines 291-313: the body of [for opportunity_name in opportunity_names];
    the state is the table and the number of identifiers drawn. *)
Definition merge_name (now : datetime) (date : string) (st : table * nat)
  (opportunity_name : string) : result (table * nat) :=
  let (df, n) := st in
  ms <- matches df date opportunity_name ;;
  if (List.length ms =? 0)%nat then
    t <- strptime date fmt_mdY ;;
    Ok (concat_row df (new_row now (uuid4 n) (strftime_Ymd (dt_date t))
                               opportunity_name),
        S n)
  else Ok (df, n).

(** Lines 289-291: the body of [for legacy_opportunity in
    legacy_opportunities.items()]. *)
Definition merge_date (now : datetime) (st : table * nat)
  (legacy_opportunity : string * labels) : result (table * nat) :=
  let (date, opportunity_names) := legacy_opportunity in
  foldM (merge_name now date) opportunity_names st.

Definition merge (now : datetime) (legacy_opportunities : opportunity_map)
  (df : table) : result table :=
  st <- foldM (merge_date now) legacy_opportunities (df, O) ;;
  Ok (fst st).

(** The table read from [data/opportunities.csv] is [df]; the result is
    the table written to [output_csv]. *)
Definition generate_migrated_opportunities (now : datetime) (combined : dataset)
  (df : table) : result table :=
  legacy_opportunities <- get_legacy_opportunities now combined ;;
  _ <- validate now legacy_opportunities df ;;
  merge now legacy_opportunities df.

End Merge.

(** One reading of ['%Y-%m-%d %H:%M:%S%z']: the offset written [+HHMM] or
    [-HHMM], below 24 hours. *)
Definition strptime_tz_hhmm (s : string) : result datetime :=
  match run_format fmt_iso no_fields s with
  | (f, String sign rest) :: _ =>
      if (Ascii.eqb sign "+" || Ascii.eqb sign "-")
         && match p_two (p_class 0 2) p_digit rest with
            | (h, rest') :: _ =>
                (h <=? 23)
                && match p_two (p_class 0 5) p_digit rest' with
                   | (_, EmptyString) :: _ => true
                   | _ => false
                   end
            | [] => false
            end
      then strptime (slice_to (String.length s - 5) s) fmt_iso
      else Raise ValueError
  | _ => Raise ValueError
  end.

(** ** The phone normaliser: [_format_phone] *)

(** [phone] is a cell: [None], a string, or an [int] ([bool] is an [int]
    in Python); floats are outside the embedding.  The result is [None] or
    a string. *)
Definition _format_phone (phone : cell) : option string :=
  match phone with
  | CNone => None
  | _ =>
      let s :=
        match phone with
        | CStr p => strip p
        | CInt n => str_int n
        | CBool b => str_int (if b then 1 else 0)
        | CNone => ""
        end in
      let s := if str_mem "." s then hd "" (split_on "." s) else s in
      let digits := str_filter isdigit s in
      let digits :=
        if (String.length digits =? 11)%nat && startswith "1" digits
        then slice_from 1 digits else digits in
      if (String.length digits =? 10)%nat then
        Some ("(" ++ slice_to 3 digits ++ ") " ++ slice 3 6 digits ++ "-"
                ++ slice_from 6 digits)
      else Some s
  end.

(** ** Vocabulary of the properties *)

(** The date a header cell stands for when the literal-date branch
    (lines 203-208) takes it: the cell after the ISO reinterpretation
    matches the date pattern and parses. *)
Definition literal_date (col0 : cell) : option datetime :=
  match reinterpret_iso col0 with
  | Ok col =>
      if re_match date_re (py_str col) then
        match strptime_cell col fmt_mdY with
        | Ok t => Some t
        | _ => None
        end
      else None
  | _ => None
  end.

(** The header cell reaches the date-range branch (line 232). *)
Definition range_header (col0 : cell) : bool :=
  match reinterpret_iso col0 with
  | Ok col =>
      negb (re_match date_re (py_str col))
      && negb (existsb (cell_eq_str col) ignored_columns)
      && re_match range_re (py_str col)
  | _ => false
  end.

(** The five label lists the classifier writes. *)
Definition known_labels : list labels :=
  [[meal_prep]; [seventh; meal_prep]; [riverside; seventh; meal_prep];
   [seventh]; [menchaca]].

(** The (date, label) pairs of an opportunity map, in the order the merge
    visits them. *)
Definition pairs (legacy_opportunities : opportunity_map) : list (string * string) :=
  flat_map (fun e => map (pair (fst e)) (snd e)) legacy_opportunities.

(** Every entry of the map is keyed by a valid date other than the missed
    day and holds one of the five label lists; no key occurs twice. *)
Definition well_formed_map (m : opportunity_map) : Prop :=
  NoDup (map fst m)
  /\ forall k v, In (k, v) m ->
       In v known_labels
       /\ exists d, k = strftime_mdY d /\ valid_date d = true
                    /\ date_eqb d (dt_date missed_day) = false.

(** A (date, label) pair that no row of [df] matches on line 293. *)
Definition unmatched (df : table) (p : string * string) : bool :=
  negb (existsb (row_matches (fst p) (snd p)) (rows df)).

(** Line 300: [strptime(date, '%m/%d/%Y').strftime('%Y-%m-%d')] for a key
    of the map. *)
Definition ymd_of_key (date : string) : string :=
  match strptime date fmt_mdY with
  | Ok t => strftime_Ymd (dt_date t)
  | _ => ""
  end.

(** The rows synthesized for a list of pairs, one each, the identifiers
    drawn in order from the [n]-th on. *)
Fixpoint synthesized (uuid4 : nat -> string) (now : datetime) (n : nat)
  (ps : list (string * string)) : list row :=
  match ps with
  | [] => []
  | p :: ps' =>
      new_row now (uuid4 n) (ymd_of_key (fst p)) (snd p)
        :: synthesized uuid4 now (S n) ps'
  end.



(** ** Sample data *)

(** 2026-01-05 12:00:00, a run time. *)
Definition sample_now : datetime := mk_datetime (mk_date 2026 1 5) 43200000000.

Definition header_only (cols : list string) : sheet := [map CStr cols].

(** A dataset with the eight sheets of interest: the header given for a
    sheet, or the single column [Volunteers:]. *)
Definition dataset_with (headers : dict (list string)) : dataset :=
  map (fun sn => (sn, header_only match dict_get sn headers with
                                  | Some h => h
                                  | None => ["Volunteers:"]
                                  end))
      sheets_of_interest.

Definition sample_dataset : dataset :=
  dataset_with
    [("2024 Handouts",
      ["Volunteers:"; "2/25/24-3/10/24"; "2024-05-05 00:00:00"; "Total Hours:"]);
     ("2024 Meal Prep", ["Volunteers:"; "5/4/2024"]);
     ("2025 Saturday Handout", ["Volunteers:"; "4/5/2025"; "10/18/2025"]);
     ("2025 Sunday Handouts", ["Volunteers:"; "4/6/2025"]);
     ("2026 Saturday Handout", ["Volunteers:"; "1/3/2026"; "1/10/2026"])].

(** The map the classifier returns on [sample_dataset] at [sample_now]. *)
Definition sample_map : opportunity_map :=
  [("2/25/2024", [seventh]); ("3/10/2024", [seventh]); ("5/5/2024", [seventh]);
   ("5/4/2024", [meal_prep]); ("4/5/2025", [seventh; meal_prep]);
   ("10/18/2025", [riverside; seventh; meal_prep]); ("4/6/2025", [menchaca]);
   ("1/3/2026", [riverside; seventh; meal_prep])].

(** The columns of [data/opportunities.csv] with a [name] column, the
    column line 293 reads. *)
Definition sample_columns : list string :=
  ["id"; "image_url"; "title"; "name"; "datetime"; "location"; "description";
   "spot_left"; "created_at"; "Ended"; "start_time"; "end_time";
   "redemption_code"; "hours_approved"; "location_link"].

Definition sample_uuid4 (n : nat) : string := "uuid-" ++ str_int (Z.of_nat n).
Definition sample_uuid4' (n : nat) : string := "uuid-b" ++ str_int (Z.of_nat n).

Definition pair_eq_dec (p q : string * string) : {p = q} + {p <> q}.
Proof. decide equality; apply string_dec. Defined.

(** A table with one row, the seventh-street handout of 4/5/2025 as the
    new system exports it. *)
Definition sample_table : table :=
  mk_table sample_columns
    [[("id", CStr "0b5c"); ("title", CStr "seventh"); ("name", CStr "seventh");
      ("datetime", CStr "2025-04-05 14:00:00+00"); ("spot_left", CInt 0);
      ("Ended", CStr "t")]].

Definition boundary_dataset : dataset :=
  dataset_with [("2025 Saturday Handout", ["Volunteers:"; "4/5/2025"])].

(** ** Further vocabulary *)

(** The header row of a sheet as line 200 reads it: [combined[sheet][0]]. *)
Definition header_of (combined : dataset) (sheet_name : string) : result (list cell) :=
  rows <- dict_index sheet_name combined ;; first_row rows.

(** The header cell reaches the last branch (lines 250-253). *)
Definition unrecognized_header (col0 : cell) : bool :=
  match reinterpret_iso col0 with
  | Ok col =>
      negb (re_match date_re (py_str col))
      && negb (existsb (cell_eq_str col) ignored_columns)
      && negb (re_match range_re (py_str col))
  | _ => false
  end.

(** A header the classifier passes over: an administrative label, or a
    literal date after run time or on the missed day. *)
Definition passed_over (now : datetime) (col : cell) : Prop :=
  col = CStr "Volunteers:" \/ col = CStr "Total Hours:"
  \/ exists t, literal_date col = Some t
       /\ (dt_gtb t now = true \/ date_eqb (dt_date t) (dt_date missed_day) = true).

(** What an entry of the map can hold under the date [d]: on a Saturday
    the list of its era, the date not after run time; on a Sunday
    [seventh], or [menchaca] from 4/5/2025 on and not after run time. *)
Definition entry_fits (now : datetime) (d : date) (ls : labels) : Prop :=
  (weekday d = 5 /\ classify "" CNone (midnight d) = Ok ls
   /\ dt_gtb (midnight d) now = false)
  \/ (weekday d = 6
      /\ (ls = [seventh]
          \/ (ls = [menchaca] /\ dt_ltb (midnight d) first_day_of_saturday = false
              /\ dt_gtb (midnight d) now = false))).

(** 9999-12-31, [datetime.date.max]. *)
Definition date_max : date := mk_date 9999 12 31.

(** [sample_dataset] with data rows under two headers and a sheet the
    classifier is not configured for. *)
Definition sample_dataset_with_rows : dataset :=
  (map (fun e => (fst e, (snd e ++ [[CStr "jane doe"; CInt 2]; [CNone]])%list))
       sample_dataset
   ++ [("Volunteer Info", [[CStr "Name"; CStr "Email"]])])%list.

(** Line 51: [f"({digits[:3]}) {digits[3:6]}-{digits[6:]}"]. *)
Definition formatted_phone (digits : string) : string :=
  "(" ++ slice_to 3 digits ++ ") " ++ slice 3 6 digits ++ "-" ++ slice_from 6 digits.

(** [all(p(c) for c in s)] *)
Fixpoint str_forall (p : ascii -> bool) (s : string) : bool :=
  match s with
  | EmptyString => true
  | String c s' => p c && str_forall p s'
  end.

(** ** Names: [get_all_names]

    Case mapping on Latin-1 text.  [str.lower] stays within Latin-1.  The
    capital [str.capitalize] gives the first character does not for
    U+00B5 and U+00FF, and is two characters for U+00DF: a word that
    starts with one of the three is outside the embedding, and
    [capitalize] is [None] on it. *)

Definition lower_char (c : ascii) : ascii :=
  let n := ord c in
  if ((65 <=? n) && (n <=? 90)) || ((192 <=? n) && (n <=? 214))
     || ((216 <=? n) && (n <=? 222))
  then chr (Z.to_nat (n + 32)) else c.

Fixpoint str_lower (s : string) : string :=
  match s with
  | EmptyString => EmptyString
  | String c s' => String (lower_char c) (str_lower s')
  end.

Definition title_char (c : ascii) : option ascii :=
  let n := ord c in
  if (n =? 181) || (n =? 223) || (n =? 255) then None
  else if ((97 <=? n) && (n <=? 122)) || ((224 <=? n) && (n <=? 246))
          || ((248 <=? n) && (n <=? 254))
  then Some (chr (Z.to_nat (n - 32))) else Some c.

(** [w.capitalize()] *)
Definition capitalize (w : string) : option string :=
  match w with
  | EmptyString => Some EmptyString
  | String c w' =>
      match title_char c with
      | Some u => Some (String u (str_lower w'))
      | None => None
      end
  end.

(** [s.split()]: the runs of characters between white space.  The
    auxiliary function returns the word the text starts with, empty when
    it starts with white space, and the words after it. *)
Fixpoint split_from (s : string) : string * list string :=
  match s with
  | EmptyString => (EmptyString, [])
  | String c s' =>
      let (w, ws) := split_from s' in
      if isspace c then (EmptyString, match w with EmptyString => ws | _ => w :: ws end)
      else (String c w, ws)
  end.

Definition split_ws (s : string) : list string :=
  let (w, ws) := split_from s in
  match w with EmptyString => ws | _ => w :: ws end.

(** [sep.join(ws)] *)
Fixpoint join (sep : string) (ws : list string) : string :=
  match ws with
  | [] => EmptyString
  | [w] => w
  | w :: ws' => w ++ sep ++ join sep ws'
  end.

Fixpoint capitalize_all (ws : list string) : option (list string) :=
  match ws with
  | [] => Some []
  | w :: ws' =>
      match capitalize w, capitalize_all ws' with
      | Some u, Some us => Some (u :: us)
      | _, _ => None
      end
  end.

(** Line 118: [' '.join(word.capitalize() for word in name.split())] *)
Definition normalize_name (name : string) : option string :=
  match capitalize_all (split_ws name) with
  | Some us => Some (join " " us)
  | None => None
  end.

(** [names.add(name)] on a set kept as a list without repetition. *)
Definition set_add (x : string) (s : list string) : list string :=
  if existsb (String.eqb x) s then s else (s ++ [x])%list.

(** [sorted(xs)] and [xs.sort()] on strings: ascending by code points. *)
Fixpoint insert_sorted (x : string) (l : list string) : list string :=
  match l with
  | [] => [x]
  | y :: l' => if String.leb x y then x :: l else y :: insert_sorted x l'
  end.

Fixpoint sort (l : list string) : list string :=
  match l with
  | [] => []
  | x :: l' => insert_sorted x (sort l')
  end.

Definition name_column : dict nat :=
  [("2024 Handouts", 0%nat); ("2024 Meal Prep", 0%nat);
   ("2025 Saturday Handout", 0%nat); ("2025 Sunday Handouts", 0%nat);
   ("2025 Meal Prep", 0%nat); ("Volunteer Info", 0%nat)].

(** Lines 114-119: one data row. *)
Definition add_row_name (column : nat) (names : list string) (row : list cell)
  : option (list string) :=
  if (column <? List.length row)%nat then
    match nth column row CNone with
    | CStr name =>
        if (2 <=? List.length (split_ws name))%nat then
          match normalize_name name with
          | Some n => Some (set_add n names)
          | None => None
          end
        else Some names
    | _ => Some names
    end
  else Some names.

Fixpoint fold_option {A S : Type} (body : S -> A -> option S) (xs : list A) (s : S)
  : option S :=
  match xs with
  | [] => Some s
  | x :: xs' =>
      match body s x with
      | Some s' => fold_option body xs' s'
      | None => None
      end
  end.

(** Lines 111-119: one sheet; [rows[1:]] leaves the header out. *)
Definition add_sheet_names (names : list string) (entry : string * sheet)
  : option (list string) :=
  let column := match dict_get (fst entry) name_column with
                | Some c => c
                | None => 0%nat
                end in
  fold_option (add_row_name column) (tl (snd entry)) names.

Definition get_all_names (combined : dataset) : option (list string) :=
  match fold_option add_sheet_names combined [] with
  | Some names => Some (sort names)
  | None => None
  end.

(** A word as [split] returns it: not empty, no white space in it. *)
Definition is_word (w : string) : bool :=
  negb (String.eqb w "") && str_forall (fun c => negb (isspace c)) w.

(** Each element below the next, by code points. *)
Fixpoint strictly_ascending (l : list string) : bool :=
  match l with
  | a :: (b :: _) as l' => String.ltb a b && strictly_ascending l'
  | _ => true
  end.

(** A cell of a data row that [get_all_names] takes for a name (lines
    113-116): the first cell of a row after the header, a string of two
    words or more. *)
Definition name_cell (combined : dataset) (s : string) : Prop :=
  exists sheet_name rows rest,
    In (sheet_name, rows) combined /\ In (CStr s :: rest) (tl rows)
    /\ (2 <= List.length (split_ws s))%nat.

Definition sample_people : dataset :=
  [("2024 Handouts",
    [[CStr "Volunteers:"; CStr "4/6/2024"];
     [CStr "jane q. doe"; CInt 1];
     [CStr "Bob  smith"];
     [CStr "single"];
     [CNone; CInt 2];
     [];
     [CStr "JANE Q. DOE"]]);
   ("Volunteer Info",
    [[CStr "Name"; CStr "Email"; CStr "Phone"];
     [CStr "bob SMITH"; CStr "bob@example.org"; CStr "15125898513.0"];
     [CStr "Al Bo"; CNone; CInt 5125550000]])].

(** ** Contacts: [get_email_from_name], [get_phone_from_name] *)

(** What can end a call below: the exits and exceptions of the classifier
    and the merge, and the [AttributeError] of [row[0].lower()] on a cell
    that is not a string. *)
Inductive failure : Type :=
| SystemExit (diag : string)
| Exception (e : exn)
| AttributeError.

Inductive attempt (A : Type) : Type :=
| Done (a : A)
| Failed (f : failure).

Arguments Done {A} a.
Arguments Failed {A} f.

Definition attempt_of {A : Type} (r : result A) : attempt A :=
  match r with
  | Ok a => Done a
  | Exit d => Failed (SystemExit d)
  | Raise e => Failed (Exception e)
  end.

(** [headers.index(x)] for a string [x]; [None] when [x in headers] is
    false. *)
Fixpoint index_of (x : string) (headers : list cell) : option nat :=
  match headers with
  | [] => None
  | h :: hs =>
      if cell_eq_str h x then Some 0%nat
      else match index_of x hs with
           | Some i => Some (S i)
           | None => None
           end
  end.

(** [bool(v)] *)
Definition truthy (v : cell) : bool :=
  match v with
  | CNone => false
  | CStr s => negb (String.eqb s "")
  | CInt n => negb (n =? 0)
  | CBool b => b
  end.

(** Lines 161-163 and 174-176: the loop over [rows[1:]].  [Done (Some v)]
    is the cell of the first row that passes the test, [Done None] the
    end of the loop. *)
Fixpoint find_row (name : string) (col : nat) (rows : list (list cell))
  : attempt (option cell) :=
  match rows with
  | [] => Done None
  | row :: rows' =>
      match row with
      | [] => find_row name col rows'
      | CStr s :: _ =>
          if String.eqb (str_lower s) (str_lower name)
             && (col <? List.length row)%nat
          then Done (Some (nth col row CNone))
          else find_row name col rows'
      | _ :: _ => Failed AttributeError
      end
  end.

(** Lines 154-161 and 167-174, which differ in the header they look for. *)
Definition find_contact (header name : string) (combined : dataset)
  : attempt (option cell) :=
  match dict_get "Volunteer Info" combined with
  | Some (headers :: data) =>
      match index_of header headers with
      | Some col => find_row name col data
      | None => Done None
      end
  | _ => Done None
  end.

(** The result is a cell, [CNone] for [None]. *)
Definition get_email_from_name (name : string) (combined : dataset) : attempt cell :=
  match find_contact "Email" name combined with
  | Done (Some email) => Done email
  | Done None => Done CNone
  | Failed f => Failed f
  end.

Definition get_phone_from_name (name : string) (combined : dataset)
  : attempt (option string) :=
  match find_contact "Phone" name combined with
  | Done (Some phone) => if truthy phone then Done (_format_phone phone) else Done None
  | Done None => Done None
  | Failed f => Failed f
  end.

(** ** Users: [get_new_value], [generate_migrated_users], [do_merging] *)

Definition is_none (v : cell) : bool :=
  match v with CNone => true | _ => false end.

(** The table read from [csv_file] is [df]. *)
Definition get_new_value (df : table) (column : string) : result (list cell) :=
  if has_column column df
  then Ok (filter (fun v => negb (is_none v)) (map (row_get column) (rows df)))
  else Raise ValueError.

Definition cell_of (s : option string) : cell :=
  match s with
  | Some s => CStr s
  | None => CNone
  end.

(** Line 331, on one row: a missing phone stays missing, any other is
    normalised. *)
Definition normalize_phone (r : row) : row :=
  match row_get "phone_number" r with
  | CNone => r
  | v => dict_set "phone_number" (cell_of (_format_phone v)) r
  end.

(** Lines 336-344: the row of one legacy name, [id] being the identifier
    drawn for it. *)
Definition new_user (combined : dataset) (df : table) (id name : string)
  : attempt row :=
  let row := map (fun col => (col, CNone)) (columns df) in
  let row := dict_set "id" (CStr id) row in
  let row := dict_set "name" (CStr name) row in
  let row := dict_set "admin" (CStr "f") row in
  let row := dict_set "email_verified" (CStr "f") row in
  match get_email_from_name name combined with
  | Failed f => Failed f
  | Done email =>
      let row := dict_set "email" (if truthy email then email else CNone) row in
      match get_phone_from_name name combined with
      | Failed f => Failed f
      | Done phone =>
          let row := dict_set "phone_number" (cell_of phone) row in
          Done (dict_set "subscribe_newsletter" (CStr "f") row)
      end
  end.

(** Lines 334-345: the loop, [n] identifiers having been drawn before. *)
Fixpoint new_users (uuid4 : nat -> string) (combined : dataset) (df : table)
  (n : nat) (names : list string) : attempt (list row) :=
  match names with
  | [] => Done []
  | name :: names' =>
      match new_user combined df (uuid4 n) name with
      | Failed f => Failed f
      | Done row =>
          match new_users uuid4 combined df (S n) names' with
          | Failed f => Failed f
          | Done new_rows => Done (row :: new_rows)
          end
      end
  end.

(** [pd.concat([df, pd.DataFrame(new_rows)], ignore_index=True)] *)
Definition concat (df : table) (new_rows : list row) : table :=
  fold_left concat_row new_rows df.

(** The table read from [users_csv] is [df]; [only_in_legacy] is the set
    as a list without repetition; the result is the table written to
    [output_csv]. *)
Definition generate_migrated_users (uuid4 : nat -> string)
  (only_in_legacy : list string) (combined : dataset) (df : table)
  : attempt table :=
  let df :=
    if has_column "phone_number" df
    then mk_table (columns df) (map normalize_phone (rows df))
    else df in
  match new_users uuid4 combined df 0 (sort only_in_legacy) with
  | Failed f => Failed f
  | Done new_rows => Done (concat df new_rows)
  end.

(** The files a run of [do_merging] has written. *)
Record written : Type :=
  mk_written { users_migrated : option table; opportunities_migrated : option table }.

(** Line 147: [set(names_legacy) - set(names_new)] *)
Definition legacy_only (names_legacy : list string) (names_new : list cell)
  : list string :=
  filter (fun n => negb (existsb (fun v => cell_eq_str v n) names_new)) names_legacy.

(** [users] is the table in [data/users.csv], [opportunities] the table in
    [data/opportunities.csv].  The result is the files written and how the
    call ended; it is [None] when a name is outside the embedding. *)
Definition do_merging (strptime_tz : string -> result datetime)
  (uuid4 : nat -> string) (now : datetime) (combined : dataset)
  (users opportunities : table) : option (written * attempt unit) :=
  match get_all_names combined with
  | None => None
  | Some names_legacy =>
      Some
        match get_new_value users "name" with
        | Exit d => (mk_written None None, Failed (SystemExit d))
        | Raise e => (mk_written None None, Failed (Exception e))
        | Ok names_new =>
            let only_in_legacy := legacy_only names_legacy names_new in
            match generate_migrated_users uuid4 only_in_legacy combined users with
            | Failed f => (mk_written None None, Failed f)
            | Done users' =>
                match generate_migrated_opportunities
                        strptime_tz
                        (fun n => uuid4 (List.length only_in_legacy + n)%nat)
                        now combined opportunities with
                | Ok opportunities' =>
                    (mk_written (Some users') (Some opportunities'), Done tt)
                | Exit d => (mk_written (Some users') None, Failed (SystemExit d))
                | Raise e => (mk_written (Some users') None, Failed (Exception e))
                end
            end
        end
  end.

Definition sample_users : table :=
  mk_table
    ["id"; "name"; "email"; "phone_number"; "admin"]
    [[("id", CStr "u-1"); ("name", CStr "Jane Q. Doe");
      ("email", CStr "jane@example.org"); ("phone_number", CStr "512.555.0100");
      ("admin", CStr "t")];
     [("id", CStr "u-2"); ("name", CStr "Zed Only"); ("email", CNone);
      ("phone_number", CNone); ("admin", CStr "f")]].

(** The rows a lookup passes without stopping: no cells, or a first cell
    that is a string other than the name. *)
Definition passed_row (name : string) (row : list cell) : Prop :=
  row = [] \/ exists s rest, row = CStr s :: rest /\ str_lower s <> str_lower name.

(** A Volunteer Info sheet with a blank row above a person's row. *)
Definition blank_row_people : dataset :=
  [("2024 Handouts", [[CStr "Volunteers:"]; [CStr "bob smith"]]);
   ("Volunteer Info",
    [[CStr "Name"; CStr "Email"];
     [CStr "Al Bo"; CStr "al@example.org"];
     [CNone; CNone];
     [CStr "Bob Smith"; CStr "bob@example.org"]])].

(** The columns [generate_migrated_users] fills in a new row. *)
Definition user_columns : list string :=
  ["id"; "name"; "admin"; "email_verified"; "email"; "phone_number";
   "subscribe_newsletter"].

(** A data row of the Volunteer Info sheet whose first cell is not a
    string. *)
Definition non_text_row (combined : dataset) : Prop :=
  exists headers data c rest,
    dict_get "Volunteer Info" combined = Some (headers :: data)
    /\ In (c :: rest) data /\ forall s, c <> CStr s.

(** ** The opportunities table as the new system exports it *)

(** The columns of [data/opportunities.csv]: the keys of the row of lines
    296-311.  There is a [title] column and no [name] column. *)
Definition exported_columns : list string :=
  ["id"; "image_url"; "title"; "datetime"; "location"; "description";
   "spot_left"; "created_at"; "Ended"; "start_time"; "end_time";
   "redemption_code"; "hours_approved"; "location_link"].

(** One exported row, the seventh-street handout of 4/5/2025. *)
Definition exported_table : table :=
  mk_table exported_columns
    [[("id", CStr "0b5c"); ("image_url", CNone); ("title", CStr "seventh");
      ("datetime", CStr "2025-04-05 14:00:00+00");
      ("location", CStr "7th Street"); ("description", CStr "Saturday handout");
      ("spot_left", CInt 0); ("created_at", CStr "2025-03-01 10:00:00+00");
      ("Ended", CStr "t"); ("start_time", CStr "9:00 AM");
      ("end_time", CStr "11:00 AM"); ("redemption_code", CNone);
      ("hours_approved", CStr "t"); ("location_link", CNone)]].


(** * Properties *)

(** ** Results and folds *)

Lemma foldM_app {A S : Type} (body : S -> A -> result S) (xs ys : list A) (s : S) :
  foldM body (xs ++ ys)%list s = (s' <- foldM body xs s ;; foldM body ys s').
Proof.
  revert s; induction xs as [|x xs IH]; intros s; simpl; [reflexivity|].
  destruct (body s x); simpl; auto.
Qed.

(** An invariant of the loop body is an invariant of the loop. *)
Lemma foldM_invariant {A S : Type} (P : S -> Prop) (body : S -> A -> result S)
  (xs : list A) :
  (forall s x s', In x xs -> P s -> body s x = Ok s' -> P s') ->
  forall s s', P s -> foldM body xs s = Ok s' -> P s'.
Proof.
  induction xs as [|x xs IH]; intros Hbody s s' Hs Hrun; simpl in Hrun.
  - congruence.
  - destruct (body s x) as [s1| |] eqn:E; simpl in Hrun; try discriminate.
    apply (IH (fun s0 x0 s0' Hin => Hbody s0 x0 s0' (or_intror Hin)) s1 s'); auto.
    apply (Hbody s x s1); simpl; auto.
Qed.


(** An iteration that never succeeds stops the loop. *)
Lemma foldM_blocked {A S : Type} (body : S -> A -> result S) (xs : list A) (x0 : A) :
  In x0 xs ->
  (forall s, is_ok (body s x0) = false) ->
  forall s, is_ok (foldM body xs s) = false.
Proof.
  induction xs as [|x xs IH]; intros Hin Hbad s; [contradiction|].
  simpl. destruct (body s x) as [s1| |] eqn:E; simpl; auto.
  destruct Hin as [->|Hin].
  - specialize (Hbad s). rewrite E in Hbad. discriminate.
  - apply IH; auto.
Qed.

(** ** Dictionaries *)

Lemma dict_get_set_same {V : Type} (k : string) (v : V) (d : dict V) :
  dict_get k (dict_set k v d) = Some v.
Proof.
  induction d as [|[k' v'] d IH]; simpl.
  - rewrite String.eqb_refl. reflexivity.
  - destruct (String.eqb k' k) eqn:E; simpl; rewrite E; auto.
Qed.

Lemma dict_get_set_other {V : Type} (k k' : string) (v : V) (d : dict V) :
  k <> k' -> dict_get k' (dict_set k v d) = dict_get k' d.
Proof.
  intros Hne. induction d as [|[k0 v0] d IH]; simpl.
  - destruct (String.eqb k k') eqn:E; [apply String.eqb_eq in E; contradiction|reflexivity].
  - destruct (String.eqb k0 k) eqn:E; simpl.
    + apply String.eqb_eq in E. subst k0.
      destruct (String.eqb k k') eqn:E'; [apply String.eqb_eq in E'; contradiction|reflexivity].
    + rewrite IH. reflexivity.
Qed.

Lemma dict_mem_false {V : Type} (k : string) (d : dict V) :
  dict_mem k d = false <-> dict_get k d = None.
Proof. unfold dict_mem. destruct (dict_get k d); split; congruence. Qed.

Lemma dict_get_In {V : Type} (k : string) (v : V) (d : dict V) :
  dict_get k d = Some v -> In (k, v) d.
Proof.
  induction d as [|[k' v'] d IH]; simpl; [discriminate|].
  destruct (String.eqb k' k) eqn:E.
  - apply String.eqb_eq in E. intros [= ->]. subst. auto.
  - auto.
Qed.

Lemma dict_In_get {V : Type} (k : string) (v : V) (d : dict V) :
  In (k, v) d -> exists v', dict_get k d = Some v'.
Proof.
  induction d as [|[k' v'] d IH]; simpl; [contradiction|].
  intros [[= -> ->]|Hin].
  - rewrite String.eqb_refl. eauto.
  - destruct (String.eqb k' k); eauto.
Qed.

Lemma dict_set_keys {V : Type} (k : string) (v : V) (d : dict V) :
  map fst (dict_set k v d)
  = if dict_mem k d then map fst d else (map fst d ++ [k])%list.
Proof.
  unfold dict_mem. induction d as [|[k' v'] d IH]; simpl; [reflexivity|].
  destruct (String.eqb k' k) eqn:E; simpl; [reflexivity|].
  rewrite IH. destruct (dict_get k d); reflexivity.
Qed.

Lemma dict_set_In {V : Type} (k k0 : string) (v v0 : V) (d : dict V) :
  In (k0, v0) (dict_set k v d) -> (k0 = k /\ v0 = v) \/ In (k0, v0) d.
Proof.
  induction d as [|[k' v'] d IH]; simpl.
  - intros [[= <- <-]|[]]; auto.
  - destruct (String.eqb k' k) eqn:E; simpl.
    + apply String.eqb_eq in E. subst k'. intros [[= <- <-]|Hin]; auto.
    + intros [Heq|Hin]; auto. destruct (IH Hin); auto.
Qed.

Lemma dict_mem_keys {V : Type} (k : string) (d : dict V) :
  dict_mem k d = false -> ~ In k (map fst d).
Proof.
  unfold dict_mem. induction d as [|[k' v'] d IH]; simpl; [tauto|].
  destruct (String.eqb k' k) eqn:E; [discriminate|].
  apply String.eqb_neq in E. intros H [Hk|Hin]; [contradiction|]. apply IH; auto.
Qed.

Lemma dict_set_NoDup {V : Type} (k : string) (v : V) (d : dict V) :
  NoDup (map fst d) -> NoDup (map fst (dict_set k v d)).
Proof.
  intros Hnd. rewrite dict_set_keys. destruct (dict_mem k d) eqn:E; auto.
  apply dict_mem_keys in E.
  apply NoDup_app; auto.
  - constructor; [simpl; tauto|constructor].
  - intros x Hx [<-|[]]. contradiction.
Qed.

(** ** Digits *)

Lemma digit_cases (k : Z) :
  0 <= k <= 9 ->
  k = 0 \/ k = 1 \/ k = 2 \/ k = 3 \/ k = 4 \/ k = 5 \/ k = 6 \/ k = 7 \/ k = 8 \/ k = 9.
Proof. lia. Qed.

Lemma ord_digit_char (k : Z) : 0 <= k <= 9 -> ord (digit_char k) = 48 + k.
Proof.
  intros H. destruct (digit_cases k H) as [-> | [-> | [-> | [-> | [-> | [-> | [-> | [-> | [-> | ->]]]]]]]]];
    reflexivity.
Qed.

Lemma p_class_digit_char (lo hi k : Z) (s : string) :
  0 <= k <= 9 -> lo <= k <= hi ->
  p_class lo hi (String (digit_char k) s) = [(k, s)].
Proof.
  intros Hk Hr. unfold p_class, digit_val. rewrite (ord_digit_char k Hk).
  replace (48 + lo <=? 48 + k) with true by (symmetry; apply Z.leb_le; lia).
  replace (48 + k <=? 48 + hi) with true by (symmetry; apply Z.leb_le; lia).
  replace (48 + k - 48) with k by lia. reflexivity.
Qed.

Lemma p_two_digits (a b : Z) (s : string) :
  0 <= a <= 9 -> 0 <= b <= 9 ->
  p_two p_digit p_digit (String (digit_char a) (String (digit_char b) s))
  = [(10 * a + b, s)].
Proof.
  intros Ha Hb. unfold p_two, p_digit.
  rewrite (p_class_digit_char 0 9 a) by lia. cbn [flat_map map fst snd app].
  rewrite (p_class_digit_char 0 9 b) by lia. reflexivity.
Qed.

Lemma pad2_digits (n : Z) :
  0 <= n <= 99 -> 0 <= n / 10 <= 9 /\ 0 <= n mod 10 <= 9 /\ 10 * (n / 10) + n mod 10 = n.
Proof. intros H. pose proof (Z.div_mod n 10). pose proof (Z.mod_pos_bound n 10). lia. Qed.

Lemma run_year (y : Z) (f : fields) :
  0 <= y <= 9999 ->
  run_format [FDir DY] f (pad4 y) = [(set_field DY y f, "")].
Proof.
  intros Hy.
  assert (H1 : 0 <= y / 100 <= 99)
    by (pose proof (Z.div_mod y 100); pose proof (Z.mod_pos_bound y 100); lia).
  assert (H2 : 0 <= y mod 100 <= 99) by (pose proof (Z.mod_pos_bound y 100); lia).
  destruct (pad2_digits _ H1) as (Ha & Hb & Hab).
  destruct (pad2_digits _ H2) as (Hc & Hd & Hcd).
  unfold pad4, pad2. cbn [append run_format p_directive flat_map].
  rewrite p_two_digits by assumption. cbn [flat_map fst snd map app].
  rewrite p_two_digits by assumption. cbn [flat_map fst snd map app].
  rewrite Hab, Hcd.
  replace (100 * (y / 100) + y mod 100) with y
    by (pose proof (Z.div_mod y 100); lia).
  reflexivity.
Qed.

Lemma bounded_cases (P : Z -> Prop) (n : nat) :
  (forall i, (i < n)%nat -> P (Z.of_nat i)) ->
  forall z, 0 <= z < Z.of_nat n -> P z.
Proof.
  intros H z Hz. rewrite <- (Z2Nat.id z) by lia. apply H. lia.
Qed.

Lemma run_month (m : Z) (fmt : list fmt_item) (f : fields) (rest : string) :
  1 <= m <= 12 ->
  run_format (FDir Dm :: FLit "/" :: fmt) f (nopad m ++ String "/" rest)
  = run_format fmt (set_field Dm m f) rest.
Proof.
  intros H. generalize H.
  apply (bounded_cases
           (fun m => 1 <= m <= 12 ->
                     run_format (FDir Dm :: FLit "/" :: fmt) f (nopad m ++ String "/" rest)
                     = run_format fmt (set_field Dm m f) rest) 13); [|lia].
  intros i Hi.
  do 13 (destruct i as [|i];
         [intros H0; first [lia | cbn [run_format]; cbv - [run_format]; first [reflexivity | apply app_nil_r]]|]).
  lia.
Qed.

Lemma run_day (d : Z) (fmt : list fmt_item) (f : fields) (rest : string) :
  1 <= d <= 31 ->
  run_format (FDir Dd :: FLit "/" :: fmt) f (nopad d ++ String "/" rest)
  = run_format fmt (set_field Dd d f) rest.
Proof.
  intros H. generalize H.
  apply (bounded_cases
           (fun d => 1 <= d <= 31 ->
                     run_format (FDir Dd :: FLit "/" :: fmt) f (nopad d ++ String "/" rest)
                     = run_format fmt (set_field Dd d f) rest) 32); [|lia].
  intros i Hi.
  do 32 (destruct i as [|i];
         [intros H0; first [lia | cbn [run_format]; cbv - [run_format]; first [reflexivity | apply app_nil_r]]|]).
  lia.
Qed.

(** ** Calendar *)

Lemma days_in_month_bounds (y m : Z) :
  1 <= m <= 12 -> 28 <= days_in_month y m <= 31.
Proof.
  intros H. generalize H.
  apply (bounded_cases (fun m => 1 <= m <= 12 -> 28 <= days_in_month y m <= 31) 13); [|lia].
  intros i Hi. unfold days_in_month.
  do 13 (destruct i as [|i];
         [intros H0; try lia; destruct (is_leap y); simpl; lia|]).
  lia.
Qed.

Lemma valid_date_spec (d : date) :
  valid_date d = true <->
  1 <= year d <= 9999 /\ 1 <= month d <= 12
  /\ 1 <= day d <= days_in_month (year d) (month d).
Proof.
  unfold valid_date. rewrite !andb_true_iff, !Z.leb_le. tauto.
Qed.

Lemma date_eqb_eq (a b : date) : date_eqb a b = true <-> a = b.
Proof.
  unfold date_eqb. rewrite !andb_true_iff, !Z.eqb_eq.
  destruct a, b; simpl. split.
  - intros [[-> ->] ->]. reflexivity.
  - intros [= -> -> ->]. auto.
Qed.

(** Formatting a date and parsing it back gives the date, at midnight. *)
Lemma strptime_strftime_mdY (d : date) :
  valid_date d = true ->
  strptime (strftime_mdY d) fmt_mdY = Ok (midnight d).
Proof.
  intros Hv. pose proof Hv as Hv'. apply valid_date_spec in Hv' as (Hy & Hm & Hd).
  pose proof (days_in_month_bounds (year d) (month d) Hm).
  unfold strptime, strftime_mdY, fmt_mdY.
  change ("/" ++ nopad (day d) ++ "/" ++ pad4 (year d))
    with (String "/" (nopad (day d) ++ String "/" (pad4 (year d)))).
  rewrite run_month by lia. rewrite run_day by lia. rewrite run_year by lia.
  cbn [negb String.eqb set_field no_fields f_year f_month f_day f_hour f_minute f_second].
  destruct d as [y m dd]; cbn [year month day] in *.
  rewrite Hv. reflexivity.
Qed.

Lemma strftime_mdY_inj (a b : date) :
  valid_date a = true -> valid_date b = true ->
  strftime_mdY a = strftime_mdY b -> a = b.
Proof.
  intros Ha Hb Heq.
  pose proof (strptime_strftime_mdY a Ha) as Pa.
  pose proof (strptime_strftime_mdY b Hb) as Pb.
  rewrite Heq in Pa. rewrite Pa in Pb. injection Pb. auto.
Qed.

Lemma strptime_valid (s : string) (fmt : list fmt_item) (t : datetime) :
  strptime s fmt = Ok t -> valid_date (dt_date t) = true.
Proof.
  unfold strptime. destruct (run_format fmt no_fields s) as [|[f rest] l]; [discriminate|].
  destruct (negb (String.eqb rest "")); [discriminate|].
  destruct (valid_date (mk_date (f_year f) (f_month f) (f_day f))) eqn:E; simpl;
    [|discriminate].
  destruct (f_second f <=? 59); [|discriminate].
  intros [= <-]. exact E.
Qed.

Lemma set_field_time (d : directive) (v : Z) (f : fields) :
  d <> DH -> d <> DM -> d <> DS ->
  f_hour (set_field d v f) = f_hour f
  /\ f_minute (set_field d v f) = f_minute f
  /\ f_second (set_field d v f) = f_second f.
Proof. destruct d; simpl; intros; auto; congruence. Qed.

Lemma run_format_time (fmt : list fmt_item) :
  (forall d, In (FDir d) fmt -> d <> DH /\ d <> DM /\ d <> DS) ->
  forall f s fr, In fr (run_format fmt f s) ->
    f_hour (fst fr) = f_hour f /\ f_minute (fst fr) = f_minute f
    /\ f_second (fst fr) = f_second f.
Proof.
  induction fmt as [|it fmt IH]; intros Hd f s fr Hin.
  - simpl in Hin. destruct Hin as [<-|[]]. auto.
  - assert (Hd' : forall d, In (FDir d) fmt -> d <> DH /\ d <> DM /\ d <> DS)
      by (intros d Hi; apply Hd; right; exact Hi).
    destruct it as [c| |d]; simpl in Hin.
    + destruct s as [|a s]; [contradiction|].
      destruct (Ascii.eqb a c); [|contradiction]. eapply IH; eauto.
    + apply in_flat_map in Hin as (s' & _ & Hin). eapply IH; eauto.
    + apply in_flat_map in Hin as (vs & _ & Hin).
      destruct (Hd d (or_introl eq_refl)) as (H1 & H2 & H3).
      destruct (set_field_time d (fst vs) f H1 H2 H3) as (E1 & E2 & E3).
      rewrite <- E1, <- E2, <- E3. eapply IH; eauto.
Qed.

Lemma strptime_date_only (s : string) (fmt : list fmt_item) (t : datetime) :
  (forall d, In (FDir d) fmt -> d <> DH /\ d <> DM /\ d <> DS) ->
  strptime s fmt = Ok t -> t = midnight (dt_date t).
Proof.
  intros Hd. unfold strptime.
  destruct (run_format fmt no_fields s) as [|[f rest] l] eqn:E; [discriminate|].
  destruct (negb (String.eqb rest "")); [discriminate|].
  destruct (valid_date _ && _); [|discriminate].
  intros [= <-]. unfold midnight. cbn [dt_date].
  destruct (run_format_time fmt Hd no_fields s (f, rest)) as (H1 & H2 & H3).
  { rewrite E. left. reflexivity. }
  cbn [fst no_fields f_hour f_minute f_second] in *. rewrite H1, H2, H3. reflexivity.
Qed.

Lemma strptime_mdY_midnight (s : string) (t : datetime) :
  strptime s fmt_mdY = Ok t -> t = midnight (dt_date t).
Proof.
  apply strptime_date_only. unfold fmt_mdY. intros d Hin. simpl in Hin.
  repeat (destruct Hin as [Hin|Hin]; [inversion Hin; subst; repeat split; discriminate|]).
  contradiction.
Qed.

Lemma strptime_mdy_midnight (s : string) (t : datetime) :
  strptime s fmt_mdy = Ok t -> t = midnight (dt_date t).
Proof.
  apply strptime_date_only. unfold fmt_mdy. intros d Hin. simpl in Hin.
  repeat (destruct Hin as [Hin|Hin]; [inversion Hin; subst; repeat split; discriminate|]).
  contradiction.
Qed.

(** ** The day after *)

Lemma next_day_valid (d d' : date) :
  valid_date d = true -> next_day d = Ok d' -> valid_date d' = true.
Proof.
  rewrite !valid_date_spec. intros (Hy & Hm & Hd). unfold next_day.
  destruct (day d <? days_in_month (year d) (month d)) eqn:E1.
  - intros [= <-]. cbn [year month day]. apply Z.ltb_lt in E1. lia.
  - destruct (month d <? 12) eqn:E2.
    + intros [= <-]. cbn [year month day]. apply Z.ltb_lt in E2.
      pose proof (days_in_month_bounds (year d) (month d + 1)). lia.
    + destruct (year d <? 9999) eqn:E3; [|discriminate].
      intros [= <-]. cbn [year month day]. apply Z.ltb_lt in E3.
      pose proof (days_in_month_bounds (year d + 1) 1). lia.
Qed.

Lemma is_leap_spec (y : Z) :
  is_leap y = true <-> y mod 4 = 0 /\ (y mod 100 <> 0 \/ y mod 400 = 0).
Proof.
  unfold is_leap. rewrite andb_true_iff, orb_true_iff, negb_true_iff, !Z.eqb_eq, Z.eqb_neq.
  tauto.
Qed.

Ltac Zify.zify_post_hook ::= Z.div_mod_to_equations.

Lemma days_before_year_succ (y : Z) :
  days_before_year (y + 1) = days_before_year y + 365 + (if is_leap y then 1 else 0).
Proof.
  unfold days_before_year. cbv zeta. replace (y + 1 - 1) with (y - 1 + 1) by lia.
  destruct (is_leap y) eqn:E.
  - apply is_leap_spec in E.
    lia.
  - assert (H : ~ (y mod 4 = 0 /\ (y mod 100 <> 0 \/ y mod 400 = 0)))
      by (rewrite <- is_leap_spec; congruence).
    lia.
Qed.

Lemma days_before_month_succ (y m : Z) :
  1 <= m <= 11 ->
  days_before_month y (m + 1) = days_before_month y m + days_in_month y m.
Proof.
  intros H. generalize H.
  apply (bounded_cases
           (fun m => 1 <= m <= 11 ->
                     days_before_month y (m + 1)
                     = days_before_month y m + days_in_month y m) 12); [|lia].
  intros i Hi. unfold days_before_month, days_in_month.
  do 12 (destruct i as [|i];
         [intros H0; try lia; destruct (is_leap y); reflexivity|]).
  lia.
Qed.

Lemma days_before_month_12 (y : Z) :
  days_before_month y 12 + days_in_month y 12
  = 365 + (if is_leap y then 1 else 0).
Proof. unfold days_before_month, days_in_month. destruct (is_leap y); reflexivity. Qed.

Lemma next_day_ordinal (d d' : date) :
  valid_date d = true -> next_day d = Ok d' -> toordinal d' = toordinal d + 1.
Proof.
  rewrite valid_date_spec. intros (Hy & Hm & Hd). unfold next_day, toordinal.
  destruct (day d <? days_in_month (year d) (month d)) eqn:E1.
  - intros [= <-]. cbn [year month day]. lia.
  - apply Z.ltb_ge in E1. destruct (month d <? 12) eqn:E2.
    + intros [= <-]. cbn [year month day]. apply Z.ltb_lt in E2.
      rewrite days_before_month_succ by lia. lia.
    + apply Z.ltb_ge in E2. destruct (year d <? 9999) eqn:E3; [|discriminate].
      intros [= <-]. cbn [year month day].
      rewrite days_before_year_succ.
      replace (month d) with 12 in * by lia.
      pose proof (days_before_month_12 (year d)).
      change (days_before_month (year d + 1) 1) with 0. lia.
Qed.

Lemma days_before_year_mono (y1 y2 : Z) :
  y1 <= y2 -> days_before_year y1 <= days_before_year y2.
Proof. unfold days_before_year. cbv zeta. lia. Qed.

Ltac table_cbn :=
  repeat match goal with
    | |- context [nth (Z.to_nat ?n) ?l ?d] =>
        let v := eval vm_compute in (nth (Z.to_nat n) l d) in
        change (nth (Z.to_nat n) l d) with v
    | H : context [nth (Z.to_nat ?n) ?l ?d] |- _ =>
        let v := eval vm_compute in (nth (Z.to_nat n) l d) in
        change (nth (Z.to_nat n) l d) with v in H
    | |- context [if ?b then _ else _] =>
        let v := eval vm_compute in b in change b with v; cbv iota
    | H : context [if ?b then _ else _] |- _ =>
        let v := eval vm_compute in b in change b with v in H; cbv iota in H
    end.

Lemma day_of_year_bounds (d : date) :
  valid_date d = true ->
  1 <= days_before_month (year d) (month d) + day d
    <= 365 + (if is_leap (year d) then 1 else 0).
Proof.
  rewrite valid_date_spec. intros (Hy & Hm & Hd). revert Hd. generalize (day d).
  generalize Hm.
  apply (bounded_cases
           (fun m => 1 <= m <= 12 -> forall z, 1 <= z <= days_in_month (year d) m ->
                     1 <= days_before_month (year d) m + z
                       <= 365 + (if is_leap (year d) then 1 else 0)) 13); [|lia].
  intros i Hi. unfold days_before_month, days_in_month.
  do 13 (destruct i as [|i];
         [intros H0 z Hz; first [lia | destruct (is_leap (year d)); table_cbn; lia]|]).
  lia.
Qed.

Lemma days_before_month_lt (y m1 m2 : Z) :
  1 <= m1 -> m1 < m2 -> m2 <= 12 ->
  days_before_month y m1 + days_in_month y m1 <= days_before_month y m2.
Proof.
  intros H1 H2 H3.
  assert (H : forall n : nat, 1 <= m1 -> m1 + 1 + Z.of_nat n <= 12 ->
            days_before_month y m1 + days_in_month y m1
            <= days_before_month y (m1 + 1 + Z.of_nat n)).
  { induction n as [|n IH]; intros A B.
    - rewrite Z.add_0_r. rewrite days_before_month_succ by lia. lia.
    - replace (m1 + 1 + Z.of_nat (S n)) with (m1 + 1 + Z.of_nat n + 1) by lia.
      rewrite days_before_month_succ by lia.
      pose proof (days_in_month_bounds y (m1 + 1 + Z.of_nat n)).
      specialize (IH A). lia. }
  specialize (H (Z.to_nat (m2 - m1 - 1)) H1).
  replace (m1 + 1 + Z.of_nat (Z.to_nat (m2 - m1 - 1))) with m2 in H by lia.
  apply H. lia.
Qed.

(** The order of dates is the order of their ordinals. *)
Lemma date_ltb_ordinal (a b : date) :
  valid_date a = true -> valid_date b = true ->
  date_ltb a b = true -> toordinal a < toordinal b.
Proof.
  intros Ha Hb. pose proof (day_of_year_bounds a Ha) as Ba.
  pose proof (day_of_year_bounds b Hb) as Bb.
  apply valid_date_spec in Ha as (Hya & Hma & Hda).
  apply valid_date_spec in Hb as (Hyb & Hmb & Hdb).
  unfold date_ltb, toordinal.
  rewrite orb_true_iff, andb_true_iff, orb_true_iff, andb_true_iff,
    !Z.ltb_lt, !Z.eqb_eq.
  intros [Hy|[Hy [Hm|[Hm Hd]]]].
  - pose proof (days_before_year_succ (year a)).
    pose proof (days_before_year_mono (year a + 1) (year b)). lia.
  - rewrite Hy in *.
    pose proof (days_before_month_lt (year b) (month a) (month b)). lia.
  - rewrite Hy, Hm. lia.
Qed.

Lemma date_ltb_total (a b : date) :
  date_ltb a b = false -> date_ltb b a = false -> a = b.
Proof.
  unfold date_ltb. destruct a as [y1 m1 d1], b as [y2 m2 d2]. cbn [year month day].
  rewrite !orb_false_iff, !andb_false_iff, !orb_false_iff, !andb_false_iff,
    !Z.ltb_ge, !Z.eqb_neq.
  intros H1 H2.
  assert (y1 = y2) by lia. subst.
  assert (m1 = m2) by lia. subst.
  assert (d1 = d2) by lia. subst. reflexivity.
Qed.

Lemma date_ltb_irrefl (a : date) : date_ltb a a = false.
Proof.
  unfold date_ltb. rewrite !Z.ltb_irrefl, !Z.eqb_refl. reflexivity.
Qed.

Lemma date_leb_ordinal (a b : date) :
  valid_date a = true -> valid_date b = true ->
  (date_leb a b = true <-> toordinal a <= toordinal b).
Proof.
  intros Ha Hb. unfold date_leb. rewrite negb_true_iff. split.
  - intros H. destruct (date_ltb a b) eqn:E.
    + apply date_ltb_ordinal in E; auto. lia.
    + rewrite (date_ltb_total a b E H). lia.
  - intros H. destruct (date_ltb b a) eqn:E; auto.
    apply date_ltb_ordinal in E; auto. lia.
Qed.

(** The fuel [get_range] gives the loop is enough: more fuel changes
    nothing, the guard [current_date <= end_date] is what ends the loop. *)
Lemma range_loop_fuel (fuel : nat) :
  forall (current_date end_date : date) (opportunities : opportunity_map),
    valid_date current_date = true -> valid_date end_date = true ->
    toordinal end_date - toordinal current_date + 1 <= Z.of_nat fuel ->
    range_loop (S fuel) current_date end_date opportunities
    = range_loop fuel current_date end_date opportunities.
Proof.
  induction fuel as [|fuel IH]; intros cur end_ m Hc He Hf.
  - cbn [range_loop].
    destruct (date_leb cur end_) eqn:E; [|reflexivity].
    apply date_leb_ordinal in E; auto. lia.
  - remember (S fuel) as n eqn:Hn. cbn [range_loop]. subst n. cbn [range_loop].
    destruct (date_leb cur end_) eqn:E; [|reflexivity].
    destruct (next_day cur) as [next| |] eqn:En; cbn [bind].
    2,3: destruct (date_eqb cur (dt_date missed_day)); reflexivity.
    pose proof (next_day_valid _ _ Hc En) as Hv.
    pose proof (next_day_ordinal _ _ Hc En) as Ho.
    destruct (date_eqb cur (dt_date missed_day)); cbn [bind]; apply IH; auto; lia.
Qed.

Lemma range_loop_more_fuel (extra : nat) :
  forall (current_date end_date : date) (opportunities : opportunity_map),
    valid_date current_date = true -> valid_date end_date = true ->
    range_loop (days_between current_date end_date + extra) current_date end_date
               opportunities
    = range_loop (days_between current_date end_date) current_date end_date
                 opportunities.
Proof.
  induction extra as [|extra IH]; intros cur end_ m Hc He.
  - rewrite Nat.add_0_r. reflexivity.
  - rewrite Nat.add_succ_r. rewrite range_loop_fuel; auto.
    unfold days_between. lia.
Qed.

(** ** The classifier, one header at a time *)

Lemma dict_get_set_cases {V : Type} (k k' : string) (v v' : V) (d : dict V) :
  dict_get k' (dict_set k v d) = Some v' ->
  (k' = k /\ v' = v) \/ (k' <> k /\ dict_get k' d = Some v').
Proof.
  destruct (String.eqb k k') eqn:E.
  - apply String.eqb_eq in E. subst k'. rewrite dict_get_set_same.
    intros [= <-]. auto.
  - apply String.eqb_neq in E. rewrite dict_get_set_other by exact E.
    intros H. right. split; congruence.
Qed.

Lemma classify_known (sheet_name : string) (col : cell) (t : datetime) (ls : labels) :
  classify sheet_name col t = Ok ls -> In ls known_labels.
Proof.
  unfold classify, known_labels.
  repeat match goal with |- context [if ?b then _ else _] => destruct b end;
    intros [= <-]; simpl; auto 6.
Qed.

Lemma classify_any_sheet (sn sn' : string) (col col' : cell) (t : datetime) (ls : labels) :
  classify sn col t = Ok ls -> classify sn' col' t = Ok ls.
Proof.
  unfold classify.
  repeat match goal with |- context [if ?b then _ else _] => destruct b end;
    auto; discriminate.
Qed.

(** What the literal-date branch does with a header it takes. *)
Lemma process_col_literal (now : datetime) (sn : string) (m : opportunity_map)
  (col0 : cell) (t : datetime) :
  literal_date col0 = Some t ->
  exists col, reinterpret_iso col0 = Ok col
    /\ strptime_cell col fmt_mdY = Ok t
    /\ process_col now sn m col0 =
       if dt_gtb t now then Ok m
       else if date_eqb (dt_date t) (dt_date missed_day) then Ok m
       else ls <- classify sn col t ;; Ok (dict_set (strftime_mdY (dt_date t)) ls m).
Proof.
  unfold literal_date, process_col.
  destruct (reinterpret_iso col0) as [col| |]; try discriminate.
  destruct (re_match date_re (py_str col)) eqn:Ere; try discriminate.
  destruct (strptime_cell col fmt_mdY) as [t'| |] eqn:Ep; try discriminate.
  intros [= ->]. exists col. repeat split; auto.
  cbn [bind]. rewrite Ere. unfold get_literal. rewrite Ep. cbn [bind].
  reflexivity.
Qed.

Lemma strptime_cell_valid (col : cell) (fmt : list fmt_item) (t : datetime) :
  strptime_cell col fmt = Ok t -> valid_date (dt_date t) = true.
Proof. destruct col; simpl; try discriminate. apply strptime_valid. Qed.

Lemma strptime_cell_midnight (col : cell) (t : datetime) :
  strptime_cell col fmt_mdY = Ok t -> t = midnight (dt_date t).
Proof. destruct col; simpl; try discriminate. apply strptime_mdY_midnight. Qed.


(** A header is taken by at most one branch. *)
Lemma range_header_not_literal (col0 : cell) :
  range_header col0 = true -> literal_date col0 = None.
Proof.
  unfold range_header, literal_date.
  destruct (reinterpret_iso col0) as [col| |]; auto.
  destruct (re_match date_re (py_str col)); simpl; auto. discriminate.
Qed.

Lemma process_col_range (now : datetime) (sn : string) (m : opportunity_map)
  (col0 : cell) :
  range_header col0 = true ->
  exists col, reinterpret_iso col0 = Ok col /\ process_col now sn m col0 = get_range col m.
Proof.
  unfold range_header, process_col.
  destruct (reinterpret_iso col0) as [col| |]; try discriminate.
  rewrite !andb_true_iff, !negb_true_iff. intros [[H1 H2] H3].
  exists col. split; auto. cbn [bind]. rewrite H1, H2, H3. reflexivity.
Qed.

(** A header that is neither a literal date nor a range leaves the map as
    it is, when it does not end the run. *)
Lemma process_col_other (now : datetime) (sn : string) (m m' : opportunity_map)
  (col0 : cell) :
  literal_date col0 = None -> range_header col0 = false ->
  process_col now sn m col0 = Ok m' -> m' = m.
Proof.
  unfold literal_date, range_header, process_col.
  destruct (reinterpret_iso col0) as [col| |]; try discriminate. cbn [bind].
  destruct (re_match date_re (py_str col)) eqn:Ere.
  - unfold get_literal.
    destruct (strptime_cell col fmt_mdY) as [t| |]; try discriminate.
  - cbn [negb andb]. destruct (existsb (cell_eq_str col) ignored_columns); cbn [negb andb].
    + intros _ _ H. injection H as <-. reflexivity.
    + intros _ Hr. rewrite Hr. discriminate.
Qed.

(** ** The range loop *)

Lemma range_loop_keeps (fuel : nat) :
  forall (cur end_ : date) (m m' : opportunity_map),
    range_loop fuel cur end_ m = Ok m' ->
    forall k v, dict_get k m = Some v -> dict_get k m' = Some v.
Proof.
  induction fuel as [|fuel IH]; intros cur end_ m m' Hrun k v Hk.
  - simpl in Hrun. congruence.
  - cbn [range_loop] in Hrun.
    destruct (date_leb cur end_); [|congruence].
    destruct (next_day cur) as [next| |]; cbn [bind] in Hrun.
    2,3: destruct (date_eqb cur (dt_date missed_day)); discriminate.
    destruct (date_eqb cur (dt_date missed_day)); cbn [bind] in Hrun.
    + eapply IH; eauto.
    + eapply IH; [exact Hrun|].
      destruct (weekday cur =? 6); auto.
      destruct (negb (dict_mem (strftime_mdY cur) m)) eqn:E; auto.
      rewrite negb_true_iff in E. apply dict_mem_false in E.
      rewrite dict_get_set_other; auto. congruence.
Qed.

Lemma range_loop_adds (fuel : nat) :
  forall (cur end_ : date) (m m' : opportunity_map),
    valid_date cur = true ->
    range_loop fuel cur end_ m = Ok m' ->
    forall k v, dict_get k m = None -> dict_get k m' = Some v ->
      v = [seventh]
      /\ exists d, k = strftime_mdY d /\ valid_date d = true /\ weekday d = 6
                   /\ date_eqb d (dt_date missed_day) = false
                   /\ toordinal cur <= toordinal d /\ date_leb d end_ = true.
Proof.
  induction fuel as [|fuel IH]; intros cur end_ m m' Hv Hrun k v Hk Hk'.
  - simpl in Hrun. congruence.
  - cbn [range_loop] in Hrun.
    destruct (date_leb cur end_) eqn:Ele; [|congruence].
    destruct (next_day cur) as [next| |] eqn:En; cbn [bind] in Hrun.
    2,3: destruct (date_eqb cur (dt_date missed_day)); discriminate.
    pose proof (next_day_valid _ _ Hv En) as Hvn.
    pose proof (next_day_ordinal _ _ Hv En) as Hon.
    assert (Hlater : forall m0, range_loop fuel next end_ m0 = Ok m' ->
              dict_get k m0 = None ->
              v = [seventh]
              /\ exists d, k = strftime_mdY d /\ valid_date d = true /\ weekday d = 6
                   /\ date_eqb d (dt_date missed_day) = false
                   /\ toordinal cur <= toordinal d /\ date_leb d end_ = true).
    { intros m0 Hr Hn. destruct (IH next end_ m0 m' Hvn Hr k v Hn Hk')
        as (Hs & d & H1 & H2 & H3 & H4 & H5 & H6).
      split; auto. exists d. repeat split; auto. lia. }
    destruct (date_eqb cur (dt_date missed_day)) eqn:Emiss; cbn [bind] in Hrun.
    + eapply Hlater; eauto.
    + destruct (weekday cur =? 6) eqn:Ew; [|eapply Hlater; eauto].
      destruct (negb (dict_mem (strftime_mdY cur) m)) eqn:E; [|eapply Hlater; eauto].
      destruct (String.eqb (strftime_mdY cur) k) eqn:Ek.
      * apply String.eqb_eq in Ek. subst k.
        pose proof (range_loop_keeps _ _ _ _ _ Hrun (strftime_mdY cur) [seventh]
                      (dict_get_set_same _ _ _)) as Hg.
        rewrite Hg in Hk'. injection Hk' as <-. split; auto.
        exists cur. apply Z.eqb_eq in Ew. repeat split; auto. lia.
      * apply String.eqb_neq in Ek. eapply Hlater; eauto.
        rewrite dict_get_set_other; auto.
Qed.

Lemma toordinal_inj (a b : date) :
  valid_date a = true -> valid_date b = true -> toordinal a = toordinal b -> a = b.
Proof.
  intros Ha Hb Heq. apply date_ltb_total.
  - destruct (date_ltb a b) eqn:E; auto. apply date_ltb_ordinal in E; auto. lia.
  - destruct (date_ltb b a) eqn:E; auto. apply date_ltb_ordinal in E; auto. lia.
Qed.

(** Every Sunday of the range other than the missed day has an entry
    after the loop. *)
Lemma range_loop_fills (fuel : nat) :
  forall (cur end_ : date) (m m' : opportunity_map) (d : date),
    valid_date cur = true -> valid_date end_ = true -> valid_date d = true ->
    range_loop fuel cur end_ m = Ok m' ->
    toordinal end_ - toordinal cur + 1 <= Z.of_nat fuel ->
    toordinal cur <= toordinal d <= toordinal end_ ->
    weekday d = 6 -> date_eqb d (dt_date missed_day) = false ->
    dict_mem (strftime_mdY d) m' = true.
Proof.
  induction fuel as [|fuel IH]; intros cur end_ m m' d Hv He Hd Hrun Hf Hr Hw Hm.
  - simpl in Hf. lia.
  - cbn [range_loop] in Hrun.
    assert (Ele : date_leb cur end_ = true) by (apply date_leb_ordinal; auto; lia).
    rewrite Ele in Hrun.
    destruct (next_day cur) as [next| |] eqn:En; cbn [bind] in Hrun.
    2,3: destruct (date_eqb cur (dt_date missed_day)); discriminate.
    pose proof (next_day_valid _ _ Hv En) as Hvn.
    pose proof (next_day_ordinal _ _ Hv En) as Hon.
    destruct (Z.eq_dec (toordinal d) (toordinal cur)) as [Heq|Hne].
    + apply toordinal_inj in Heq; auto. subst d.
      rewrite Hm in Hrun. cbn [bind] in Hrun. rewrite Hw in Hrun. cbn [Z.eqb Pos.eqb] in Hrun.
      unfold dict_mem at 1.
      destruct (negb (dict_mem (strftime_mdY cur) m)) eqn:E.
      * erewrite range_loop_keeps; [reflexivity|exact Hrun|apply dict_get_set_same].
      * rewrite negb_false_iff in E. unfold dict_mem in E.
        destruct (dict_get (strftime_mdY cur) m) as [v|] eqn:Eg; [|discriminate].
        erewrite range_loop_keeps; [reflexivity|exact Hrun|exact Eg].
    + destruct (date_eqb cur (dt_date missed_day)); cbn [bind] in Hrun;
        eapply (IH next end_ _ m' d); eauto; lia.
Qed.

(** ** The invariant of the classifier's map *)

Lemma well_formed_empty : well_formed_map [].
Proof. split; [constructor|]. intros k v []. Qed.

Lemma well_formed_set (m : opportunity_map) (d : date) (v : labels) :
  well_formed_map m -> In v known_labels -> valid_date d = true ->
  date_eqb d (dt_date missed_day) = false ->
  well_formed_map (dict_set (strftime_mdY d) v m).
Proof.
  intros [Hnd Hm] Hv Hd Hmiss. split; [apply dict_set_NoDup; exact Hnd|].
  intros k0 v0 Hin. apply dict_set_In in Hin as [[-> ->]|Hin]; [|auto].
  split; auto. exists d. auto.
Qed.

Lemma range_loop_well_formed (fuel : nat) :
  forall (cur end_ : date) (m m' : opportunity_map),
    valid_date cur = true -> well_formed_map m ->
    range_loop fuel cur end_ m = Ok m' -> well_formed_map m'.
Proof.
  induction fuel as [|fuel IH]; intros cur end_ m m' Hv Hm Hrun.
  - simpl in Hrun. congruence.
  - cbn [range_loop] in Hrun.
    destruct (date_leb cur end_); [|congruence].
    destruct (next_day cur) as [next| |] eqn:En; cbn [bind] in Hrun.
    2,3: destruct (date_eqb cur (dt_date missed_day)); discriminate.
    pose proof (next_day_valid _ _ Hv En) as Hvn.
    destruct (date_eqb cur (dt_date missed_day)) eqn:Emiss; cbn [bind] in Hrun.
    + eapply IH; eauto.
    + eapply IH; [exact Hvn| |exact Hrun].
      destruct (weekday cur =? 6); auto.
      destruct (negb (dict_mem (strftime_mdY cur) m)); auto.
      apply well_formed_set; auto. unfold known_labels. simpl. auto.
Qed.

Lemma range_bounds_valid (col : cell) (s e : date) :
  range_bounds col = Ok (s, e) -> valid_date s = true /\ valid_date e = true.
Proof.
  unfold range_bounds.
  destruct (split_on "-" (py_str col)) as [|a [|b [|c l]]]; try discriminate.
  destruct (strptime a (range_format a)) as [ts| |] eqn:Es; try discriminate.
  destruct (strptime b (range_format b)) as [te| |] eqn:Ee; try discriminate.
  cbn [bind]. intros [= <- <-].
  split; eapply strptime_valid; eauto.
Qed.

Lemma process_col_well_formed (now : datetime) (sn : string) (m m' : opportunity_map)
  (col0 : cell) :
  well_formed_map m -> process_col now sn m col0 = Ok m' -> well_formed_map m'.
Proof.
  intros Hm Hrun.
  destruct (literal_date col0) as [t|] eqn:El.
  - destruct (process_col_literal now sn m col0 t El) as (col & _ & Hp & Heq).
    rewrite Heq in Hrun.
    destruct (dt_gtb t now); [congruence|].
    destruct (date_eqb (dt_date t) (dt_date missed_day)) eqn:Emiss; [congruence|].
    destruct (classify sn col t) as [ls| |] eqn:Ec; try discriminate.
    cbn [bind] in Hrun. injection Hrun as <-.
    apply well_formed_set; auto.
    + eapply classify_known; eauto.
    + eapply strptime_cell_valid; eauto.
  - destruct (range_header col0) eqn:Er.
    + destruct (process_col_range now sn m col0 Er) as (col & _ & Heq).
      rewrite Heq in Hrun. unfold get_range in Hrun.
      destruct (range_bounds col) as [[s e]| |] eqn:Eb; try discriminate.
      cbn [bind fst snd] in Hrun.
      destruct (range_bounds_valid _ _ _ Eb) as [Hs _].
      eapply range_loop_well_formed; eauto.
    + rewrite (process_col_other now sn m m' col0 El Er Hrun). exact Hm.
Qed.

Lemma process_sheet_well_formed (now : datetime) (combined : dataset)
  (m m' : opportunity_map) (sn : string) :
  well_formed_map m -> process_sheet now combined m sn = Ok m' -> well_formed_map m'.
Proof.
  intros Hm. unfold process_sheet.
  destruct (dict_index sn combined) as [rows| |]; try discriminate. cbn [bind].
  destruct (first_row rows) as [hdr| |]; try discriminate. cbn [bind].
  apply foldM_invariant; auto.
  intros s x s' _. apply process_col_well_formed.
Qed.

Lemma get_legacy_opportunities_well_formed (now : datetime) (combined : dataset)
  (m : opportunity_map) :
  get_legacy_opportunities now combined = Ok m -> well_formed_map m.
Proof.
  unfold get_legacy_opportunities.
  apply foldM_invariant; [|apply well_formed_empty].
  intros s x s' _. apply process_sheet_well_formed.
Qed.

(** C9.  Every value of the map a classifier run returns is one of the
    five label lists [Meal Prep], [seventh, Meal Prep], [riverside,
    seventh, Meal Prep], [seventh] and [menchaca]; in particular no value
    is empty, and no date is listed twice. *)
Theorem classifier_values_known (now : datetime) (combined : dataset)
  (m : opportunity_map) (date : string) (ls : labels) :
  get_legacy_opportunities now combined = Ok m ->
  In (date, ls) m ->
  (ls = [meal_prep] \/ ls = [seventh; meal_prep]
   \/ ls = [riverside; seventh; meal_prep] \/ ls = [seventh] \/ ls = [menchaca])
  /\ ls <> [] /\ NoDup (map fst m).
Proof.
  intros Hrun Hin.
  destruct (get_legacy_opportunities_well_formed now combined m Hrun) as [Hnd Hm].
  destruct (Hm date ls Hin) as [Hk _]. unfold known_labels in Hk. simpl in Hk.
  split; [|split; auto].
  - intuition auto.
  - intros ->. intuition discriminate.
Qed.

(** The missed day never has an entry, whichever header names it. *)
Lemma missed_day_absent (now : datetime) (combined : dataset) (m : opportunity_map) :
  get_legacy_opportunities now combined = Ok m ->
  dict_get (strftime_mdY (dt_date missed_day)) m = None.
Proof.
  intros Hrun.
  destruct (get_legacy_opportunities_well_formed now combined m Hrun) as [_ Hm].
  destruct (dict_get (strftime_mdY (dt_date missed_day)) m) as [v|] eqn:E; auto.
  apply dict_get_In in E. destruct (Hm _ _ E) as [_ (d & Hk & Hv & Hmiss)].
  apply strftime_mdY_inj in Hk; auto. subst d.
  assert (date_eqb (dt_date missed_day) (dt_date missed_day) = true)
    by (apply date_eqb_eq; reflexivity).
  congruence.
Qed.

(** ** Literal dates *)





Lemma classifier_values_known_witness :
  get_legacy_opportunities sample_now sample_dataset = Ok sample_map
  /\ In ("4/5/2025", [seventh; meal_prep]) sample_map
  /\ ([seventh; meal_prep] <> [] /\ NoDup (map fst sample_map)).
Proof.
  split; [vm_compute; reflexivity|].
  split; [repeat (first [left; reflexivity | right])|].
  apply (classifier_values_known sample_now sample_dataset sample_map
           "4/5/2025" [seventh; meal_prep]).
  - vm_compute. reflexivity.
  - repeat (first [left; reflexivity | right]).
Defined.


(** C5.  The overwrite rule is asymmetric.  A literal-date header on a
    Saturday or Sunday, not after run time and not the missed day, writes
    its labels under its date whatever the map held there.  A date-range
    header leaves every entry of the map as it was and adds [seventh]
    exactly for the Sundays of the range, the missed day apart, that had
    no entry. *)
Theorem overwrite_rule_asymmetric (now : datetime) (sn : string)
  (m : opportunity_map) (col : cell) :
  (forall t, literal_date col = Some t -> dt_gtb t now = false ->
     date_eqb (dt_date t) (dt_date missed_day) = false ->
     weekday (dt_date t) = 5 \/ weekday (dt_date t) = 6 ->
     exists ls, In ls known_labels
       /\ process_col now sn m col = Ok (dict_set (strftime_mdY (dt_date t)) ls m)
       /\ dict_get (strftime_mdY (dt_date t))
                   (dict_set (strftime_mdY (dt_date t)) ls m) = Some ls)
  /\ (range_header col = true ->
      forall m', process_col now sn m col = Ok m' ->
      exists col' s e,
        reinterpret_iso col = Ok col' /\ range_bounds col' = Ok (s, e)
        /\ (forall k v, dict_get k m = Some v -> dict_get k m' = Some v)
        /\ (forall k v, dict_get k m = None -> dict_get k m' = Some v ->
              v = [seventh]
              /\ exists d, k = strftime_mdY d /\ weekday d = 6
                           /\ date_leb s d = true /\ date_leb d e = true)
        /\ (forall d, valid_date d = true -> date_leb s d = true ->
              date_leb d e = true -> weekday d = 6 ->
              date_eqb d (dt_date missed_day) = false ->
              dict_mem (strftime_mdY d) m' = true)).
Proof.
  split.
  - intros t Hl Hnow Hmiss Hw.
    destruct (process_col_literal now sn m col t Hl) as (col' & _ & _ & Heq).
    rewrite Hnow, Hmiss in Heq.
    assert (Hc : exists ls, classify sn col' t = Ok ls).
    { unfold classify. destruct Hw as [-> | ->]; cbn [Z.eqb Pos.eqb];
        repeat match goal with |- context [if ?b then _ else _] => destruct b end;
        eauto. }
    destruct Hc as (ls & Hc). rewrite Hc in Heq. cbn [bind] in Heq.
    exists ls. split; [eapply classify_known; eauto|]. split; auto.
    apply dict_get_set_same.
  - intros Hr m' Hrun.
    destruct (process_col_range now sn m col Hr) as (col' & Hiso & Heq).
    rewrite Heq in Hrun. unfold get_range in Hrun.
    destruct (range_bounds col') as [[s e]| |] eqn:Eb; try discriminate.
    cbn [bind fst snd] in Hrun.
    destruct (range_bounds_valid _ _ _ Eb) as [Hs He].
    exists col', s, e. split; auto. split; auto. split; [|split].
    + eapply range_loop_keeps; eauto.
    + intros k v Hk Hk'.
      destruct (range_loop_adds _ _ _ _ _ Hs Hrun k v Hk Hk')
        as (Hv & d & H1 & H2 & H3 & H4 & H5 & H6).
      split; auto. exists d. repeat split; auto.
      apply date_leb_ordinal; auto.
    + intros d Hd Hsd Hde Hw Hmiss.
      apply date_leb_ordinal in Hsd; auto. apply date_leb_ordinal in Hde; auto.
      eapply (range_loop_fills _ s e m m' d); eauto.
      unfold days_between. lia.
Qed.

Lemma overwrite_rule_asymmetric_witness :
  process_col sample_now "2025 Sunday Handouts" [("4/6/2025", [seventh])]
              (CStr "4/6/2025")
  = Ok [("4/6/2025", [menchaca])]
  /\ process_col sample_now "2025 Sunday Handouts" [("4/6/2025", [menchaca])]
                 (CStr "4/1/2025-4/13/2025")
     = Ok [("4/6/2025", [menchaca]); ("4/13/2025", [seventh])]
  /\ dict_get "4/6/2025" [("4/6/2025", [menchaca]); ("4/13/2025", [seventh])]
     = Some [menchaca].
Proof.
  split; [vm_compute; reflexivity|].
  split; [vm_compute; reflexivity|].
  destruct (proj2 (overwrite_rule_asymmetric sample_now "2025 Sunday Handouts"
                     [("4/6/2025", [menchaca])] (CStr "4/1/2025-4/13/2025"))
                  eq_refl [("4/6/2025", [menchaca]); ("4/13/2025", [seventh])] eq_refl)
    as (col' & s & e & _ & _ & Hkeep & _).
  apply Hkeep. reflexivity.
Defined.

(** ** Aborts *)

Lemma foldM_stops {A S : Type} (body : S -> A -> result S) (pre post : list A)
  (x : A) (s0 s : S) (r : result S) :
  foldM body pre s0 = Ok s -> body s x = r -> is_ok r = false ->
  foldM body (pre ++ x :: post) s0 = r.
Proof.
  intros Hpre Hx Hbad. rewrite foldM_app, Hpre. cbn [bind foldM]. rewrite Hx.
  destruct r; [discriminate|reflexivity|reflexivity].
Qed.

Lemma process_sheet_header (now : datetime) (combined : dataset) (sn : string)
  (rows : sheet) (hdr : list cell) (m : opportunity_map) :
  dict_get sn combined = Some rows -> first_row rows = Ok hdr ->
  process_sheet now combined m sn = foldM (process_col now sn) hdr m.
Proof.
  intros Hrows Hhdr. unfold process_sheet, dict_index. rewrite Hrows. cbn [bind].
  rewrite Hhdr. reflexivity.
Qed.

(** C7.  A literal-date header that is not after run time, is not the
    missed day and falls on a weekday other than Saturday and Sunday ends
    the run with the exit "Unexpected weekday for date column <col> in
    sheet <sheet>": whatever the map holds when the header is reached, no
    later column or sheet is processed, and a run over a dataset with
    such a header in a configured sheet returns no map. *)
Theorem other_weekday_aborts (now : datetime) (combined : dataset) (sn : string)
  (rows : sheet) (hdr : list cell) (col : cell) (t : datetime) :
  literal_date col = Some t ->
  dt_gtb t now = false ->
  date_eqb (dt_date t) (dt_date missed_day) = false ->
  weekday (dt_date t) <> 5 -> weekday (dt_date t) <> 6 ->
  dict_get sn combined = Some rows -> first_row rows = Ok hdr -> In col hdr ->
  In sn sheets_of_interest ->
  exists col',
    reinterpret_iso col = Ok col'
    /\ (forall m,
          process_col now sn m col
          = Exit ("Unexpected weekday for date column " ++ py_str col'
                    ++ " in sheet " ++ sn))
    /\ (forall sheets_before sheets_after cols_before cols_after m1 m2,
          sheets_of_interest = (sheets_before ++ sn :: sheets_after)%list ->
          hdr = (cols_before ++ col :: cols_after)%list ->
          foldM (process_sheet now combined) sheets_before [] = Ok m1 ->
          foldM (process_col now sn) cols_before m1 = Ok m2 ->
          get_legacy_opportunities now combined
          = Exit ("Unexpected weekday for date column " ++ py_str col'
                    ++ " in sheet " ++ sn))
    /\ is_ok (get_legacy_opportunities now combined) = false.
Proof.
  intros Hl Hnow Hmiss Hw5 Hw6 Hrows Hhdr Hcol Hsn.
  destruct (process_col_literal now sn [] col t Hl) as (col' & Hiso & Hp & _).
  exists col'. split; auto.
  assert (Hstep : forall m, process_col now sn m col
            = Exit ("Unexpected weekday for date column " ++ py_str col'
                      ++ " in sheet " ++ sn)).
  { intros m. destruct (process_col_literal now sn m col t Hl) as (c & Hiso' & _ & Heq).
    assert (c = col') by congruence. subst c.
    rewrite Heq, Hnow, Hmiss. unfold classify.
    apply Z.eqb_neq in Hw5, Hw6. rewrite Hw5, Hw6. reflexivity. }
  split; auto. split.
  - intros sb sa cb ca m1 m2 Hsheets Hcols Hm1 Hm2.
    unfold get_legacy_opportunities. rewrite Hsheets.
    apply (foldM_stops _ sb sa sn [] m1); auto.
    rewrite (process_sheet_header now combined sn rows hdr m1 Hrows Hhdr), Hcols.
    apply (foldM_stops _ cb ca col m1 m2); auto.
  - unfold get_legacy_opportunities.
    apply (foldM_blocked _ sheets_of_interest sn Hsn).
    intros m. rewrite (process_sheet_header now combined sn rows hdr m Hrows Hhdr).
    apply (foldM_blocked _ hdr col Hcol).
    intros m0. rewrite Hstep. reflexivity.
Qed.

Lemma other_weekday_aborts_witness :
  literal_date (CStr "4/7/2025") = Some (midnight (mk_date 2025 4 7))
  /\ weekday (mk_date 2025 4 7) = 0
  /\ get_legacy_opportunities sample_now
       (dataset_with [("2025 Meal Prep", ["Volunteers:"; "4/7/2025"; "4/12/2025"])])
     = Exit "Unexpected weekday for date column 4/7/2025 in sheet 2025 Meal Prep".
Proof.
  split; [vm_compute; reflexivity|].
  split; [vm_compute; reflexivity|].
  assert (H5 : weekday (dt_date (midnight (mk_date 2025 4 7))) <> 5)
    by (vm_compute; discriminate).
  assert (H6 : weekday (dt_date (midnight (mk_date 2025 4 7))) <> 6)
    by (vm_compute; discriminate).
  assert (Hc : In (CStr "4/7/2025") (map CStr ["Volunteers:"; "4/7/2025"; "4/12/2025"]))
    by (right; left; reflexivity).
  assert (Hs : In "2025 Meal Prep" sheets_of_interest)
    by (repeat (first [left; reflexivity | right])).
  destruct (other_weekday_aborts sample_now
              (dataset_with [("2025 Meal Prep", ["Volunteers:"; "4/7/2025"; "4/12/2025"])])
              "2025 Meal Prep"
              (header_only ["Volunteers:"; "4/7/2025"; "4/12/2025"])
              (map CStr ["Volunteers:"; "4/7/2025"; "4/12/2025"])
              (CStr "4/7/2025") (midnight (mk_date 2025 4 7))
              eq_refl eq_refl eq_refl H5 H6 eq_refl eq_refl Hc Hs)
    as (col' & Hiso & _ & Hrun & _).
  injection Hiso as <-.
  apply (Hrun ["2024 Handouts"; "2024 Meal Prep"; "2025 Saturday Handout";
               "2025 Sunday Handouts"]
              ["2026 Saturday Handout"; "2026 Sunday Handouts"; "2026 Meal Prep"]
              [CStr "Volunteers:"] [CStr "4/12/2025"] [] []);
    vm_compute; reflexivity.
Defined.

(** C10, as amended.  A dataset that lacks one of the eight configured
    sheets never gets a map: the run ends with the [KeyError] of the
    first missing sheet, unless a header of an earlier sheet has ended it
    before. *)
Theorem missing_sheet_never_skipped (now : datetime) (combined : dataset)
  (sn : string) :
  In sn sheets_of_interest ->
  dict_get sn combined = None ->
  is_ok (get_legacy_opportunities now combined) = false
  /\ forall sheets_before sheets_after m,
       sheets_of_interest = (sheets_before ++ sn :: sheets_after)%list ->
       foldM (process_sheet now combined) sheets_before [] = Ok m ->
       get_legacy_opportunities now combined = Raise KeyError.
Proof.
  intros Hsn Hmiss.
  assert (Hstep : forall m, process_sheet now combined m sn = Raise KeyError).
  { intros m. unfold process_sheet, dict_index. rewrite Hmiss. reflexivity. }
  split.
  - unfold get_legacy_opportunities.
    apply (foldM_blocked _ sheets_of_interest sn Hsn).
    intros m. rewrite Hstep. reflexivity.
  - intros sb sa m Hsheets Hm. unfold get_legacy_opportunities. rewrite Hsheets.
    apply (foldM_stops _ sb sa sn [] m); auto.
Qed.

Lemma missing_sheet_never_skipped_witness :
  dict_get "2024 Meal Prep" [("2024 Handouts", header_only ["Volunteers:"])] = None
  /\ get_legacy_opportunities sample_now [("2024 Handouts", header_only ["Volunteers:"])]
     = Raise KeyError.
Proof.
  split; [reflexivity|].
  apply (proj2 (missing_sheet_never_skipped sample_now
                  [("2024 Handouts", header_only ["Volunteers:"])] "2024 Meal Prep"
                  (or_intror (or_introl eq_refl)) eq_refl)
               ["2024 Handouts"]
               ["2025 Saturday Handout"; "2025 Sunday Handouts"; "2025 Meal Prep";
                "2026 Saturday Handout"; "2026 Sunday Handouts"; "2026 Meal Prep"]
               []);
    reflexivity.
Defined.

(** C10 as stated fails: with the sheet [2026 Meal Prep] (and others)
    missing, a header [Name] in the first sheet ends the run by
    [sys.exit], not by a lookup error. *)
Lemma missing_sheet_lookup_error_counterexample :
  ~ (forall (now : datetime) (combined : dataset) (sn : string),
       In sn sheets_of_interest -> dict_get sn combined = None ->
       get_legacy_opportunities now combined = Raise KeyError
       \/ get_legacy_opportunities now combined = Raise IndexError).
Proof.
  intros H.
  assert (Hin : In "2026 Meal Prep" sheets_of_interest)
    by (repeat (first [left; reflexivity | right])).
  destruct (H sample_now [("2024 Handouts", header_only ["Name"])] "2026 Meal Prep"
              Hin eq_refl) as [H1|H1];
    vm_compute in H1; discriminate.
Qed.

(** The literal-date branch records neither a date after run time nor
    the missed day. *)
Lemma literal_future_or_missed_skipped (now : datetime) (sn : string)
  (m : opportunity_map) (col : cell) (t : datetime) :
  literal_date col = Some t ->
  dt_gtb t now = true \/ date_eqb (dt_date t) (dt_date missed_day) = true ->
  process_col now sn m col = Ok m.
Proof.
  intros Hl Hskip.
  destruct (process_col_literal now sn m col t Hl) as (col' & _ & _ & Heq).
  rewrite Heq. destruct (dt_gtb t now); [reflexivity|].
  destruct Hskip as [Hf|Hm]; [discriminate|]. rewrite Hm. reflexivity.
Qed.

(** C4 at a failing input.  At run time 2026-01-05 the range header
    [1/10/2026-1/17/2026] records the Sunday 1/11/2026, a date after run
    time; the same date as a literal header is skipped. *)
Theorem range_header_records_future_date :
  get_legacy_opportunities sample_now
    (dataset_with [("2026 Sunday Handouts", ["Volunteers:"; "1/10/2026-1/17/2026"])])
  = Ok [("1/11/2026", [seventh])]
  /\ dt_gtb (midnight (mk_date 2026 1 11)) sample_now = true
  /\ get_legacy_opportunities sample_now
       (dataset_with [("2026 Sunday Handouts", ["Volunteers:"; "1/11/2026"])])
     = Ok [].
Proof. repeat split; vm_compute; reflexivity. Qed.

(** ** The opportunity merge *)

Lemma foldM_map {A B S : Type} (f : A -> B) (body : S -> B -> result S)
  (xs : list A) (s : S) :
  foldM body (map f xs) s = foldM (fun s0 x => body s0 (f x)) xs s.
Proof.
  revert s; induction xs as [|x xs IH]; intros s; simpl; [reflexivity|].
  destruct (body s (f x)); simpl; auto.
Qed.

Lemma filter_length_zero {A : Type} (f : A -> bool) (l : list A) :
  (List.length (filter f l) =? 0)%nat = negb (existsb f l).
Proof.
  induction l as [|x l IH]; simpl; [reflexivity|].
  destruct (f x); simpl; auto.
Qed.

Lemma has_column_concat (c : string) (df : table) (r : row) :
  has_column c df = true -> has_column c (concat_row df r) = true.
Proof.
  unfold has_column, concat_row. cbn [columns]. rewrite existsb_app.
  intros ->. reflexivity.
Qed.

Lemma new_row_has_no_name (now : datetime) (id date_part name : string) :
  row_get "name" (new_row now id date_part name) = CNone.
Proof. reflexivity. Qed.

Lemma row_matches_no_name (date label : string) (r : row) :
  row_get "name" r = CNone -> row_matches date label r = false.
Proof. intros H. unfold row_matches. rewrite H. apply andb_false_r. Qed.

Lemma existsb_none {A : Type} (f : A -> bool) (l : list A) :
  Forall (fun x => f x = false) l -> existsb f l = false.
Proof.
  induction 1 as [|x l Hx _ IH]; simpl; [reflexivity|]. rewrite Hx, IH. reflexivity.
Qed.

Lemma pairs_cons (date : string) (ls : labels) (m : opportunity_map) :
  pairs ((date, ls) :: m) = (map (pair date) ls ++ pairs m)%list.
Proof. reflexivity. Qed.

Lemma pairs_In (m : opportunity_map) (date label : string) :
  In (date, label) (pairs m) <-> exists ls, In (date, ls) m /\ In label ls.
Proof.
  unfold pairs. rewrite in_flat_map. split.
  - intros ([d ls] & Hin & Hp). cbn [fst snd] in Hp.
    apply in_map_iff in Hp as (l & [= <- <-] & Hl). eauto.
  - intros (ls & Hin & Hl). exists (date, ls). split; auto.
    cbn [fst snd]. apply in_map. exact Hl.
Qed.

Lemma known_labels_NoDup (ls : labels) : In ls known_labels -> NoDup ls.
Proof.
  unfold known_labels. simpl.
  intros [<-|[<-|[<-|[<-|[<-|[]]]]]];
    repeat (constructor; [simpl; intuition discriminate|]); constructor.
Qed.

Lemma map_pair_NoDup {A B : Type} (a : A) (l : list B) :
  NoDup l -> NoDup (map (pair a) l).
Proof.
  induction 1 as [|x l Hx _ IH]; simpl; constructor; auto.
  intros Hin. apply in_map_iff in Hin as (y & [= ->] & Hy). contradiction.
Qed.

Lemma pairs_NoDup (m : opportunity_map) :
  well_formed_map m -> NoDup (pairs m).
Proof.
  intros [Hnd Hm]. induction m as [|[d ls] m IH]; [constructor|].
  rewrite pairs_cons. cbn [map fst] in Hnd. inversion Hnd as [|? ? Hd Hnd']; subst.
  apply NoDup_app.
  - apply map_pair_NoDup.
    apply known_labels_NoDup. apply (Hm d ls). left. reflexivity.
  - apply IH; auto. intros k v Hin. apply Hm. right. exact Hin.
  - intros [d' l'] H1 H2. apply in_map_iff in H1 as (l0 & [= <- <-] & _).
    apply pairs_In in H2 as (ls' & Hin & _). apply Hd.
    apply (in_map fst) in Hin. exact Hin.
Qed.

Lemma pairs_keys_parse (m : opportunity_map) (p : string * string) :
  well_formed_map m -> In p (pairs m) ->
  exists d, valid_date d = true /\ fst p = strftime_mdY d
            /\ strptime (fst p) fmt_mdY = Ok (midnight d).
Proof.
  intros [_ Hm] Hin. destruct p as [date label].
  apply pairs_In in Hin as (ls & Hin & _).
  destruct (Hm _ _ Hin) as (_ & d & -> & Hv & _).
  exists d. repeat split; auto. apply strptime_strftime_mdY. exact Hv.
Qed.

Lemma matches_ok (df : table) (date label : string) :
  has_column "datetime" df = true -> has_column "name" df = true ->
  matches df date label = Ok (filter (row_matches date label) (rows df)).
Proof. intros H1 H2. unfold matches, column. rewrite H1, H2. reflexivity. Qed.

Lemma matches_no_column (df : table) (date label : string) :
  has_column "datetime" df && has_column "name" df = false ->
  matches df date label = Raise KeyError.
Proof.
  unfold matches, column. destruct (has_column "datetime" df); simpl; auto.
  intros ->. reflexivity.
Qed.

(** The merge visits the pairs of the map in order. *)
Lemma merge_by_pairs (uuid4 : nat -> string) (now : datetime) (legacy : opportunity_map) (st : table * nat) :
  foldM (merge_date uuid4 now) legacy st
  = foldM (fun st0 p => merge_name uuid4 now (fst p) st0 (snd p)) (pairs legacy) st.
Proof.
  revert st. induction legacy as [|[d ls] m IH]; intros st; [reflexivity|].
  rewrite pairs_cons, foldM_app, foldM_map. cbn [foldM merge_date fst snd].
  destruct (foldM (merge_name uuid4 now d) ls st) as [st'| |] eqn:E.
  - cbn [bind]. rewrite IH.
    replace (foldM (fun s0 x => merge_name uuid4 now d s0 x) ls st) with (Ok st')
      by (rewrite <- E; reflexivity).
    reflexivity.
  - replace (foldM (fun s0 x => merge_name uuid4 now d s0 x) ls st)
      with (@Exit (table * nat) diag) by (rewrite <- E; reflexivity).
    reflexivity.
  - replace (foldM (fun s0 x => merge_name uuid4 now d s0 x) ls st)
      with (@Raise (table * nat) e) by (rewrite <- E; reflexivity).
    reflexivity.
Qed.

(** The loop over the pairs, from a table that holds the rows of [df0]
    and rows synthesized so far. *)
Lemma merge_pairs_spec (uuid4 : nat -> string) (now : datetime) (df0 : table) (ps : list (string * string)) :
  (forall p, In p ps -> exists t, strptime (fst p) fmt_mdY = Ok t) ->
  forall (dfc : table) (acc : list row) (n : nat),
    has_column "datetime" dfc = true -> has_column "name" dfc = true ->
    rows dfc = (rows df0 ++ acc)%list ->
    Forall (fun r => row_get "name" r = CNone) acc ->
    exists dfc',
      foldM (fun st0 p => merge_name uuid4 now (fst p) st0 (snd p)) ps (dfc, n)
      = Ok (dfc', (n + List.length (filter (unmatched df0) ps))%nat)
      /\ rows dfc'
         = (rows dfc ++ synthesized uuid4 now n (filter (unmatched df0) ps))%list
      /\ has_column "datetime" dfc' = true /\ has_column "name" dfc' = true.
Proof.
  induction ps as [|[date label] ps IH]; intros Hparse dfc acc n Hc1 Hc2 Hrows Hacc.
  - exists dfc. cbn [foldM filter List.length synthesized].
    rewrite Nat.add_0_r, app_nil_r. auto.
  - cbn [foldM fst snd]. unfold merge_name at 1.
    rewrite matches_ok by assumption. cbn [bind].
    rewrite filter_length_zero.
    assert (Hsame : negb (existsb (row_matches date label) (rows dfc))
                    = unmatched df0 (date, label)).
    { unfold unmatched. cbn [fst snd]. rewrite Hrows, existsb_app.
      rewrite (existsb_none _ acc), orb_false_r; [reflexivity|].
      eapply Forall_impl; [|exact Hacc]. intros r Hr.
      apply row_matches_no_name. exact Hr. }
    rewrite Hsame. cbn [filter].
    assert (Hparse' : forall p, In p ps -> exists t, strptime (fst p) fmt_mdY = Ok t)
      by (intros p Hp; apply Hparse; right; exact Hp).
    destruct (unmatched df0 (date, label)) eqn:Eu.
    + destruct (Hparse (date, label) (or_introl eq_refl)) as (t & Ht).
      cbn [fst] in Ht. rewrite Ht. cbn [bind].
      set (r := new_row now (uuid4 n) (strftime_Ymd (dt_date t)) label).
      destruct (IH Hparse' (concat_row dfc r) (acc ++ [r])%list (S n))
        as (dfc' & Hrun & Hrows' & Hc1' & Hc2').
      * apply has_column_concat. exact Hc1.
      * apply has_column_concat. exact Hc2.
      * unfold concat_row. cbn [rows]. rewrite Hrows, app_assoc. reflexivity.
      * apply Forall_app. split; [exact Hacc|]. constructor; [reflexivity|constructor].
      * exists dfc'. cbn [List.length synthesized fst snd]. split; [|split; auto].
        -- rewrite Hrun. f_equal. f_equal. lia.
        -- rewrite Hrows'. unfold concat_row. cbn [rows].
           rewrite <- app_assoc. cbn [app]. unfold ymd_of_key. rewrite Ht.
           reflexivity.
    + cbn [bind]. apply (IH Hparse' dfc acc n); auto.
Qed.

Lemma merge_ok (uuid4 : nat -> string) (now : datetime) (legacy : opportunity_map) (df : table) :
  well_formed_map legacy ->
  has_column "datetime" df = true -> has_column "name" df = true ->
  exists out,
    merge uuid4 now legacy df = Ok out
    /\ rows out
       = (rows df ++ synthesized uuid4 now 0 (filter (unmatched df) (pairs legacy)))%list
    /\ has_column "datetime" out = true /\ has_column "name" out = true.
Proof.
  intros Hwf Hc1 Hc2. unfold merge. rewrite merge_by_pairs.
  destruct (merge_pairs_spec uuid4 now df (pairs legacy)) with (dfc := df) (acc := @nil row)
                                                         (n := O)
    as (out & Hrun & Hrows & Hc1' & Hc2'); auto.
  - intros p Hp. destruct (pairs_keys_parse legacy p Hwf Hp) as (d & _ & _ & Hd). eauto.
  - rewrite app_nil_r. reflexivity.
  - exists out. rewrite Hrun. cbn [bind fst]. auto.
Qed.

Lemma synthesized_nth (uuid4 : nat -> string) (now : datetime)
  (ps : list (string * string)) :
  forall n k p, nth_error ps k = Some p ->
    nth_error (synthesized uuid4 now n ps) k
    = Some (new_row now (uuid4 (n + k)%nat) (ymd_of_key (fst p)) (snd p)).
Proof.
  induction ps as [|q ps IH]; intros n k p Hk.
  - destruct k; discriminate.
  - destruct k as [|k]; cbn [nth_error synthesized] in *.
    + injection Hk as ->. rewrite Nat.add_0_r. reflexivity.
    + rewrite (IH (S n) k p Hk). do 3 f_equal. lia.
Qed.

Lemma ymd_of_key_strftime (d : date) :
  valid_date d = true -> ymd_of_key (strftime_mdY d) = strftime_Ymd d.
Proof. intros Hv. unfold ymd_of_key. rewrite strptime_strftime_mdY by exact Hv. reflexivity. Qed.

Section MergeProperties.

Variable strptime_tz : string -> result datetime.
Variable uuid4 : nat -> string.

(** When the classifier returns a map, the validation pass lets the
    table through and the table has the [datetime] and [name] columns
    that line 293 reads, the merge writes the rows of the table followed
    by one synthesized row for each (date, label) pair of the map that no
    row of the table matches on line 293 (the date key a substring of
    [datetime], [name] equal to the label), and nothing else.  The [k]-th
    of these rows is [new_row] (lines 296-311) with the [k]-th identifier
    drawn, the label as title and the date of the pair as 'YYYY-MM-DD
    09:00:00-0500'; a pair of the map occurs once among the pairs that
    get a row when it is unmatched, and not at all when a row matches
    it. *)
Theorem merge_appends_unmatched_pairs (now : datetime) (combined : dataset)
  (df : table) (legacy : opportunity_map) :
  get_legacy_opportunities now combined = Ok legacy ->
  validate strptime_tz now legacy df = Ok tt ->
  has_column "datetime" df = true -> has_column "name" df = true ->
  let todo := filter (unmatched df) (pairs legacy) in
  exists out,
    generate_migrated_opportunities strptime_tz uuid4 now combined df = Ok out
    /\ rows out = (rows df ++ synthesized uuid4 now 0 todo)%list
    /\ List.length (synthesized uuid4 now 0 todo) = List.length todo
    /\ (forall k p, nth_error todo k = Some p ->
          exists d, valid_date d = true /\ fst p = strftime_mdY d
            /\ nth_error (synthesized uuid4 now 0 todo) k
               = Some (new_row now (uuid4 k) (strftime_Ymd d) (snd p)))
    /\ (forall p, In p (pairs legacy) ->
          count_occ pair_eq_dec todo p = if unmatched df p then 1%nat else 0%nat).
Proof.
  intros Hleg Hval Hc1 Hc2 todo.
  pose proof (get_legacy_opportunities_well_formed _ _ _ Hleg) as Hwf.
  destruct (merge_ok uuid4 now legacy df Hwf Hc1 Hc2) as (out & Hm & Hrows & _).
  exists out. split; [|split; [exact Hrows|split; [|split]]].
  - unfold generate_migrated_opportunities. rewrite Hleg. cbn [bind].
    rewrite Hval. cbn [bind]. exact Hm.
  - clear. generalize 0%nat. induction todo as [|p ps IH]; intros n; simpl; auto.
  - intros k p Hk.
    assert (Hin : In p (pairs legacy)).
    { apply nth_error_In in Hk. apply filter_In in Hk. apply Hk. }
    destruct (pairs_keys_parse legacy p Hwf Hin) as (d & Hv & Hd & _).
    exists d. split; auto. split; auto.
    rewrite (synthesized_nth uuid4 now todo 0 k p Hk), Hd, ymd_of_key_strftime by exact Hv.
    reflexivity.
  - intros p Hp. pose proof (pairs_NoDup legacy Hwf) as Hnd.
    apply (NoDup_filter (unmatched df)) in Hnd. fold todo in Hnd.
    destruct (unmatched df p) eqn:Eu.
    + assert (Hin : In p todo) by (apply filter_In; auto).
      apply (count_occ_In pair_eq_dec) in Hin.
      rewrite (NoDup_count_occ pair_eq_dec) in Hnd. specialize (Hnd p). lia.
    + apply count_occ_not_In. intros Hin. apply filter_In in Hin as [_ Hin]. congruence.
Qed.

(** *** The validation pass *)

Hypothesis strptime_tz_valid :
  forall s t, strptime_tz s = Ok t -> valid_date (dt_date t) = true.






End MergeProperties.


Lemma merge_appends_unmatched_pairs_witness :
  get_legacy_opportunities sample_now boundary_dataset
  = Ok [("4/5/2025", [seventh; meal_prep])]
  /\ validate strptime_tz_hhmm sample_now [("4/5/2025", [seventh; meal_prep])]
              sample_table = Ok tt
  /\ exists out,
       generate_migrated_opportunities strptime_tz_hhmm sample_uuid4 sample_now
                                       boundary_dataset sample_table = Ok out
       /\ rows out
          = (rows sample_table
               ++ synthesized sample_uuid4 sample_now 0
                              [("4/5/2025", seventh); ("4/5/2025", meal_prep)])%list.
Proof.
  assert (H1 : get_legacy_opportunities sample_now boundary_dataset
               = Ok [("4/5/2025", [seventh; meal_prep])])
    by (vm_compute; reflexivity).
  assert (H2 : validate strptime_tz_hhmm sample_now
                        [("4/5/2025", [seventh; meal_prep])] sample_table = Ok tt)
    by (vm_compute; reflexivity).
  split; [exact H1|]. split; [exact H2|].
  destruct (merge_appends_unmatched_pairs strptime_tz_hhmm sample_uuid4 sample_now
              boundary_dataset sample_table [("4/5/2025", [seventh; meal_prep])]
              H1 H2 eq_refl eq_refl) as (out & Hg & Hr & _).
  exists out. split; [exact Hg|exact Hr].
Defined.


(** ** Running the merge on its own output *)

Lemma synthesized_length (uuid4 : nat -> string) (now : datetime) (n : nat)
  (ps : list (string * string)) :
  List.length (synthesized uuid4 now n ps) = List.length ps.
Proof. revert n; induction ps as [|p ps IH]; intros n; simpl; auto. Qed.

Lemma synthesized_no_name (uuid4 : nat -> string) (now : datetime) (n : nat)
  (ps : list (string * string)) :
  Forall (fun r => row_get "name" r = CNone) (synthesized uuid4 now n ps).
Proof.
  revert n; induction ps as [|p ps IH]; intros n; simpl; constructor; auto.
Qed.

Lemma unmatched_after_merge (df out : table) (extra : list row) (p : string * string) :
  rows out = (rows df ++ extra)%list ->
  Forall (fun r => row_get "name" r = CNone) extra ->
  unmatched out p = unmatched df p.
Proof.
  intros Hrows Hextra. unfold unmatched. rewrite Hrows, existsb_app.
  rewrite (existsb_none _ extra), orb_false_r; [reflexivity|].
  eapply Forall_impl; [|exact Hextra]. intros r Hr. apply row_matches_no_name. exact Hr.
Qed.

Lemma merge_without_columns (uuid4 : nat -> string) (now : datetime)
  (legacy : opportunity_map) (df : table) :
  has_column "datetime" df && has_column "name" df = false ->
  merge uuid4 now legacy df
  = match pairs legacy with [] => Ok df | _ :: _ => Raise KeyError end.
Proof.
  intros Hc. unfold merge. rewrite merge_by_pairs.
  destruct (pairs legacy) as [|[d l] ps]; [reflexivity|].
  cbn [foldM fst snd]. unfold merge_name. rewrite matches_no_column by exact Hc.
  reflexivity.
Qed.

(** C2 at a failing input.  The table has the columns the new system
    exports, with [title] and without [name], and one row; the sheet of
    the Saturday handouts of 2025 has the header 4/5/2025.  The
    classifier returns the pairs (4/5/2025, seventh) and (4/5/2025, Meal
    Prep) and the validation pass lets the table through.  No row of the
    table has the text 4/5/2025 in its [datetime], so a row is due for
    each pair; but line 293 reads the column [name], and the run ends in
    a [KeyError] with nothing appended and nothing written.  The same
    happens on the table without any row. *)
Theorem merge_raises_on_exported_columns :
  get_legacy_opportunities sample_now boundary_dataset
  = Ok [("4/5/2025", [seventh; meal_prep])]
  /\ has_column "title" exported_table = true
  /\ has_column "name" exported_table = false
  /\ map (row_get "datetime") (rows exported_table)
     = [CStr "2025-04-05 14:00:00+00"]
  /\ contains "4/5/2025" "2025-04-05 14:00:00+00" = false
  /\ validate strptime_tz_hhmm sample_now [("4/5/2025", [seventh; meal_prep])]
              exported_table = Ok tt
  /\ generate_migrated_opportunities strptime_tz_hhmm sample_uuid4 sample_now
                                     boundary_dataset exported_table
     = Raise KeyError
  /\ generate_migrated_opportunities strptime_tz_hhmm sample_uuid4 sample_now
                                     boundary_dataset (mk_table exported_columns [])
     = Raise KeyError.
Proof.
  repeat split; vm_compute; reflexivity.
Qed.

(** X13.  Whatever the first run appended, a second run on its output appends
    as many rows again: the rows the merge writes are rows it does not
    recognise. *)
Lemma rerun_appends_again (strptime_tz : string -> result datetime)
  (uuid4 uuid4' : nat -> string) (now : datetime) (combined : dataset)
  (df out1 out2 : table) :
  generate_migrated_opportunities strptime_tz uuid4 now combined df = Ok out1 ->
  generate_migrated_opportunities strptime_tz uuid4' now combined out1 = Ok out2 ->
  (List.length (rows out2) - List.length (rows out1)
   = List.length (rows out1) - List.length (rows df))%nat.
Proof.
  unfold generate_migrated_opportunities.
  destruct (get_legacy_opportunities now combined) as [legacy| |] eqn:Hleg;
    try discriminate.
  cbn [bind].
  destruct (validate strptime_tz now legacy df) as [[]| |]; try discriminate.
  destruct (validate strptime_tz now legacy out1) as [[]| |]; try discriminate.
  cbn [bind]. intros H1 H2.
  pose proof (get_legacy_opportunities_well_formed _ _ _ Hleg) as Hwf.
  destruct (has_column "datetime" df && has_column "name" df) eqn:Hc.
  - apply andb_true_iff in Hc as [Hc1 Hc2].
    destruct (merge_ok uuid4 now legacy df Hwf Hc1 Hc2) as (o1 & Hm1 & Hr1 & Hd1 & Hn1).
    assert (o1 = out1) by congruence. subst o1.
    destruct (merge_ok uuid4' now legacy out1 Hwf Hd1 Hn1) as (o2 & Hm2 & Hr2 & _).
    assert (o2 = out2) by congruence. subst o2.
    rewrite Hr2, length_app, synthesized_length.
    rewrite (filter_ext (unmatched out1) (unmatched df)).
    + rewrite Hr1, length_app, synthesized_length. lia.
    + intros p. eapply unmatched_after_merge; [exact Hr1|].
      apply synthesized_no_name.
  - rewrite merge_without_columns in H1 by exact Hc.
    destruct (pairs legacy) eqn:Ep; [|discriminate].
    injection H1 as <-. rewrite merge_without_columns in H2 by exact Hc.
    rewrite Ep in H2. injection H2 as <-. lia.
Qed.

(** C3 at a failing input.  The table holds the seventh-street handout of
    4/5/2025; the first run appends two rows (seventh, Meal Prep); the
    second run, on the output of the first, appends the same two rows
    again instead of none. *)
Theorem second_run_appends_again :
  exists out1 out2,
    generate_migrated_opportunities strptime_tz_hhmm sample_uuid4 sample_now
                                    boundary_dataset sample_table = Ok out1
    /\ generate_migrated_opportunities strptime_tz_hhmm sample_uuid4' sample_now
                                       boundary_dataset out1 = Ok out2
    /\ List.length (rows sample_table) = 1%nat
    /\ List.length (rows out1) = 3%nat
    /\ List.length (rows out2) = 5%nat
    /\ map (row_get "title") (rows out2)
       = [CStr "seventh"; CStr "seventh"; CStr "Meal Prep"; CStr "seventh";
          CStr "Meal Prep"]
    /\ out2 <> out1.
Proof.
  eexists. eexists.
  split; [vm_compute; reflexivity|].
  split; [vm_compute; reflexivity|].
  repeat split; try reflexivity. discriminate.
Qed.

(** ** The phone normaliser *)

(** X14.  A string without surrounding white space and without a dot, from
    which ten digits cannot be taken, is returned as it is. *)
Lemma format_phone_unchanged (p : string) :
  strip p = p -> str_mem "." p = false ->
  String.length (str_filter isdigit p) <> 10%nat ->
  (String.length (str_filter isdigit p) <> 11%nat
   \/ startswith "1" (str_filter isdigit p) = false) ->
  _format_phone (CStr p) = Some p.
Proof.
  intros Hs Hdot H10 H11. unfold _format_phone. rewrite Hs, Hdot.
  destruct ((String.length (str_filter isdigit p) =? 11)%nat
            && startswith "1" (str_filter isdigit p)) eqn:E.
  - apply andb_true_iff in E as [E1 E2]. apply Nat.eqb_eq in E1.
    destruct H11; congruence.
  - apply Nat.eqb_neq in H10. rewrite H10. reflexivity.
Qed.

(** C8 at failing inputs.  The two formatted examples and ['123'] behave
    as the claim says, but what is returned when ten digits cannot be
    taken is the stripped text cut at its first dot, not the original
    string: ['123.45'] comes back as ['123'], the dotted number
    ['512.589.8513'] as ['512'], and [' 123 '] as ['123']. *)
Theorem format_phone_returns_cut_text :
  _format_phone (CStr "15125898513.0") = Some "(512) 589-8513"
  /\ _format_phone (CStr "5125898513") = Some "(512) 589-8513"
  /\ _format_phone (CStr "123") = Some "123"
  /\ _format_phone (CStr "123.45") = Some "123"
  /\ _format_phone (CStr "512.589.8513") = Some "512"
  /\ _format_phone (CStr " 123 ") = Some "123".
Proof. repeat split; vm_compute; reflexivity. Qed.

(** ** Examples *)

Example strptime_examples :
  strptime "4/5/2025" fmt_mdY = Ok first_day_of_saturday
  /\ strptime "10/18/2025" fmt_mdY = Ok first_day_of_riverside
  /\ strptime "3/3/2024" fmt_mdY = Ok missed_day
  /\ strptime "04/05/2025" fmt_mdY = Ok (midnight (mk_date 2025 4 5))
  /\ strptime "1/17/26" fmt_mdy = Ok (midnight (mk_date 2026 1 17))
  /\ strptime "2024-05-05 00:00:00" fmt_iso = Ok (midnight (mk_date 2024 5 5))
  /\ strptime "2/30/2024" fmt_mdY = Raise ValueError
  /\ strptime "13/1/2024" fmt_mdY = Raise ValueError
  /\ strptime ("4/5/2025" ++ newline) fmt_mdY = Raise ValueError.
Proof. repeat split; vm_compute; reflexivity. Qed.

Example strftime_examples :
  strftime_mdY (mk_date 2024 5 5) = "5/5/2024"
  /\ strftime_mdY (mk_date 2025 10 18) = "10/18/2025"
  /\ strftime_Ymd (mk_date 2024 5 5) = "2024-05-05"
  /\ weekday (mk_date 2025 4 5) = 5
  /\ weekday (mk_date 2025 10 18) = 5
  /\ weekday (mk_date 2024 3 3) = 6.
Proof. repeat split; vm_compute; reflexivity. Qed.

Example header_examples :
  re_match date_re "4/5/2025" = true
  /\ re_match date_re "2024-05-05 00:00:00" = false
  /\ re_match iso_re "2024-05-05 00:00:00" = true
  /\ re_match range_re "1/10/2026-1/17/2026" = true
  /\ re_match range_re "2/25/24-3/10/24" = true
  /\ re_match date_re "Volunteers:" = false
  /\ re_match date_re ("4/5/2025" ++ newline) = true
  /\ get_legacy_opportunities sample_now sample_dataset = Ok sample_map
  /\ get_legacy_opportunities sample_now
       (dataset_with [("2024 Handouts", ["12/25/9999-12/31/9999"])])
     = Raise OverflowError.
Proof. repeat split; vm_compute; reflexivity. Qed.

(** * Further properties *)

(** ** The classifier's map *)

Lemma classify_fits (now : datetime) (sn : string) (col : cell) (t : datetime)
  (ls : labels) :
  t = midnight (dt_date t) -> dt_gtb t now = false ->
  classify sn col t = Ok ls -> entry_fits now (dt_date t) ls.
Proof.
  intros Hmid Hnow Hc. unfold entry_fits. rewrite <- Hmid.
  pose proof Hc as Hc'. unfold classify in Hc.
  destruct (weekday (dt_date t) =? 5) eqn:E5.
  - left. apply Z.eqb_eq in E5. repeat split; auto.
    eapply classify_any_sheet; eauto.
  - destruct (weekday (dt_date t) =? 6) eqn:E6; [|discriminate].
    right. apply Z.eqb_eq in E6. split; auto.
    destruct (dt_ltb t first_day_of_saturday) eqn:Es; injection Hc as <-; auto.
Qed.

Lemma range_loop_fits (now : datetime) (fuel : nat) :
  forall (cur end_ : date) (m m' : opportunity_map),
    valid_date cur = true ->
    (forall k ls, In (k, ls) m ->
       exists d, valid_date d = true /\ k = strftime_mdY d /\ entry_fits now d ls) ->
    range_loop fuel cur end_ m = Ok m' ->
    forall k ls, In (k, ls) m' ->
      exists d, valid_date d = true /\ k = strftime_mdY d /\ entry_fits now d ls.
Proof.
  induction fuel as [|fuel IH]; intros cur end_ m m' Hv Hm Hrun.
  - simpl in Hrun. injection Hrun as <-. exact Hm.
  - cbn [range_loop] in Hrun.
    destruct (date_leb cur end_); [|injection Hrun as <-; exact Hm].
    destruct (next_day cur) as [next| |] eqn:En; cbn [bind] in Hrun.
    2,3: destruct (date_eqb cur (dt_date missed_day)); discriminate.
    pose proof (next_day_valid _ _ Hv En) as Hvn.
    destruct (date_eqb cur (dt_date missed_day)); cbn [bind] in Hrun.
    + eapply IH; eauto.
    + eapply IH; [exact Hvn| |exact Hrun].
      destruct (weekday cur =? 6) eqn:Ew; auto.
      destruct (negb (dict_mem (strftime_mdY cur) m)); auto.
      intros k ls Hin. apply dict_set_In in Hin as [[-> ->]|Hin]; auto.
      exists cur. repeat split; auto. right. apply Z.eqb_eq in Ew. auto.
Qed.

Lemma process_col_fits (now : datetime) (sn : string) (m m' : opportunity_map)
  (col0 : cell) :
  (forall k ls, In (k, ls) m ->
     exists d, valid_date d = true /\ k = strftime_mdY d /\ entry_fits now d ls) ->
  process_col now sn m col0 = Ok m' ->
  forall k ls, In (k, ls) m' ->
    exists d, valid_date d = true /\ k = strftime_mdY d /\ entry_fits now d ls.
Proof.
  intros Hm Hrun.
  destruct (literal_date col0) as [t|] eqn:El.
  - destruct (process_col_literal now sn m col0 t El) as (col & _ & Hp & Heq).
    rewrite Heq in Hrun.
    destruct (dt_gtb t now) eqn:Hnow; [injection Hrun as <-; exact Hm|].
    destruct (date_eqb (dt_date t) (dt_date missed_day)); [injection Hrun as <-; exact Hm|].
    destruct (classify sn col t) as [ls0| |] eqn:Ec; try discriminate.
    cbn [bind] in Hrun. injection Hrun as <-.
    intros k ls Hin. apply dict_set_In in Hin as [[-> ->]|Hin]; auto.
    exists (dt_date t). split; [eapply strptime_cell_valid; eauto|]. split; auto.
    eapply classify_fits; eauto. eapply strptime_cell_midnight; eauto.
  - destruct (range_header col0) eqn:Er.
    + destruct (process_col_range now sn m col0 Er) as (col & _ & Heq).
      rewrite Heq in Hrun. unfold get_range in Hrun.
      destruct (range_bounds col) as [[s e]| |] eqn:Eb; try discriminate.
      cbn [bind fst snd] in Hrun.
      destruct (range_bounds_valid _ _ _ Eb) as [Hs _].
      eapply range_loop_fits; eauto.
    + rewrite (process_col_other now sn m m' col0 El Er Hrun). exact Hm.
Qed.

(** X1.  Every entry of the map a run returns is keyed by a Saturday or a
    Sunday.  A Saturday entry holds the list of its era and is never after
    run time; a Sunday entry holds [seventh], or [menchaca] for a Sunday
    from 4/5/2025 on that is not after run time. *)
Theorem entries_fit_their_weekday (now : datetime) (combined : dataset)
  (m : opportunity_map) (k : string) (ls : labels) :
  get_legacy_opportunities now combined = Ok m ->
  In (k, ls) m ->
  exists d, valid_date d = true /\ k = strftime_mdY d /\ entry_fits now d ls.
Proof.
  intros Hrun.
  pose (P := fun m0 : opportunity_map => forall k ls, In (k, ls) m0 ->
               exists d, valid_date d = true /\ k = strftime_mdY d
                         /\ entry_fits now d ls).
  assert (HP : P m).
  { unfold get_legacy_opportunities in Hrun.
    apply (foldM_invariant P (process_sheet now combined) sheets_of_interest)
      with (s := []); auto.
    - intros s x s' _ Hs. unfold process_sheet.
      destruct (dict_index x combined) as [rows| |]; try discriminate. cbn [bind].
      destruct (first_row rows) as [hdr| |]; try discriminate. cbn [bind].
      apply (foldM_invariant P); auto.
      intros s0 x0 s0' _ H1 H2. exact (process_col_fits now x s0 s0' x0 H1 H2).
    - intros k0 ls0 []. }
  apply HP.
Qed.

Lemma entries_fit_their_weekday_witness :
  get_legacy_opportunities sample_now sample_dataset = Ok sample_map
  /\ In ("4/6/2025", [menchaca]) sample_map
  /\ exists d, valid_date d = true /\ "4/6/2025" = strftime_mdY d
               /\ entry_fits sample_now d [menchaca].
Proof.
  assert (H1 : get_legacy_opportunities sample_now sample_dataset = Ok sample_map)
    by (vm_compute; reflexivity).
  assert (H2 : In ("4/6/2025", [menchaca]) sample_map)
    by (repeat (first [left; reflexivity | right])).
  split; [exact H1|]. split; [exact H2|].
  exact (entries_fit_their_weekday sample_now sample_dataset sample_map
           "4/6/2025" [menchaca] H1 H2).
Defined.

(** X2.  The missed day 3/3/2024 has no entry in the map of any run,
    whether a literal header, an ISO header or a date range names it. *)
Theorem missed_day_never_recorded (now : datetime) (combined : dataset)
  (m : opportunity_map) (ls : labels) :
  get_legacy_opportunities now combined = Ok m ->
  ~ In ("3/3/2024", ls) m.
Proof.
  intros Hrun Hin.
  destruct (dict_In_get _ _ _ Hin) as (v & Hv).
  pose proof (missed_day_absent now combined m Hrun) as Habs.
  change (strftime_mdY (dt_date missed_day)) with "3/3/2024" in Habs. congruence.
Qed.

Lemma missed_day_never_recorded_witness :
  get_legacy_opportunities sample_now
    (dataset_with [("2024 Handouts", ["3/3/2024"; "2024-03-03 00:00:00";
                                      "2/25/24-3/10/24"])])
  = Ok [("2/25/2024", [seventh]); ("3/10/2024", [seventh])]
  /\ ~ In ("3/3/2024", [seventh])
          [("2/25/2024", [seventh]); ("3/10/2024", [seventh])].
Proof.
  assert (H1 : get_legacy_opportunities sample_now
                 (dataset_with [("2024 Handouts", ["3/3/2024"; "2024-03-03 00:00:00";
                                                   "2/25/24-3/10/24"])])
               = Ok [("2/25/2024", [seventh]); ("3/10/2024", [seventh])])
    by (vm_compute; reflexivity).
  split; [exact H1|].
  exact (missed_day_never_recorded sample_now _ _ [seventh] H1).
Defined.

Lemma foldM_ext_in {A S : Type} (f g : S -> A -> result S) (xs : list A) :
  (forall s x, In x xs -> f s x = g s x) ->
  forall s, foldM f xs s = foldM g xs s.
Proof.
  induction xs as [|x xs IH]; intros H s; [reflexivity|].
  cbn [foldM]. rewrite (H s x (or_introl eq_refl)).
  destruct (g s x); cbn [bind]; auto.
  apply IH. intros s0 x0 Hin. apply H. right. exact Hin.
Qed.

Lemma process_sheet_header_of (now : datetime) (combined : dataset)
  (m : opportunity_map) (sn : string) :
  process_sheet now combined m sn
  = (hdr <- header_of combined sn ;; foldM (process_col now sn) hdr m).
Proof.
  unfold process_sheet, header_of.
  destruct (dict_index sn combined); reflexivity.
Qed.

(** X3.  The classifier consults nothing but the header rows of its eight
    sheets: two datasets that give those sheets the same header rows (or
    the same lookup failure) give the same result, whatever their data
    rows and their other sheets. *)
Theorem classifier_reads_headers_only (now : datetime) (c1 c2 : dataset) :
  (forall sn, In sn sheets_of_interest -> header_of c1 sn = header_of c2 sn) ->
  get_legacy_opportunities now c1 = get_legacy_opportunities now c2.
Proof.
  intros H. unfold get_legacy_opportunities. apply foldM_ext_in.
  intros m sn Hin. rewrite !process_sheet_header_of, (H sn Hin). reflexivity.
Qed.

Lemma classifier_reads_headers_only_witness :
  dict_get "2024 Handouts" sample_dataset_with_rows
  <> dict_get "2024 Handouts" sample_dataset
  /\ get_legacy_opportunities sample_now sample_dataset_with_rows
     = get_legacy_opportunities sample_now sample_dataset.
Proof.
  split; [vm_compute; discriminate|].
  apply classifier_reads_headers_only.
  intros sn Hin. cbn [sheets_of_interest In] in Hin.
  repeat (destruct Hin as [<-|Hin]; [vm_compute; reflexivity|]).
  contradiction.
Defined.

(** X4.  A header cell that is no date, no ISO timestamp, no
    administrative label and no date range is fatal: the step exits with
    "Not a date string: <cell> in sheet <sheet>" whatever the map holds,
    and a run over a dataset with such a cell in the header of a
    configured sheet returns no map. *)
Theorem unrecognized_header_aborts (now : datetime) (combined : dataset)
  (sn : string) (hdr : list cell) (col : cell) :
  unrecognized_header col = true ->
  header_of combined sn = Ok hdr -> In col hdr -> In sn sheets_of_interest ->
  exists col',
    reinterpret_iso col = Ok col'
    /\ (forall m,
          process_col now sn m col
          = Exit ("Not a date string: " ++ dquote ++ py_str col' ++ dquote
                    ++ " in sheet " ++ sn))
    /\ is_ok (get_legacy_opportunities now combined) = false.
Proof.
  intros Hu Hhdr Hcol Hsn. unfold unrecognized_header in Hu.
  destruct (reinterpret_iso col) as [col'| |] eqn:Hiso; try discriminate.
  apply andb_true_iff in Hu as [Hu H3]. apply andb_true_iff in Hu as [H1 H2].
  rewrite negb_true_iff in H1, H2, H3.
  assert (Hstep : forall m, process_col now sn m col
            = Exit ("Not a date string: " ++ dquote ++ py_str col' ++ dquote
                      ++ " in sheet " ++ sn)).
  { intros m. unfold process_col. rewrite Hiso. cbn [bind]. rewrite H1, H2, H3.
    reflexivity. }
  exists col'. split; auto. split; auto.
  unfold get_legacy_opportunities.
  apply (foldM_blocked _ sheets_of_interest sn Hsn).
  intros m. rewrite process_sheet_header_of, Hhdr. cbn [bind].
  apply (foldM_blocked _ hdr col Hcol).
  intros m0. rewrite Hstep. reflexivity.
Qed.

Lemma unrecognized_header_aborts_witness :
  unrecognized_header (CStr "Name") = true
  /\ unrecognized_header CNone = true
  /\ get_legacy_opportunities sample_now
       (dataset_with [("2025 Meal Prep", ["Volunteers:"; "Name"])])
     = Exit ("Not a date string: " ++ dquote ++ "Name" ++ dquote
               ++ " in sheet 2025 Meal Prep")
  /\ is_ok (get_legacy_opportunities sample_now
              (dataset_with [("2025 Meal Prep", ["Volunteers:"; "Name"])])) = false.
Proof.
  split; [vm_compute; reflexivity|]. split; [vm_compute; reflexivity|].
  split; [vm_compute; reflexivity|].
  destruct (unrecognized_header_aborts sample_now
              (dataset_with [("2025 Meal Prep", ["Volunteers:"; "Name"])])
              "2025 Meal Prep" (map CStr ["Volunteers:"; "Name"]) (CStr "Name")
              eq_refl eq_refl (or_intror (or_introl eq_refl)))
    as (col' & _ & _ & H).
  - repeat (first [left; reflexivity | right]).
  - exact H.
Defined.

Lemma process_col_passed_over (now : datetime) (sn : string) (m : opportunity_map)
  (col : cell) :
  passed_over now col -> process_col now sn m col = Ok m.
Proof.
  intros [->|[->|(t & Hl & Hskip)]]; [reflexivity|reflexivity|].
  eapply literal_future_or_missed_skipped; eauto.
Qed.

(** X5.  A sheet whose header holds only administrative labels
    (Volunteers:, Total Hours:), dates after run time and the missed day
    leaves the map exactly as it was. *)
Theorem passed_over_sheet_adds_nothing (now : datetime) (combined : dataset)
  (sn : string) (hdr : list cell) (m : opportunity_map) :
  header_of combined sn = Ok hdr ->
  Forall (passed_over now) hdr ->
  process_sheet now combined m sn = Ok m.
Proof.
  intros Hhdr Hall. rewrite process_sheet_header_of, Hhdr. cbn [bind]. clear Hhdr.
  induction Hall as [|col hdr' Hcol _ IH]; [reflexivity|].
  cbn [foldM]. rewrite (process_col_passed_over now sn m col Hcol). exact IH.
Qed.

Lemma passed_over_sheet_adds_nothing_witness :
  Forall (passed_over sample_now)
         (map CStr ["Volunteers:"; "1/10/2026"; "2026-01-17 00:00:00"; "3/3/2024";
                    "Total Hours:"])
  /\ process_sheet sample_now
       (dataset_with [("2026 Saturday Handout",
                       ["Volunteers:"; "1/10/2026"; "2026-01-17 00:00:00"; "3/3/2024";
                        "Total Hours:"])])
       sample_map "2026 Saturday Handout"
     = Ok sample_map.
Proof.
  assert (H : Forall (passed_over sample_now)
                (map CStr ["Volunteers:"; "1/10/2026"; "2026-01-17 00:00:00";
                           "3/3/2024"; "Total Hours:"])).
  { apply Forall_cons; [left; reflexivity|].
    apply Forall_cons;
      [right; right; eexists; split; [vm_compute; reflexivity|left; reflexivity]|].
    apply Forall_cons;
      [right; right; eexists; split; [vm_compute; reflexivity|left; reflexivity]|].
    apply Forall_cons;
      [right; right; eexists; split; [vm_compute; reflexivity|right; reflexivity]|].
    apply Forall_cons; [right; left; reflexivity|]. apply Forall_nil. }
  split; [exact H|].
  apply (passed_over_sheet_adds_nothing sample_now
           (dataset_with [("2026 Saturday Handout",
                           ["Volunteers:"; "1/10/2026"; "2026-01-17 00:00:00";
                            "3/3/2024"; "Total Hours:"])])
           "2026 Saturday Handout"
           (map CStr ["Volunteers:"; "1/10/2026"; "2026-01-17 00:00:00"; "3/3/2024";
                      "Total Hours:"]) sample_map eq_refl H).
Defined.

(** ** Date ranges at their edges *)

Lemma dict_set_twice {V : Type} (k : string) (v : V) (d : dict V) :
  dict_set k v (dict_set k v d) = dict_set k v d.
Proof.
  induction d as [|[k' v'] d IH]; simpl.
  - rewrite String.eqb_refl. reflexivity.
  - destruct (String.eqb k' k) eqn:E; simpl; rewrite E; [reflexivity|].
    rewrite IH. reflexivity.
Qed.

Lemma dict_get_mem {V : Type} (k : string) (v : V) (d : dict V) :
  dict_get k d = Some v -> dict_mem k d = true.
Proof. unfold dict_mem. intros ->. reflexivity. Qed.

(** The range loop run again on its own result changes nothing. *)
Lemma range_loop_again (fuel : nat) :
  forall (cur end_ : date) (m m' : opportunity_map),
    range_loop fuel cur end_ m = Ok m' -> range_loop fuel cur end_ m' = Ok m'.
Proof.
  induction fuel as [|fuel IH]; intros cur end_ m m' Hrun; [reflexivity|].
  cbn [range_loop] in *.
  destruct (date_leb cur end_); [|reflexivity].
  destruct (next_day cur) as [next| |] eqn:En; cbn [bind] in *.
  2,3: destruct (date_eqb cur (dt_date missed_day)); discriminate.
  destruct (date_eqb cur (dt_date missed_day)); cbn [bind] in *.
  - eapply IH; eauto.
  - pose proof (IH _ _ _ _ Hrun) as Hagain.
    destruct (weekday cur =? 6); [|exact Hagain].
    assert (Hmem : dict_mem (strftime_mdY cur) m' = true).
    { destruct (negb (dict_mem (strftime_mdY cur) m)) eqn:E.
      - eapply dict_get_mem. eapply range_loop_keeps; [exact Hrun|].
        apply dict_get_set_same.
      - rewrite negb_false_iff in E. unfold dict_mem in E.
        destruct (dict_get (strftime_mdY cur) m) as [v|] eqn:Eg; [|discriminate].
        eapply dict_get_mem. eapply range_loop_keeps; [exact Hrun|exact Eg]. }
    rewrite Hmem. exact Hagain.
Qed.

(** A header that is neither a literal date nor a range, when its step
    succeeds, is an administrative label: its step succeeds on every map
    and leaves it as it is. *)
Lemma process_col_other_any (now : datetime) (sn sn' : string)
  (m m' m0 : opportunity_map) (col : cell) :
  literal_date col = None -> range_header col = false ->
  process_col now sn m col = Ok m' ->
  process_col now sn' m0 col = Ok m0.
Proof.
  unfold literal_date, range_header, process_col.
  destruct (reinterpret_iso col) as [c| |]; try discriminate. cbn [bind].
  destruct (re_match date_re (py_str c)).
  - unfold get_literal.
    destruct (strptime_cell c fmt_mdY) as [t| |]; try discriminate.
  - cbn [negb andb].
    destruct (existsb (cell_eq_str c) ignored_columns); cbn [negb andb];
      [reflexivity|].
    intros _ Hr. rewrite Hr. discriminate.
Qed.

(** X6.  A header cell met a second time changes nothing: the step that
    succeeded once, taken again on its own result, returns that result.
    Repeated columns, within a sheet or across sheets, are harmless. *)
Theorem header_twice_as_once (now : datetime) (sn sn' : string)
  (m m1 : opportunity_map) (col : cell) :
  process_col now sn m col = Ok m1 ->
  process_col now sn' m1 col = Ok m1.
Proof.
  intros Hrun.
  destruct (literal_date col) as [t|] eqn:El.
  - destruct (process_col_literal now sn m col t El) as (c & _ & _ & Heq).
    destruct (process_col_literal now sn' m1 col t El) as (c' & _ & _ & Heq').
    rewrite Heq in Hrun. rewrite Heq'.
    destruct (dt_gtb t now); [reflexivity|].
    destruct (date_eqb (dt_date t) (dt_date missed_day)); [reflexivity|].
    destruct (classify sn c t) as [ls| |] eqn:Ec; try discriminate.
    cbn [bind] in Hrun. injection Hrun as <-.
    rewrite (classify_any_sheet _ sn' _ c' _ _ Ec). cbn [bind].
    rewrite dict_set_twice. reflexivity.
  - destruct (range_header col) eqn:Er.
    + destruct (process_col_range now sn m col Er) as (c & Hc & Heq).
      destruct (process_col_range now sn' m1 col Er) as (c' & Hc' & Heq').
      assert (c' = c) by congruence. subst c'.
      rewrite Heq in Hrun. rewrite Heq'. unfold get_range in *.
      destruct (range_bounds c) as [[s e]| |]; try discriminate.
      cbn [bind fst snd] in *. eapply range_loop_again; eauto.
    + eapply process_col_other_any; eauto.
Qed.

Lemma header_twice_as_once_witness :
  process_col sample_now "2024 Handouts" [("3/10/2024", [menchaca])]
              (CStr "2/25/24-3/10/24")
  = Ok [("3/10/2024", [menchaca]); ("2/25/2024", [seventh])]
  /\ process_col sample_now "2025 Sunday Handouts"
                 [("3/10/2024", [menchaca]); ("2/25/2024", [seventh])]
                 (CStr "2/25/24-3/10/24")
     = Ok [("3/10/2024", [menchaca]); ("2/25/2024", [seventh])].
Proof.
  assert (H : process_col sample_now "2024 Handouts" [("3/10/2024", [menchaca])]
                          (CStr "2/25/24-3/10/24")
              = Ok [("3/10/2024", [menchaca]); ("2/25/2024", [seventh])])
    by (vm_compute; reflexivity).
  split; [exact H|].
  exact (header_twice_as_once sample_now "2024 Handouts" "2025 Sunday Handouts"
           _ _ _ H).
Defined.

(** X7.  A date range written backwards (its end before its start) adds
    nothing: the loop body never runs and the map comes back as it was. *)
Theorem reversed_range_adds_nothing (now : datetime) (sn : string)
  (m : opportunity_map) (col col' : cell) (s e : date) :
  range_header col = true ->
  reinterpret_iso col = Ok col' ->
  range_bounds col' = Ok (s, e) ->
  date_ltb e s = true ->
  process_col now sn m col = Ok m.
Proof.
  intros Hr Hiso Hb Hlt.
  destruct (process_col_range now sn m col Hr) as (c & Hc & Heq).
  assert (c = col') by congruence. subst c.
  rewrite Heq. unfold get_range. rewrite Hb. cbn [bind fst snd].
  destruct (days_between s e); cbn [range_loop]; [reflexivity|].
  unfold date_leb. rewrite Hlt. reflexivity.
Qed.

Lemma reversed_range_adds_nothing_witness :
  range_bounds (CStr "3/10/2024-2/25/2024")
  = Ok (mk_date 2024 3 10, mk_date 2024 2 25)
  /\ process_col sample_now "2024 Handouts" sample_map (CStr "3/10/2024-2/25/2024")
     = Ok sample_map.
Proof.
  split; [vm_compute; reflexivity|].
  apply (reversed_range_adds_nothing sample_now "2024 Handouts" sample_map
           (CStr "3/10/2024-2/25/2024") (CStr "3/10/2024-2/25/2024")
           (mk_date 2024 3 10) (mk_date 2024 2 25));
    vm_compute; reflexivity.
Defined.

Lemma date_max_greatest (d : date) : valid_date d = true -> date_leb d date_max = true.
Proof.
  rewrite valid_date_spec. intros (Hy & Hm & Hd).
  pose proof (days_in_month_bounds (year d) (month d) Hm).
  unfold date_leb, date_ltb, date_max. cbn [year month day].
  rewrite negb_true_iff, !orb_false_iff, !andb_false_iff, !orb_false_iff,
    !andb_false_iff, !Z.ltb_ge, !Z.eqb_neq.
  lia.
Qed.

Lemma next_day_overflow (d : date) :
  valid_date d = true ->
  (d = date_max /\ next_day d = Raise OverflowError)
  \/ (exists d', next_day d = Ok d').
Proof.
  rewrite valid_date_spec. intros (Hy & Hm & Hd). unfold next_day.
  destruct (day d <? days_in_month (year d) (month d)) eqn:E1; [right; eauto|].
  destruct (month d <? 12) eqn:E2; [right; eauto|].
  destruct (year d <? 9999) eqn:E3; [right; eauto|].
  left. split; auto.
  apply Z.ltb_ge in E1, E2, E3.
  assert (Hmo : month d = 12) by lia. assert (Hye : year d = 9999) by lia.
  rewrite Hmo, Hye in *. change (days_in_month 9999 12) with 31 in *.
  destruct d as [y mo dd]; cbn [year month day] in *. unfold date_max.
  f_equal; lia.
Qed.

Lemma range_loop_to_date_max (fuel : nat) :
  forall (cur : date) (m : opportunity_map),
    valid_date cur = true ->
    toordinal date_max - toordinal cur + 1 <= Z.of_nat fuel ->
    range_loop fuel cur date_max m = Raise OverflowError.
Proof.
  induction fuel as [|fuel IH]; intros cur m Hv Hf.
  - pose proof (date_max_greatest cur Hv) as Hle.
    apply (date_leb_ordinal cur date_max Hv eq_refl) in Hle.
    change (Z.of_nat 0) with 0 in Hf. lia.
  - cbn [range_loop]. rewrite (date_max_greatest cur Hv).
    destruct (next_day_overflow cur Hv) as [[-> Hn]|(d' & Hn)]; rewrite Hn; cbn [bind].
    + destruct (date_eqb date_max (dt_date missed_day)); reflexivity.
    + pose proof (next_day_valid _ _ Hv Hn) as Hv'.
      pose proof (next_day_ordinal _ _ Hv Hn) as Ho.
      destruct (date_eqb cur (dt_date missed_day)); cbn [bind]; apply IH; auto; lia.
Qed.

(** X8.  A date range that ends on 9999-12-31 never yields a map: after
    the last day the loop adds one more day (line 249) and the step ends
    in an [OverflowError]. *)
Theorem range_to_date_max_overflows (now : datetime) (sn : string)
  (m : opportunity_map) (col col' : cell) (s : date) :
  range_header col = true ->
  reinterpret_iso col = Ok col' ->
  range_bounds col' = Ok (s, date_max) ->
  process_col now sn m col = Raise OverflowError.
Proof.
  intros Hr Hiso Hb.
  destruct (process_col_range now sn m col Hr) as (c & Hc & Heq).
  assert (c = col') by congruence. subst c.
  rewrite Heq. unfold get_range. rewrite Hb. cbn [bind fst snd].
  destruct (range_bounds_valid _ _ _ Hb) as [Hs _].
  apply range_loop_to_date_max; auto. unfold days_between.
  pose proof (date_max_greatest s Hs) as Hle.
  apply (date_leb_ordinal s date_max Hs eq_refl) in Hle. lia.
Qed.

Lemma range_to_date_max_overflows_witness :
  range_bounds (CStr "12/25/9999-12/31/9999") = Ok (mk_date 9999 12 25, date_max)
  /\ process_col sample_now "2026 Meal Prep" sample_map (CStr "12/25/9999-12/31/9999")
     = Raise OverflowError.
Proof.
  split; [vm_compute; reflexivity|].
  apply (range_to_date_max_overflows sample_now "2026 Meal Prep" sample_map
           (CStr "12/25/9999-12/31/9999") (CStr "12/25/9999-12/31/9999")
           (mk_date 9999 12 25));
    vm_compute; reflexivity.
Defined.

(** ** The merge as a whole *)

Lemma merge_name_extends (uuid4 : nat -> string) (now : datetime) (date label : string)
  (df0 : table) (st st' : table * nat) :
  (exists extra cols, rows (fst st) = (rows df0 ++ extra)%list
                      /\ columns (fst st) = (columns df0 ++ cols)%list) ->
  merge_name uuid4 now date st label = Ok st' ->
  exists extra cols, rows (fst st') = (rows df0 ++ extra)%list
                     /\ columns (fst st') = (columns df0 ++ cols)%list.
Proof.
  intros (extra & cols & Hr & Hc). destruct st as [df n]. cbn [fst] in *.
  unfold merge_name.
  destruct (matches df date label) as [ms| |]; try discriminate. cbn [bind].
  destruct (List.length ms =? 0)%nat.
  - destruct (strptime date fmt_mdY) as [t| |]; try discriminate. cbn [bind].
    intros [= <-]. cbn [fst]. unfold concat_row. cbn [rows columns].
    rewrite Hr, Hc, <- !app_assoc. eauto.
  - intros [= <-]. cbn [fst]. eauto.
Qed.

Lemma merge_extends (uuid4 : nat -> string) (now : datetime)
  (legacy : opportunity_map) (df out : table) :
  merge uuid4 now legacy df = Ok out ->
  exists extra cols, rows out = (rows df ++ extra)%list
                     /\ columns out = (columns df ++ cols)%list.
Proof.
  unfold merge. rewrite merge_by_pairs.
  destruct (foldM _ (pairs legacy) (df, 0%nat)) as [st| |] eqn:E; try discriminate.
  cbn [bind]. intros [= <-].
  pose (P := fun st0 : table * nat =>
               exists extra cols, rows (fst st0) = (rows df ++ extra)%list
                                  /\ columns (fst st0) = (columns df ++ cols)%list).
  refine (foldM_invariant P _ (pairs legacy) _ (df, 0%nat) st _ E).
  - intros s x s' _ Hs Hstep. eapply merge_name_extends; eauto.
  - exists [], []. cbn [fst]. rewrite !app_nil_r. auto.
Qed.

(** X9.  The merge only appends: in the table a run writes, the rows of
    the table it read come first and unchanged, and its columns come
    first in their order; no row is removed, edited or moved. *)
Theorem merge_only_appends (strptime_tz : string -> result datetime)
  (uuid4 : nat -> string) (now : datetime) (combined : dataset) (df out : table) :
  generate_migrated_opportunities strptime_tz uuid4 now combined df = Ok out ->
  exists extra cols, rows out = (rows df ++ extra)%list
                     /\ columns out = (columns df ++ cols)%list.
Proof.
  unfold generate_migrated_opportunities.
  destruct (get_legacy_opportunities now combined) as [legacy| |]; try discriminate.
  cbn [bind].
  destruct (validate strptime_tz now legacy df) as [[]| |]; try discriminate.
  cbn [bind]. apply merge_extends.
Qed.

Lemma merge_only_appends_witness :
  exists out extra cols,
    generate_migrated_opportunities strptime_tz_hhmm sample_uuid4 sample_now
                                    boundary_dataset sample_table = Ok out
    /\ rows out = (rows sample_table ++ extra)%list
    /\ columns out = (columns sample_table ++ cols)%list.
Proof.
  destruct (generate_migrated_opportunities strptime_tz_hhmm sample_uuid4 sample_now
              boundary_dataset sample_table) as [out| |] eqn:E.
  - destruct (merge_only_appends _ _ _ _ _ _ E) as (extra & cols & H1 & H2).
    exists out, extra, cols. auto.
  - vm_compute in E. discriminate.
  - vm_compute in E. discriminate.
Defined.




Lemma rerun_appends_again_witness :
  exists out1 out2,
    generate_migrated_opportunities strptime_tz_hhmm sample_uuid4 sample_now
                                    boundary_dataset sample_table = Ok out1
    /\ generate_migrated_opportunities strptime_tz_hhmm sample_uuid4' sample_now
                                       boundary_dataset out1 = Ok out2
    /\ (List.length (rows out2) - List.length (rows out1)
        = List.length (rows out1) - List.length (rows sample_table))%nat.
Proof.
  destruct (generate_migrated_opportunities strptime_tz_hhmm sample_uuid4 sample_now
              boundary_dataset sample_table) as [out1| |] eqn:E1;
    [|vm_compute in E1; discriminate|vm_compute in E1; discriminate].
  destruct (generate_migrated_opportunities strptime_tz_hhmm sample_uuid4' sample_now
              boundary_dataset out1) as [out2| |] eqn:E2.
  - exists out1, out2. split; [reflexivity|]. split; [exact E2|].
    exact (rerun_appends_again _ _ _ _ _ _ _ _ E1 E2).
  - exfalso. vm_compute in E1. injection E1 as <-. vm_compute in E2. discriminate.
  - exfalso. vm_compute in E1. injection E1 as <-. vm_compute in E2. discriminate.
Defined.

(** ** The phone normaliser, further *)

Lemma isdigit_not_space (c : ascii) : isdigit c = true -> isspace c = false.
Proof.
  destruct c as [b0 b1 b2 b3 b4 b5 b6 b7].
  destruct b0, b1, b2, b3, b4, b5, b6, b7; vm_compute; congruence.
Qed.

Lemma isdigit_not_dot (c : ascii) : isdigit c = true -> Ascii.eqb c "." = false.
Proof.
  destruct c as [b0 b1 b2 b3 b4 b5 b6 b7].
  destruct b0, b1, b2, b3, b4, b5, b6, b7; vm_compute; congruence.
Qed.

Lemma str_rev_onto_app (s a b : string) :
  str_rev_onto s a ++ b = str_rev_onto s (a ++ b).
Proof.
  revert a. induction s as [|c s IH]; intros a; simpl; [reflexivity|].
  rewrite IH. reflexivity.
Qed.

Lemma str_rev_app (x y : string) : str_rev (x ++ y) = str_rev y ++ str_rev x.
Proof.
  unfold str_rev. generalize "" at 1 3. induction x as [|c x IH]; intros a; simpl.
  - rewrite str_rev_onto_app. reflexivity.
  - rewrite IH. reflexivity.
Qed.

Lemma str_rev_cons (c : ascii) (s : string) :
  str_rev (String c s) = str_rev s ++ String c "".
Proof. unfold str_rev. simpl. rewrite str_rev_onto_app. reflexivity. Qed.

Lemma str_rev_onto_rev (s a : string) :
  str_rev_onto (str_rev_onto s a) "" = str_rev_onto a s.
Proof.
  revert a. induction s as [|c s IH]; intros a; simpl; [reflexivity|].
  rewrite IH. reflexivity.
Qed.

Lemma str_rev_involutive (s : string) : str_rev (str_rev s) = s.
Proof. unfold str_rev. rewrite str_rev_onto_rev. reflexivity. Qed.

Lemma append_assoc (x y z : string) : (x ++ y) ++ z = x ++ (y ++ z).
Proof. induction x as [|c x IH]; simpl; [reflexivity|]. rewrite IH. reflexivity. Qed.

Lemma lstrip_before_dot (a b : string) :
  lstrip (a ++ String "." b) = lstrip a ++ String "." b.
Proof.
  induction a as [|c a IH]; simpl; [reflexivity|].
  destruct (isspace c); [exact IH|reflexivity].
Qed.

Lemma lstrip_no_dot (a : string) : str_mem "." a = false -> str_mem "." (lstrip a) = false.
Proof.
  induction a as [|c a IH]; simpl; [auto|].
  intros H. apply orb_false_iff in H as [H1 H2].
  destruct (isspace c); [auto|]. simpl. rewrite H1, H2. reflexivity.
Qed.

Lemma str_mem_dot_app (x z : string) : str_mem "." (x ++ String "." z) = true.
Proof.
  induction x as [|c x IH]; simpl; [reflexivity|]. rewrite IH. apply orb_true_r.
Qed.

Lemma split_before_dot (x z : string) :
  str_mem "." x = false -> hd "" (split_on "." (x ++ String "." z)) = x.
Proof.
  induction x as [|c x IH]; simpl; [reflexivity|].
  intros H. apply orb_false_iff in H as [H1 H2]. rewrite H1.
  specialize (IH H2). destruct (split_on "." (x ++ String "." z)) as [|p ps].
  - simpl in IH. subst x. reflexivity.
  - simpl in *. subst p. reflexivity.
Qed.

(** The text the normaliser works on, for an input with a dot: what
    stands before the first dot, stripped on the left only. *)
Lemma strip_cut_at_dot (a b : string) :
  str_mem "." a = false ->
  exists z, strip (a ++ String "." b) = lstrip a ++ String "." z
            /\ hd "" (split_on "." (strip (a ++ String "." b))) = lstrip a.
Proof.
  intros Ha. unfold strip.
  rewrite lstrip_before_dot, str_rev_app, str_rev_cons, append_assoc.
  cbn [append].
  rewrite lstrip_before_dot, str_rev_app, str_rev_cons, str_rev_involutive,
    append_assoc.
  cbn [append].
  exists (str_rev (lstrip (str_rev b))). split; [reflexivity|].
  apply split_before_dot. apply lstrip_no_dot. exact Ha.
Qed.

(** X12.  Whatever follows the first dot of a phone text has no effect on
    the result: the digits after it are never used, and neither the
    formatted number nor the text handed back contains any of it. *)
Theorem text_after_first_dot_is_dropped (a b b' : string) :
  str_mem "." a = false ->
  _format_phone (CStr (a ++ "." ++ b)) = _format_phone (CStr (a ++ "." ++ b')).
Proof.
  intros Ha. change ("." ++ b) with (String "." b). change ("." ++ b') with (String "." b').
  destruct (strip_cut_at_dot a b Ha) as (z & Hs & Hc).
  destruct (strip_cut_at_dot a b' Ha) as (z' & Hs' & Hc').
  unfold _format_phone.
  rewrite Hc, Hc'. rewrite Hs, Hs', !str_mem_dot_app. reflexivity.
Qed.

Lemma text_after_first_dot_is_dropped_witness :
  _format_phone (CStr "512.589.8513") = _format_phone (CStr "512.0")
  /\ _format_phone (CStr "512.0") = Some "512".
Proof.
  split; [|reflexivity].
  exact (text_after_first_dot_is_dropped "512" "589.8513" "0" eq_refl).
Defined.

Lemma format_phone_unchanged_witness :
  strip "512-589" = "512-589"
  /\ _format_phone (CStr "512-589") = Some "512-589".
Proof.
  split; [reflexivity|].
  apply format_phone_unchanged; [reflexivity|reflexivity|vm_compute; discriminate|].
  left. vm_compute. discriminate.
Defined.

Lemma ten_digits (d : string) :
  String.length d = 10%nat -> str_forall isdigit d = true ->
  exists c0 c1 c2 c3 c4 c5 c6 c7 c8 c9,
    d = String c0 (String c1 (String c2 (String c3 (String c4 (String c5
          (String c6 (String c7 (String c8 (String c9 "")))))))))
    /\ isdigit c0 = true /\ isdigit c9 = true.
Proof.
  intros Hlen Hall.
  do 10 (destruct d as [|? d]; [discriminate|]).
  destruct d; [|discriminate].
  cbn [str_forall] in Hall. rewrite !andb_true_iff in Hall.
  do 10 eexists. split; [reflexivity|]. tauto.
Qed.

Lemma str_mem_app (c : ascii) (x y : string) :
  str_mem c (x ++ y) = str_mem c x || str_mem c y.
Proof.
  induction x as [|a x IH]; simpl; [reflexivity|]. rewrite IH. apply orb_assoc.
Qed.

Lemma str_filter_app (p : ascii -> bool) (x y : string) :
  str_filter p (x ++ y) = str_filter p x ++ str_filter p y.
Proof.
  induction x as [|a x IH]; simpl; [reflexivity|].
  rewrite IH. destruct (p a); reflexivity.
Qed.

Lemma str_forall_app (p : ascii -> bool) (x y : string) :
  str_forall p (x ++ y) = str_forall p x && str_forall p y.
Proof.
  induction x as [|a x IH]; simpl; [reflexivity|]. rewrite IH. apply andb_assoc.
Qed.

Lemma digits_no_dot (s : string) :
  str_forall isdigit s = true -> str_mem "." s = false.
Proof.
  induction s as [|c s IH]; simpl; [reflexivity|].
  intros H. apply andb_true_iff in H as [H1 H2].
  rewrite (isdigit_not_dot c H1), (IH H2). reflexivity.
Qed.

Lemma digits_filter (s : string) :
  str_forall isdigit s = true -> str_filter isdigit s = s.
Proof.
  induction s as [|c s IH]; simpl; [reflexivity|].
  intros H. apply andb_true_iff in H as [H1 H2].
  rewrite H1, (IH H2). reflexivity.
Qed.

Lemma strip_fixed (s : string) :
  lstrip s = s -> lstrip (str_rev s) = str_rev s -> strip s = s.
Proof. intros H1 H2. unfold strip. rewrite H1, H2. apply str_rev_involutive. Qed.

(** The pieces [digits[:3]], [digits[3:6]] and [digits[6:]] of ten
    digits. *)
Lemma ten_digits_pieces (d : string) :
  String.length d = 10%nat ->
  slice_to 3 d ++ slice 3 6 d ++ slice_from 6 d = d.
Proof.
  intros Hlen.
  do 10 (destruct d as [|? d]; [discriminate|]).
  destruct d; [reflexivity|discriminate].
Qed.

Lemma normalise_ten_digits (s d : string) :
  strip s = s -> str_mem "." s = false ->
  String.length d = 10%nat ->
  str_filter isdigit s = d \/ str_filter isdigit s = String "1" d ->
  _format_phone (CStr s) = Some (formatted_phone d).
Proof.
  intros Hs Hdot Hlen Hd. unfold _format_phone. rewrite Hs, Hdot.
  destruct Hd as [->| ->].
  - rewrite Hlen. cbn [Nat.eqb andb]. rewrite Hlen. reflexivity.
  - cbn [String.length]. rewrite Hlen. cbn [Nat.eqb andb startswith].
    change (Ascii.eqb "1" "1") with true. cbn [andb slice_from].
    rewrite Hlen. reflexivity.
Qed.

(** X11.  Ten digits are formatted as (XXX) XXX-XXXX, with or without the
    country code 1 in front, and the formatted text is a fixed point:
    normalising an already normalised number returns it unchanged. *)
Theorem formatted_phone_is_fixed (d : string) :
  String.length d = 10%nat -> str_forall isdigit d = true ->
  _format_phone (CStr d) = Some (formatted_phone d)
  /\ _format_phone (CStr ("1" ++ d)) = Some (formatted_phone d)
  /\ _format_phone (CStr (formatted_phone d)) = Some (formatted_phone d).
Proof.
  intros Hlen Hall.
  pose proof (digits_no_dot d Hall) as Hdot.
  pose proof (digits_filter d Hall) as Hfil.
  pose proof (ten_digits_pieces d Hlen) as Hpieces.
  destruct (ten_digits d Hlen Hall)
    as (c0 & c1 & c2 & c3 & c4 & c5 & c6 & c7 & c8 & c9 & Heq & H0 & H9).
  pose proof (isdigit_not_space c0 H0) as S0.
  pose proof (isdigit_not_space c9 H9) as S9.
  assert (Hstrip : strip d = d).
  { subst d. apply strip_fixed.
    - cbn [lstrip]. rewrite S0. reflexivity.
    - unfold str_rev. cbn [str_rev_onto lstrip]. rewrite S9. reflexivity. }
  assert (Hall' : str_forall isdigit
                    (slice_to 3 d ++ slice 3 6 d ++ slice_from 6 d) = true)
    by (rewrite Hpieces; exact Hall).
  rewrite !str_forall_app, !andb_true_iff in Hall'.
  destruct Hall' as (A1 & A2 & A3).
  split; [|split].
  - apply normalise_ten_digits; [exact Hstrip|exact Hdot|exact Hlen|left; exact Hfil].
  - change ("1" ++ d) with (String "1" d).
    apply normalise_ten_digits; [| |exact Hlen|].
    + subst d. apply strip_fixed; [reflexivity|].
      unfold str_rev. cbn [str_rev_onto lstrip]. rewrite S9. reflexivity.
    + change (str_mem "." (String "1" d)) with (false || str_mem "." d).
      rewrite Hdot. reflexivity.
    + right. change (str_filter isdigit (String "1" d))
        with (String "1" (str_filter isdigit d)).
      rewrite Hfil. reflexivity.
  - apply normalise_ten_digits; [| |exact Hlen|].
    + subst d. apply strip_fixed; [reflexivity|].
      unfold formatted_phone, slice, slice_to, str_rev.
      cbn [substring slice_from Nat.sub append str_rev_onto lstrip].
      rewrite S9. reflexivity.
    + unfold formatted_phone. rewrite !str_mem_app.
      rewrite (digits_no_dot _ A1), (digits_no_dot _ A2), (digits_no_dot _ A3).
      reflexivity.
    + left. unfold formatted_phone. rewrite !str_filter_app.
      rewrite (digits_filter _ A1), (digits_filter _ A2), (digits_filter _ A3).
      change (str_filter isdigit "(") with "".
      change (str_filter isdigit ") ") with "".
      change (str_filter isdigit "-") with "".
      cbn [append]. exact Hpieces.
Qed.

Lemma formatted_phone_is_fixed_witness :
  _format_phone (CStr "5125898513") = Some "(512) 589-8513"
  /\ _format_phone (CStr "15125898513") = Some "(512) 589-8513"
  /\ _format_phone (CStr "(512) 589-8513") = Some "(512) 589-8513".
Proof.
  exact (formatted_phone_is_fixed "5125898513" eq_refl eq_refl).
Defined.

(** ** The name list *)

Lemma ascii_cases (P : ascii -> Prop) :
  (forall b0 b1 b2 b3 b4 b5 b6 b7, P (Ascii b0 b1 b2 b3 b4 b5 b6 b7)) ->
  forall c, P c.
Proof. intros H []. apply H. Qed.

Ltac by_ascii_cases c :=
  revert c; apply ascii_cases;
  intros [] [] [] [] [] [] [] []; vm_compute; try reflexivity; try discriminate.

Lemma lower_char_idem (c : ascii) : lower_char (lower_char c) = lower_char c.
Proof. by_ascii_cases c. Qed.

Lemma lower_char_space (c : ascii) : isspace (lower_char c) = isspace c.
Proof. by_ascii_cases c. Qed.

Lemma title_char_lower (c : ascii) : title_char (lower_char c) = title_char c.
Proof. by_ascii_cases c. Qed.

Lemma title_char_idem (c u : ascii) :
  title_char c = Some u -> title_char u = Some u /\ isspace u = isspace c.
Proof.
  revert c u. apply (ascii_cases (fun c => forall u, title_char c = Some u ->
                       title_char u = Some u /\ isspace u = isspace c)).
  intros [] [] [] [] [] [] [] [] u H; vm_compute in H; try discriminate;
    injection H as <-; vm_compute; split; reflexivity.
Qed.

Lemma str_lower_idem (s : string) : str_lower (str_lower s) = str_lower s.
Proof.
  induction s as [|c s IH]; [reflexivity|].
  cbn [str_lower]. rewrite lower_char_idem, IH. reflexivity.
Qed.

Lemma str_lower_no_space (s : string) :
  str_forall (fun c => negb (isspace c)) (str_lower s)
  = str_forall (fun c => negb (isspace c)) s.
Proof.
  induction s as [|c s IH]; [reflexivity|].
  cbn [str_lower str_forall]. rewrite lower_char_space, IH. reflexivity.
Qed.

(** Capitalising looks at the word through its lower-case form only. *)
Lemma capitalize_lower (w : string) : capitalize (str_lower w) = capitalize w.
Proof.
  destruct w as [|c w]; [reflexivity|].
  cbn [str_lower capitalize]. rewrite title_char_lower, str_lower_idem. reflexivity.
Qed.

Lemma capitalize_idem (w u : string) :
  capitalize w = Some u -> capitalize u = Some u.
Proof.
  destruct w as [|c w]; cbn [capitalize].
  - intros H. injection H as <-. reflexivity.
  - destruct (title_char c) as [t|] eqn:Ht; [|discriminate].
    intros H. injection H as <-. cbn [capitalize].
    destruct (title_char_idem _ _ Ht) as [-> _]. rewrite str_lower_idem. reflexivity.
Qed.

Lemma capitalize_word (w u : string) :
  capitalize w = Some u -> is_word w = true -> is_word u = true.
Proof.
  destruct w as [|c w]; cbn [capitalize].
  - intros H. injection H as <-. auto.
  - destruct (title_char c) as [t|] eqn:Ht; [|discriminate].
    intros H. injection H as <-. unfold is_word.
    cbn [String.eqb negb andb str_forall].
    destruct (title_char_idem _ _ Ht) as [_ ->]. rewrite str_lower_no_space. auto.
Qed.

Lemma capitalize_all_lower (ws : list string) :
  capitalize_all (map str_lower ws) = capitalize_all ws.
Proof.
  induction ws as [|w ws IH]; [reflexivity|].
  cbn [map capitalize_all]. rewrite capitalize_lower, IH. reflexivity.
Qed.

Lemma capitalize_all_idem (ws us : list string) :
  capitalize_all ws = Some us -> capitalize_all us = Some us.
Proof.
  revert us. induction ws as [|w ws IH]; intros us; cbn [capitalize_all].
  - intros H. injection H as <-. reflexivity.
  - destruct (capitalize w) as [u|] eqn:Hu; [|discriminate].
    destruct (capitalize_all ws) as [us'|]; [|discriminate].
    intros H. injection H as <-. cbn [capitalize_all].
    rewrite (capitalize_idem _ _ Hu), (IH _ eq_refl). reflexivity.
Qed.

Lemma capitalize_all_words (ws us : list string) :
  capitalize_all ws = Some us -> forallb is_word ws = true ->
  forallb is_word us = true /\ List.length us = List.length ws.
Proof.
  revert us. induction ws as [|w ws IH]; intros us; cbn [capitalize_all].
  - intros H _. injection H as <-. auto.
  - destruct (capitalize w) as [u|] eqn:Hu; [|discriminate].
    destruct (capitalize_all ws) as [us'|]; [|discriminate].
    intros H Hw. injection H as <-. cbn [forallb] in *.
    apply andb_true_iff in Hw as [Hw Hws].
    destruct (IH _ eq_refl Hws) as [H1 H2].
    rewrite (capitalize_word _ _ Hu Hw), H1. cbn [List.length]. auto.
Qed.

(** *** Splitting and joining *)

Lemma split_from_words (s : string) :
  str_forall (fun c => negb (isspace c)) (fst (split_from s)) = true
  /\ forallb is_word (snd (split_from s)) = true.
Proof.
  induction s as [|c s [IH1 IH2]]; [auto|].
  cbn [split_from]. destruct (split_from s) as [w ws]. cbn [fst snd] in *.
  destruct (isspace c) eqn:Hc; cbn [fst snd str_forall].
  - split; [reflexivity|]. destruct w as [|c' w]; [exact IH2|].
    cbn [forallb]. rewrite IH2. unfold is_word. rewrite IH1. reflexivity.
  - rewrite Hc, IH1. auto.
Qed.

Lemma split_ws_words (s : string) : forallb is_word (split_ws s) = true.
Proof.
  unfold split_ws. destruct (split_from_words s) as [H1 H2].
  destruct (split_from s) as [w ws]. cbn [fst snd] in *.
  destruct w as [|c w]; [exact H2|].
  cbn [forallb]. rewrite H2. unfold is_word. rewrite H1. reflexivity.
Qed.

Lemma split_from_word_app (u s : string) :
  str_forall (fun c => negb (isspace c)) u = true ->
  split_from (u ++ s) = (u ++ fst (split_from s), snd (split_from s)).
Proof.
  induction u as [|c u IH]; cbn [append str_forall]; intros H.
  - destruct (split_from s); reflexivity.
  - apply andb_true_iff in H as [Hc Hu]. cbn [split_from]. rewrite (IH Hu).
    apply negb_true_iff in Hc. rewrite Hc. reflexivity.
Qed.

Lemma append_empty (s : string) : s ++ "" = s.
Proof. induction s as [|c s IH]; [reflexivity|]. cbn [append]. rewrite IH. reflexivity. Qed.

Lemma split_ws_word (u : string) : is_word u = true -> split_ws u = [u].
Proof.
  intros H. apply andb_true_iff in H as [Hne Hu].
  unfold split_ws. rewrite <- (append_empty u) at 1.
  rewrite (split_from_word_app u "" Hu). cbn [split_from fst snd].
  rewrite append_empty. destruct u; [discriminate|reflexivity].
Qed.

Lemma split_ws_word_space (u s : string) :
  is_word u = true -> split_ws (u ++ " " ++ s) = u :: split_ws s.
Proof.
  intros H. apply andb_true_iff in H as [Hne Hu].
  unfold split_ws. rewrite (split_from_word_app u _ Hu).
  change (" " ++ s) with (String " " s). cbn [split_from].
  destruct (split_from s) as [w ws].
  change (isspace " ") with true. cbn [fst snd]. rewrite append_empty.
  destruct u; [discriminate|reflexivity].
Qed.

Lemma split_join (us : list string) :
  forallb is_word us = true -> split_ws (join " " us) = us.
Proof.
  induction us as [|u us IH]; [reflexivity|].
  cbn [forallb]. intros H. apply andb_true_iff in H as [Hu Hus].
  destruct us as [|u' us'].
  - cbn [join]. apply split_ws_word, Hu.
  - change (join " " (u :: u' :: us')) with (u ++ " " ++ join " " (u' :: us')).
    rewrite (split_ws_word_space _ _ Hu), (IH Hus). reflexivity.
Qed.

(** A normalised name is a fixed point, with as many words as the text
    it came from. *)
Lemma normalize_name_idem (s n : string) :
  normalize_name s = Some n ->
  normalize_name n = Some n
  /\ List.length (split_ws n) = List.length (split_ws s).
Proof.
  unfold normalize_name.
  destruct (capitalize_all (split_ws s)) as [us|] eqn:Hus; [|discriminate].
  intros H. injection H as <-.
  destruct (capitalize_all_words _ _ Hus (split_ws_words s)) as [Hw Hlen].
  rewrite (split_join _ Hw), (capitalize_all_idem _ _ Hus). auto.
Qed.

(** *** Sorting and the set of names *)

Lemma insert_sorted_In (x y : string) (l : list string) :
  In y (insert_sorted x l) <-> y = x \/ In y l.
Proof.
  induction l as [|z l IH]; cbn [insert_sorted].
  - cbn. intuition.
  - destruct (String.leb x z); cbn [In]; [intuition|]. rewrite IH. intuition.
Qed.

Lemma sort_In (y : string) (l : list string) : In y (sort l) <-> In y l.
Proof.
  induction l as [|x l IH]; [reflexivity|].
  cbn [sort In]. rewrite insert_sorted_In, IH. intuition.
Qed.

Lemma leb_ltb (a b : string) : String.leb a b = true -> a <> b -> String.ltb a b = true.
Proof.
  unfold String.leb, String.ltb. destruct (String.compare a b) eqn:E; try easy.
  apply String.compare_eq_iff in E. easy.
Qed.

Lemma ltb_leb (a b : string) : String.ltb a b = true -> String.leb a b = true.
Proof. unfold String.leb, String.ltb. destruct (String.compare a b); easy. Qed.

Lemma not_leb_ltb (a b : string) : String.leb a b = false -> String.ltb b a = true.
Proof.
  unfold String.leb, String.ltb. rewrite (String.compare_antisym b a).
  destruct (String.compare a b); easy.
Qed.

Lemma insert_sorted_ascending (x : string) (l : list string) :
  strictly_ascending l = true -> ~ In x l ->
  strictly_ascending (insert_sorted x l) = true.
Proof.
  induction l as [|y l IH]; [reflexivity|].
  intros Hl Hx. cbn [insert_sorted].
  destruct (String.leb x y) eqn:E.
  - change (String.ltb x y && strictly_ascending (y :: l) = true).
    rewrite Hl, leb_ltb; auto. intros ->. apply Hx. left. reflexivity.
  - assert (Hl' : strictly_ascending l = true).
    { destruct l; [reflexivity|]. cbn [strictly_ascending] in Hl.
      apply andb_true_iff in Hl as [_ Hl]. exact Hl. }
    specialize (IH Hl' (fun H => Hx (or_intror H))).
    destruct l as [|z l].
    + cbn [insert_sorted strictly_ascending]. rewrite (not_leb_ltb _ _ E). reflexivity.
    + cbn [insert_sorted] in *. cbn [strictly_ascending] in Hl.
      apply andb_true_iff in Hl as [Hyz _].
      destruct (String.leb x z).
      * change (String.ltb y x && strictly_ascending (x :: z :: l) = true).
        rewrite IH, (not_leb_ltb _ _ E). reflexivity.
      * change (String.ltb y z && strictly_ascending (z :: insert_sorted x l) = true).
        rewrite IH, Hyz. reflexivity.
Qed.

Lemma sort_ascending (l : list string) :
  NoDup l -> strictly_ascending (sort l) = true.
Proof.
  induction 1 as [|x l Hx Hl IH]; [reflexivity|].
  cbn [sort]. apply insert_sorted_ascending; [exact IH|].
  rewrite sort_In. exact Hx.
Qed.

(** Sorting a list already in order returns it. *)
Lemma sort_ascending_id (l : list string) :
  strictly_ascending l = true -> sort l = l.
Proof.
  induction l as [|x l IH]; [reflexivity|].
  intros H. cbn [sort].
  destruct l as [|y l]; [reflexivity|].
  cbn [strictly_ascending] in H. apply andb_true_iff in H as [Hxy Hl].
  rewrite (IH Hl). cbn [insert_sorted]. rewrite (ltb_leb _ _ Hxy). reflexivity.
Qed.

Lemma existsb_eqb_In (x : string) (s : list string) :
  existsb (String.eqb x) s = true <-> In x s.
Proof.
  rewrite existsb_exists. split.
  - intros (y & Hy & E). apply String.eqb_eq in E. subst. exact Hy.
  - intros H. exists x. split; [exact H|apply String.eqb_refl].
Qed.

Lemma set_add_In (x y : string) (s : list string) :
  In y (set_add x s) <-> y = x \/ In y s.
Proof.
  unfold set_add. destruct (existsb (String.eqb x) s) eqn:E.
  - apply existsb_eqb_In in E. split; [auto|]. intros [->|H]; assumption.
  - rewrite in_app_iff. cbn. intuition.
Qed.

Lemma set_add_NoDup (x : string) (s : list string) : NoDup s -> NoDup (set_add x s).
Proof.
  intros H. unfold set_add. destruct (existsb (String.eqb x) s) eqn:E; [exact H|].
  assert (Hx : ~ In x s).
  { intros Hin. apply existsb_eqb_In in Hin. congruence. }
  clear E. induction H as [|y s Hy Hs IH]; cbn [app].
  - constructor; [easy|constructor].
  - constructor.
    + rewrite in_app_iff. cbn. intros [H|[H|[]]]; [easy|].
      apply Hx. left. symmetry. exact H.
    + apply IH. intros H. apply Hx. right. exact H.
Qed.

(** *** The loops of [get_all_names] *)

Lemma fold_option_invariant {A S : Type} (P : S -> Prop) (body : S -> A -> option S)
  (xs : list A) (s s' : S) :
  (forall s x s', In x xs -> P s -> body s x = Some s' -> P s') ->
  P s -> fold_option body xs s = Some s' -> P s'.
Proof.
  revert s. induction xs as [|x xs IH]; intros s Hstep Hs; cbn [fold_option].
  - intros H. injection H as <-. exact Hs.
  - destruct (body s x) as [s1|] eqn:E; [|discriminate].
    apply IH.
    + intros s0 x0 s0' Hin. apply Hstep. right. exact Hin.
    + apply (Hstep s x s1); [left; reflexivity|exact Hs|exact E].
Qed.

(** Every configured sheet has its names in the first column, as has any
    other sheet. *)
Lemma name_column_first (sheet_name : string) :
  match dict_get sheet_name name_column with Some c => c | None => 0%nat end = 0%nat.
Proof.
  unfold name_column. cbn [dict_get].
  repeat match goal with |- context [if ?b then _ else _] => destruct b end;
    reflexivity.
Qed.

(** What one data row does to the set: a first cell that is a string of
    two words or more is normalised and added; any other row leaves the
    set alone. *)
Lemma add_row_name_first (names : list string) (row : list cell) :
  add_row_name 0 names row
  = match row with
    | CStr s :: _ =>
        if (2 <=? List.length (split_ws s))%nat then
          match normalize_name s with
          | Some n => Some (set_add n names)
          | None => None
          end
        else Some names
    | _ => Some names
    end.
Proof.
  unfold add_row_name. destruct row as [|c row]; [reflexivity|].
  cbn [List.length nth]. change (0 <? S (List.length row))%nat with true.
  cbv iota. reflexivity.
Qed.

Lemma add_sheet_names_eq (names : list string) (entry : string * sheet) :
  add_sheet_names names entry = fold_option (add_row_name 0) (tl (snd entry)) names.
Proof. unfold add_sheet_names. rewrite name_column_first. reflexivity. Qed.

(** The set after the rows [xs], started from [names0]: what was in it
    and the normalised names of the name cells among [xs]. *)
Lemma rows_names_spec (xs : list (list cell)) (names0 names : list string) :
  fold_option (add_row_name 0) xs names0 = Some names ->
  NoDup names0 ->
  NoDup names
  /\ forall n, In n names <->
       In n names0
       \/ exists s rest, In (CStr s :: rest) xs
            /\ (2 <= List.length (split_ws s))%nat /\ normalize_name s = Some n.
Proof.
  revert names0. induction xs as [|x xs IH]; intros names0; cbn [fold_option].
  - intros H Hnd. injection H as <-. split; [exact Hnd|].
    intros n. split; [auto|]. intros [H|(s & rest & [] & _)]. exact H.
  - rewrite add_row_name_first.
    assert (Hskip : (forall s rest, x <> CStr s :: rest
                                    \/ (List.length (split_ws s) < 2)%nat) ->
                    fold_option (add_row_name 0) xs names0 = Some names ->
                    NoDup names0 ->
                    NoDup names
                    /\ forall n, In n names <->
         In n names0
         \/ exists s rest, In (CStr s :: rest) (x :: xs)
              /\ (2 <= List.length (split_ws s))%nat /\ normalize_name s = Some n).
    { intros Hx H Hnd. destruct (IH _ H Hnd) as [H1 H2]. split; [exact H1|].
      intros n. rewrite H2. split.
      - intros [Hn|(s & rest & Hin & Hs)]; [auto|].
        right. exists s, rest. split; [right; exact Hin|exact Hs].
      - intros [Hn|(s & rest & [Hin|Hin] & Hlen & Hs)]; [auto| |].
        + destruct (Hx s rest) as [Hne|Hlt]; [congruence|]. exfalso.
          clear - Hlen Hlt. apply Nat.lt_nge in Hlt. auto.
        + right. exists s, rest. auto. }
    destruct x as [|[|s|k|b] rest];
      try (apply Hskip; intros s0 rest0; left; congruence).
    destruct (2 <=? List.length (split_ws s))%nat eqn:Hlen.
    + destruct (normalize_name s) as [n0|] eqn:Hn0; [|discriminate].
      intros H Hnd. destruct (IH _ H (set_add_NoDup n0 _ Hnd)) as [H1 H2].
      split; [exact H1|]. intros n. rewrite H2, set_add_In. split.
      * intros [[->|Hn]|(s' & rest' & Hin & Hs)]; [|auto|].
        -- right. exists s, rest. apply Nat.leb_le in Hlen.
           split; [left; reflexivity|auto].
        -- right. exists s', rest'. split; [right; exact Hin|exact Hs].
      * intros [Hn|(s' & rest' & [Hin|Hin] & Hlen' & Hs)]; [auto| |].
        -- injection Hin as -> ->. left. left. congruence.
        -- right. exists s', rest'. auto.
    + apply Hskip. intros s0 rest0.
      destruct (string_dec s0 s) as [->|Hne]; [|left; congruence].
      right. apply Nat.leb_gt in Hlen. exact Hlen.
Qed.

Lemma sheets_names_spec (sheets : dataset) (names0 names : list string) :
  fold_option add_sheet_names sheets names0 = Some names ->
  NoDup names0 ->
  NoDup names
  /\ forall n, In n names <->
       In n names0 \/ exists s, name_cell sheets s /\ normalize_name s = Some n.
Proof.
  revert names0. induction sheets as [|[sn rs] sheets IH]; intros names0;
    cbn [fold_option].
  - intros H Hnd. injection H as <-. split; [exact Hnd|].
    intros n. split; [auto|]. intros [H|(s & (sn & rs & rest & [] & _) & _)]. exact H.
  - rewrite add_sheet_names_eq. cbn [snd].
    destruct (fold_option (add_row_name 0) (tl rs) names0) as [names1|] eqn:E;
      [|discriminate].
    intros H Hnd. destruct (rows_names_spec _ _ _ E Hnd) as [Hnd1 H1].
    destruct (IH _ H Hnd1) as [H2 H3]. split; [exact H2|].
    intros n. rewrite H3, H1. split.
    + intros [[Hn|(s & rest & Hin & Hlen & Hs)]|(s & (sn' & rs' & rest & Hin & Hc) & Hs)].
      * auto.
      * right. exists s. split; [|exact Hs].
        exists sn, rs, rest. split; [left; reflexivity|auto].
      * right. exists s. split; [|exact Hs].
        exists sn', rs', rest. split; [right; exact Hin|exact Hc].
    + intros [Hn|(s & (sn' & rs' & rest & [Hin|Hin] & Hrow & Hlen) & Hs)].
      * auto.
      * injection Hin as <- <-. left. right. exists s, rest. auto.
      * right. exists s. split; [|exact Hs]. exists sn', rs', rest. auto.
Qed.

Lemma insert_sorted_NoDup (x : string) (l : list string) :
  ~ In x l -> NoDup l -> NoDup (insert_sorted x l).
Proof.
  intros Hx Hl. induction Hl as [|y l Hy Hl IH]; cbn [insert_sorted].
  - constructor; [easy|constructor].
  - destruct (String.leb x y).
    + constructor; [exact Hx|constructor; assumption].
    + constructor.
      * rewrite insert_sorted_In. intros [->|H]; [|easy]. apply Hx. left. reflexivity.
      * apply IH. intros H. apply Hx. right. exact H.
Qed.

Lemma sort_NoDup (l : list string) : NoDup l -> NoDup (sort l).
Proof.
  induction 1 as [|x l Hx Hl IH]; [constructor|].
  cbn [sort]. apply insert_sorted_NoDup; [|exact IH]. rewrite sort_In. exact Hx.
Qed.

Lemma get_all_names_spec (combined : dataset) (names : list string) :
  get_all_names combined = Some names ->
  strictly_ascending names = true /\ NoDup names
  /\ forall n, In n names <->
       exists s, name_cell combined s /\ normalize_name s = Some n.
Proof.
  unfold get_all_names.
  destruct (fold_option add_sheet_names combined []) as [names0|] eqn:E; [|discriminate].
  intros H. injection H as <-.
  destruct (sheets_names_spec _ _ _ E (NoDup_nil _)) as [Hnd Hin].
  split; [apply sort_ascending, Hnd|]. split; [apply sort_NoDup, Hnd|].
  intros n. rewrite sort_In, Hin. cbn [In]. intuition.
Qed.

(** X15.  The list of names is in strictly ascending order of code
    points: it is sorted and no name occurs twice. *)
Theorem names_strictly_ascending (combined : dataset) (names : list string) :
  get_all_names combined = Some names ->
  strictly_ascending names = true /\ NoDup names.
Proof.
  intros H. destruct (get_all_names_spec _ _ H) as (H1 & H2 & _). auto.
Qed.

Lemma names_strictly_ascending_witness :
  get_all_names sample_people = Some ["Al Bo"; "Bob Smith"; "Jane Q. Doe"]
  /\ strictly_ascending ["Al Bo"; "Bob Smith"; "Jane Q. Doe"] = true
  /\ NoDup ["Al Bo"; "Bob Smith"; "Jane Q. Doe"].
Proof.
  assert (H : get_all_names sample_people = Some ["Al Bo"; "Bob Smith"; "Jane Q. Doe"])
    by (vm_compute; reflexivity).
  split; [exact H|]. exact (names_strictly_ascending _ _ H).
Defined.

(** X16.  A name is in the list exactly when it is the normalised form of
    a name cell: the first cell of a row after the header row of some
    sheet, a string of two words or more.  Header rows, rows without
    cells, cells that are not strings and single words give no name. *)
Theorem names_are_the_name_cells (combined : dataset) (names : list string) (n : string) :
  get_all_names combined = Some names ->
  (In n names <-> exists s, name_cell combined s /\ normalize_name s = Some n).
Proof.
  intros H. destruct (get_all_names_spec _ _ H) as (_ & _ & H3). apply H3.
Qed.

Lemma names_are_the_name_cells_witness :
  get_all_names sample_people = Some ["Al Bo"; "Bob Smith"; "Jane Q. Doe"]
  /\ (In "Bob Smith" ["Al Bo"; "Bob Smith"; "Jane Q. Doe"]
      <-> exists s, name_cell sample_people s /\ normalize_name s = Some "Bob Smith").
Proof.
  assert (H : get_all_names sample_people = Some ["Al Bo"; "Bob Smith"; "Jane Q. Doe"])
    by (vm_compute; reflexivity).
  split; [exact H|]. exact (names_are_the_name_cells _ _ "Bob Smith" H).
Defined.

Lemma rows_of_names (l acc : list string) :
  NoDup (acc ++ l) ->
  (forall n, In n l -> normalize_name n = Some n
                       /\ (2 <= List.length (split_ws n))%nat) ->
  fold_option (add_row_name 0) (map (fun n => [CStr n]) l) acc = Some (acc ++ l)%list.
Proof.
  revert acc. induction l as [|n l IH]; intros acc Hnd Hl; cbn [map fold_option].
  - rewrite app_nil_r. reflexivity.
  - rewrite add_row_name_first.
    destruct (Hl n (or_introl eq_refl)) as [Hn Hlen].
    apply Nat.leb_le in Hlen. rewrite Hlen, Hn.
    assert (Hadd : set_add n acc = (acc ++ [n])%list).
    { unfold set_add. destruct (existsb (String.eqb n) acc) eqn:E; [|reflexivity].
      apply existsb_eqb_In in E. apply NoDup_remove_2 in Hnd.
      exfalso. apply Hnd. apply in_or_app. left. exact E. }
    rewrite Hadd.
    replace (acc ++ n :: l)%list with ((acc ++ [n]) ++ l)%list
      by (rewrite <- app_assoc; reflexivity).
    apply IH.
    + rewrite <- app_assoc. exact Hnd.
    + intros n' Hn'. apply Hl. right. exact Hn'.
Qed.

(** X17.  The names returned are fixed points of the function: each is a
    normalised text of two words or more, and a sheet that lists them, one
    per data row under any header row, gives the same list back. *)
Theorem names_round_trip (combined : dataset) (names : list string)
  (sheet_name : string) (header : list cell) :
  get_all_names combined = Some names ->
  get_all_names [(sheet_name, header :: map (fun n => [CStr n]) names)] = Some names.
Proof.
  intros H.
  destruct (get_all_names_spec _ _ H) as (Hasc & Hnd & Hin).
  assert (Hfix : forall n, In n names ->
                   normalize_name n = Some n /\ (2 <= List.length (split_ws n))%nat).
  { intros n Hn. apply Hin in Hn as Hc.
    destruct Hc as (s & (sn & rs & rest & _ & _ & Hlen) & Hs).
    destruct (normalize_name_idem _ _ Hs) as [H1 H2]. rewrite H2. auto. }
  unfold get_all_names. cbn [fold_option]. rewrite add_sheet_names_eq. cbn [snd tl].
  rewrite (rows_of_names names [] Hnd Hfix). cbn [app].
  rewrite (sort_ascending_id _ Hasc). reflexivity.
Qed.

Lemma names_round_trip_witness :
  get_all_names sample_people = Some ["Al Bo"; "Bob Smith"; "Jane Q. Doe"]
  /\ get_all_names [("Volunteer Info",
                     [CStr "Name"]
                       :: map (fun n => [CStr n]) ["Al Bo"; "Bob Smith"; "Jane Q. Doe"])]
     = Some ["Al Bo"; "Bob Smith"; "Jane Q. Doe"].
Proof.
  assert (H : get_all_names sample_people = Some ["Al Bo"; "Bob Smith"; "Jane Q. Doe"])
    by (vm_compute; reflexivity).
  split; [exact H|]. exact (names_round_trip _ _ "Volunteer Info" [CStr "Name"] H).
Defined.

(** X18.  Letter case and the white space between and around the words do
    not distinguish names: two texts whose words are the same once in
    lower case have the same normalised form, so they give one entry. *)
Theorem case_and_spacing_give_one_name (s1 s2 : string) :
  map str_lower (split_ws s1) = map str_lower (split_ws s2) ->
  normalize_name s1 = normalize_name s2.
Proof.
  intros H. unfold normalize_name.
  rewrite <- (capitalize_all_lower (split_ws s1)), H, capitalize_all_lower.
  reflexivity.
Qed.

Lemma case_and_spacing_give_one_name_witness :
  normalize_name "jane q. doe" = normalize_name "  JANE   Q. DoE ".
Proof. apply case_and_spacing_give_one_name. vm_compute. reflexivity. Defined.

(** ** Contacts *)

Lemma title_char_lower_back (c u : ascii) :
  title_char c = Some u -> lower_char u = lower_char c.
Proof.
  revert c u. apply (ascii_cases (fun c => forall u, title_char c = Some u ->
                       lower_char u = lower_char c)).
  intros [] [] [] [] [] [] [] [] u H; vm_compute in H; try discriminate;
    injection H as <-; vm_compute; reflexivity.
Qed.

Lemma capitalize_lower_back (w u : string) :
  capitalize w = Some u -> str_lower u = str_lower w.
Proof.
  destruct w as [|c w]; cbn [capitalize].
  - intros H. injection H as <-. reflexivity.
  - destruct (title_char c) as [t|] eqn:Ht; [|discriminate].
    intros H. injection H as <-. cbn [str_lower].
    rewrite (title_char_lower_back _ _ Ht), str_lower_idem. reflexivity.
Qed.

Lemma capitalize_all_lower_back (ws us : list string) :
  capitalize_all ws = Some us -> map str_lower us = map str_lower ws.
Proof.
  revert us. induction ws as [|w ws IH]; intros us; cbn [capitalize_all].
  - intros H. injection H as <-. reflexivity.
  - destruct (capitalize w) as [u|] eqn:Hu; [|discriminate].
    destruct (capitalize_all ws) as [us'|]; [|discriminate].
    intros H. injection H as <-. cbn [map].
    rewrite (capitalize_lower_back _ _ Hu), (IH _ eq_refl). reflexivity.
Qed.

Lemma str_lower_app (a b : string) : str_lower (a ++ b) = str_lower a ++ str_lower b.
Proof.
  induction a as [|c a IH]; [reflexivity|].
  cbn [append str_lower]. rewrite IH. reflexivity.
Qed.

Lemma str_lower_join (us : list string) :
  str_lower (join " " us) = join " " (map str_lower us).
Proof.
  induction us as [|u us IH]; [reflexivity|].
  destruct us as [|u' us']; [reflexivity|].
  change (join " " (u :: u' :: us')) with (u ++ " " ++ join " " (u' :: us')).
  rewrite !str_lower_app, IH. reflexivity.
Qed.

(** In lower case a normalised name is the text it came from, its words
    single-spaced. *)
Lemma normalize_name_lower (s n : string) :
  normalize_name s = Some n -> str_lower n = str_lower (join " " (split_ws s)).
Proof.
  unfold normalize_name.
  destruct (capitalize_all (split_ws s)) as [us|] eqn:Hus; [|discriminate].
  intros H. injection H as <-.
  rewrite !str_lower_join, (capitalize_all_lower_back _ _ Hus). reflexivity.
Qed.

(** The loop sees the name through its lower-case form only. *)
Lemma find_row_lower (n1 n2 : string) (col : nat) (rows : list (list cell)) :
  str_lower n1 = str_lower n2 -> find_row n1 col rows = find_row n2 col rows.
Proof.
  intros H. induction rows as [|row rows IH]; [reflexivity|].
  cbn [find_row]. rewrite H, IH. reflexivity.
Qed.

Lemma find_contact_lower (header n1 n2 : string) (combined : dataset) :
  str_lower n1 = str_lower n2 ->
  find_contact header n1 combined = find_contact header n2 combined.
Proof.
  intros H. unfold find_contact.
  destruct (dict_get "Volunteer Info" combined) as [[|headers data]|]; try reflexivity.
  destruct (index_of header headers); [|reflexivity].
  apply find_row_lower, H.
Qed.

(** X19.  The contact lookups find a person under the normalised name:
    for a cell whose words are single-spaced, looking up the name that
    [get_all_names] makes of it gives what looking up the cell's own text
    gives, for the e-mail and for the phone. *)
Theorem normalised_name_finds_contact (s n : string) (combined : dataset) :
  normalize_name s = Some n ->
  join " " (split_ws s) = s ->
  get_email_from_name n combined = get_email_from_name s combined
  /\ get_phone_from_name n combined = get_phone_from_name s combined.
Proof.
  intros Hn Hs. apply normalize_name_lower in Hn. rewrite Hs in Hn.
  unfold get_email_from_name, get_phone_from_name.
  rewrite !(find_contact_lower _ n s combined Hn). auto.
Qed.

Lemma normalised_name_finds_contact_witness :
  get_email_from_name "Bob Smith" sample_people
  = get_email_from_name "bob SMITH" sample_people
  /\ get_phone_from_name "Bob Smith" sample_people
     = get_phone_from_name "bob SMITH" sample_people.
Proof.
  apply normalised_name_finds_contact; vm_compute; reflexivity.
Defined.

Lemma find_row_passed (name : string) (col : nat) (before rows : list (list cell)) :
  Forall (passed_row name) before ->
  find_row name col (before ++ rows) = find_row name col rows.
Proof.
  induction 1 as [|row before Hrow _ IH]; [reflexivity|].
  cbn [app find_row]. destruct Hrow as [->|(s & rest & -> & Hne)]; [exact IH|].
  apply String.eqb_neq in Hne. rewrite Hne. exact IH.
Qed.

(** X20.  A data row of the Volunteer Info sheet whose first cell is not
    a string (an empty cell, a number) ends the lookup in an
    [AttributeError] when no row before it stops the search: the person's
    own row further down is never reached. *)
Theorem non_text_first_cell_raises (header name : string) (combined : dataset)
  (headers : list cell) (before after : list (list cell)) (c : cell) (rest : list cell) :
  dict_get "Volunteer Info" combined
  = Some (headers :: before ++ (c :: rest) :: after)%list ->
  index_of header headers <> None ->
  (forall s, c <> CStr s) ->
  Forall (passed_row name) before ->
  find_contact header name combined = Failed AttributeError
  /\ (header = "Email" -> get_email_from_name name combined = Failed AttributeError)
  /\ (header = "Phone" -> get_phone_from_name name combined = Failed AttributeError).
Proof.
  intros Hsheet Hidx Hc Hbefore.
  assert (H : find_contact header name combined = Failed AttributeError).
  { unfold find_contact. rewrite Hsheet.
    destruct (index_of header headers) as [col|]; [|congruence].
    rewrite (find_row_passed _ _ _ _ Hbefore). cbn [find_row].
    destruct c as [|s|k|b]; try reflexivity. exfalso. exact (Hc s eq_refl). }
  split; [exact H|]. split; intros ->.
  - unfold get_email_from_name. rewrite H. reflexivity.
  - unfold get_phone_from_name. rewrite H. reflexivity.
Qed.

Lemma non_text_first_cell_raises_witness :
  get_email_from_name "Bob Smith" blank_row_people = Failed AttributeError.
Proof.
  refine (proj1 (proj2 (non_text_first_cell_raises "Email" "Bob Smith"
                          blank_row_people
                          [CStr "Name"; CStr "Email"]
                          [[CStr "Al Bo"; CStr "al@example.org"]]
                          [[CStr "Bob Smith"; CStr "bob@example.org"]]
                          CNone [CNone] eq_refl _ _ _)) eq_refl).
  - vm_compute. discriminate.
  - intros s. discriminate.
  - apply Forall_cons; [|apply Forall_nil].
    right. exists "Al Bo", [CStr "al@example.org"]. split; [reflexivity|].
    vm_compute. discriminate.
Defined.

(** ** The users table *)

Lemma row_get_set_same (k : string) (v : cell) (r : row) :
  row_get k (dict_set k v r) = v.
Proof. unfold row_get. rewrite dict_get_set_same. reflexivity. Qed.

Lemma row_get_set_other (k k' : string) (v : cell) (r : row) :
  k <> k' -> row_get k' (dict_set k v r) = row_get k' r.
Proof. intros H. unfold row_get. rewrite dict_get_set_other by exact H. reflexivity. Qed.

Lemma row_get_blank (c : string) (cols : list string) :
  row_get c (map (fun col => (col, CNone)) cols) = CNone.
Proof.
  unfold row_get. induction cols as [|col cols IH]; [reflexivity|].
  cbn [map dict_get]. destruct (String.eqb col c); [reflexivity|exact IH].
Qed.

Lemma normalize_phone_other (c : string) (r : row) :
  c <> "phone_number" -> row_get c (normalize_phone r) = row_get c r.
Proof.
  intros Hc. unfold normalize_phone.
  destruct (row_get "phone_number" r); try reflexivity;
    apply row_get_set_other; congruence.
Qed.

Lemma concat_rows (new_rows : list row) (df : table) :
  rows (concat df new_rows) = (rows df ++ new_rows)%list
  /\ exists cols, columns (concat df new_rows) = (columns df ++ cols)%list.
Proof.
  unfold concat. revert df. induction new_rows as [|r new_rows IH]; intros df;
    cbn [fold_left].
  - rewrite app_nil_r. split; [reflexivity|]. exists []. rewrite app_nil_r. reflexivity.
  - destruct (IH (concat_row df r)) as [H1 [cols H2]]. split.
    + rewrite H1. cbn [concat_row rows]. rewrite <- app_assoc. reflexivity.
    + rewrite H2. cbn [concat_row columns]. rewrite <- app_assoc. eexists. reflexivity.
Qed.

(** The fields of a new row. *)
Lemma new_user_fields (combined : dataset) (df : table) (id name : string) (r : row) :
  new_user combined df id name = Done r ->
  row_get "id" r = CStr id /\ row_get "name" r = CStr name
  /\ row_get "admin" r = CStr "f" /\ row_get "email_verified" r = CStr "f"
  /\ row_get "subscribe_newsletter" r = CStr "f"
  /\ (row_get "email" r = CNone \/ truthy (row_get "email" r) = true)
  /\ (forall c, ~ In c user_columns -> row_get c r = CNone).
Proof.
  unfold new_user.
  destruct (get_email_from_name name combined) as [email|]; [|discriminate].
  destruct (get_phone_from_name name combined) as [phone|]; [|discriminate].
  intros H. injection H as <-.
  repeat split.
  - do 6 (rewrite row_get_set_other by discriminate). apply row_get_set_same.
  - do 5 (rewrite row_get_set_other by discriminate). apply row_get_set_same.
  - do 4 (rewrite row_get_set_other by discriminate). apply row_get_set_same.
  - do 3 (rewrite row_get_set_other by discriminate). apply row_get_set_same.
  - apply row_get_set_same.
  - do 2 (rewrite row_get_set_other by discriminate). rewrite row_get_set_same.
    destruct (truthy email) eqn:E; auto.
  - intros c Hc. unfold user_columns in Hc. cbn [In] in Hc.
    repeat (rewrite row_get_set_other by (intros E; apply Hc; auto 10)).
    apply row_get_blank.
Qed.

Lemma new_users_spec (uuid4 : nat -> string) (combined : dataset) (df : table)
  (names : list string) (n : nat) (new_rows : list row) :
  new_users uuid4 combined df n names = Done new_rows ->
  map (row_get "name") new_rows = map CStr names
  /\ map (row_get "id") new_rows
     = map (fun i => CStr (uuid4 i)) (seq n (List.length names))
  /\ Forall (fun r => exists id name, new_user combined df id name = Done r) new_rows.
Proof.
  revert n new_rows. induction names as [|name names IH]; intros n new_rows;
    cbn [new_users].
  - intros H. injection H as <-. cbn. auto.
  - destruct (new_user combined df (uuid4 n) name) as [r|] eqn:Hr; [|discriminate].
    destruct (new_users uuid4 combined df (S n) names) as [rs|] eqn:Hrs; [|discriminate].
    intros H. injection H as <-.
    destruct (IH _ _ Hrs) as (H1 & H2 & H3).
    destruct (new_user_fields _ _ _ _ _ Hr) as (Hid & Hname & _).
    cbn [map List.length seq]. rewrite H1, H2, Hid, Hname.
    repeat split. constructor; [|exact H3]. exists (uuid4 n), name. exact Hr.
Qed.

Lemma sort_length (l : list string) : List.length (sort l) = List.length l.
Proof.
  induction l as [|x l IH]; [reflexivity|].
  cbn [sort List.length]. rewrite <- IH. generalize (sort l). clear.
  intros l. induction l as [|y l IH]; [reflexivity|].
  cbn [insert_sorted]. destruct (String.leb x y); cbn [List.length]; [reflexivity|].
  rewrite IH. reflexivity.
Qed.

(** The table written: the rows read, changed in [phone_number] at most,
    then one row per name. *)
Lemma generate_migrated_users_spec (uuid4 : nat -> string) (names : list string)
  (combined : dataset) (df out : table) :
  generate_migrated_users uuid4 names combined df = Done out ->
  exists old new,
    rows out = (old ++ new)%list
    /\ List.length old = List.length (rows df)
    /\ (forall c, c <> "phone_number" ->
          map (row_get c) old = map (row_get c) (rows df))
    /\ map (row_get "name") new = map CStr (sort names)
    /\ map (row_get "id") new
       = map (fun i => CStr (uuid4 i)) (seq 0 (List.length names))
    /\ Forall (fun r => exists df' id name, new_user combined df' id name = Done r) new
    /\ exists cols, columns out = (columns df ++ cols)%list.
Proof.
  unfold generate_migrated_users.
  set (df' := if has_column "phone_number" df
              then mk_table (columns df) (map normalize_phone (rows df)) else df).
  destruct (new_users uuid4 combined df' 0 (sort names)) as [new|] eqn:Hnew;
    [|discriminate].
  intros H. injection H as <-.
  destruct (new_users_spec _ _ _ _ _ _ Hnew) as (H1 & H2 & H3).
  destruct (concat_rows new df') as [Hr [cols Hc]].
  exists (rows df'), new. rewrite sort_length in H2.
  assert (Hcols : columns df' = columns df).
  { unfold df'. destruct (has_column "phone_number" df); reflexivity. }
  repeat split; auto.
  - unfold df'. destruct (has_column "phone_number" df); [|reflexivity].
    cbn [rows]. apply length_map.
  - intros c Hc'. unfold df'. destruct (has_column "phone_number" df); [|reflexivity].
    cbn [rows]. rewrite map_map. apply map_ext. intros r.
    apply normalize_phone_other, Hc'.
  - eapply Forall_impl; [|exact H3]. intros r (id & name & Hr'). eauto.
  - exists cols. rewrite Hc, Hcols. reflexivity.
Qed.

(** X21.  The users table is only extended: the rows read come first, in
    order, and keep every cell outside the [phone_number] column; after
    them comes one row per legacy-only name, in sorted order of the names,
    each with the next identifier drawn; the columns read come first. *)
Theorem users_only_appended (uuid4 : nat -> string) (names : list string)
  (combined : dataset) (df out : table) :
  generate_migrated_users uuid4 names combined df = Done out ->
  exists old new,
    rows out = (old ++ new)%list
    /\ List.length old = List.length (rows df)
    /\ (forall c, c <> "phone_number" ->
          map (row_get c) old = map (row_get c) (rows df))
    /\ map (row_get "name") new = map CStr (sort names)
    /\ map (row_get "id") new
       = map (fun i => CStr (uuid4 i)) (seq 0 (List.length names))
    /\ exists cols, columns out = (columns df ++ cols)%list.
Proof.
  intros H.
  destruct (generate_migrated_users_spec _ _ _ _ _ H)
    as (old & new & H1 & H2 & H3 & H4 & H5 & _ & H6).
  exists old, new. auto 10.
Qed.

Lemma users_only_appended_witness :
  exists out old new,
    generate_migrated_users sample_uuid4 ["Bob Smith"; "Al Bo"] sample_people
                            sample_users = Done out
    /\ rows out = (old ++ new)%list
    /\ List.length old = 2%nat
    /\ map (row_get "name") new = [CStr "Al Bo"; CStr "Bob Smith"]
    /\ map (row_get "id") new = [CStr "uuid-0"; CStr "uuid-1"].
Proof.
  destruct (generate_migrated_users sample_uuid4 ["Bob Smith"; "Al Bo"] sample_people
              sample_users) as [out|f] eqn:E; [|vm_compute in E; discriminate].
  destruct (users_only_appended _ _ _ _ _ E) as (old & new & H1 & H2 & _ & H4 & H5 & _).
  exists out, old, new. auto.
Defined.

(** X22.  A row made for a legacy name is a plain account: [admin],
    [email_verified] and [subscribe_newsletter] are "f", the e-mail is
    missing or a non-empty value, and every column other than the seven
    the function fills is empty. *)
Theorem new_users_are_plain (uuid4 : nat -> string) (names : list string)
  (combined : dataset) (df out : table) (r : row) :
  generate_migrated_users uuid4 names combined df = Done out ->
  In r (skipn (List.length (rows df)) (rows out)) ->
  row_get "admin" r = CStr "f" /\ row_get "email_verified" r = CStr "f"
  /\ row_get "subscribe_newsletter" r = CStr "f"
  /\ (row_get "email" r = CNone \/ truthy (row_get "email" r) = true)
  /\ (forall c, ~ In c user_columns -> row_get c r = CNone).
Proof.
  intros H Hr.
  destruct (generate_migrated_users_spec _ _ _ _ _ H)
    as (old & new & H1 & H2 & _ & _ & _ & H3 & _).
  rewrite H1, <- H2, skipn_app, skipn_all, Nat.sub_diag in Hr. cbn [app skipn] in Hr.
  rewrite Forall_forall in H3. destruct (H3 _ Hr) as (df' & id & name & Hnew).
  destruct (new_user_fields _ _ _ _ _ Hnew) as (_ & _ & Ha & Hv & Hs & He & Hc).
  auto.
Qed.

Lemma new_users_are_plain_witness :
  exists out r,
    generate_migrated_users sample_uuid4 ["Bob Smith"; "Al Bo"] sample_people
                            sample_users = Done out
    /\ nth_error (rows out) 3 = Some r
    /\ row_get "name" r = CStr "Bob Smith"
    /\ row_get "admin" r = CStr "f" /\ row_get "email_verified" r = CStr "f"
    /\ row_get "subscribe_newsletter" r = CStr "f".
Proof.
  destruct (generate_migrated_users sample_uuid4 ["Bob Smith"; "Al Bo"] sample_people
              sample_users) as [out|f] eqn:E; [|vm_compute in E; discriminate].
  destruct (nth_error (rows out) 3) as [r|] eqn:Er;
    [|vm_compute in E; injection E as <-; vm_compute in Er; discriminate].
  assert (Hin : In r (skipn (List.length (rows sample_users)) (rows out))).
  { vm_compute in E. injection E as <-. vm_compute in Er. injection Er as <-.
    vm_compute. auto. }
  assert (Hname : row_get "name" r = CStr "Bob Smith").
  { vm_compute in E. injection E as <-. vm_compute in Er. injection Er as <-.
    reflexivity. }
  destruct (new_users_are_plain _ _ _ _ _ r E Hin) as (Ha & Hv & Hs & _).
  exists out, r. auto 10.
Defined.

(** *** How the users step fails *)

Lemma find_row_failed (name : string) (col : nat) (rows : list (list cell))
  (f : failure) :
  find_row name col rows = Failed f ->
  f = AttributeError /\ exists c rest, In (c :: rest) rows /\ forall s, c <> CStr s.
Proof.
  induction rows as [|row rows IH]; cbn [find_row]; [discriminate|].
  assert (Hnext : find_row name col rows = Failed f ->
                  f = AttributeError
                  /\ exists c rest, In (c :: rest) (row :: rows) /\ forall s, c <> CStr s).
  { intros H. destruct (IH H) as [Hf (c & rest & Hin & Hc)].
    split; [exact Hf|]. exists c, rest. split; [right; exact Hin|exact Hc]. }
  destruct row as [|[|s|k|b] rest]; try exact Hnext.
  - intros H. injection H as <-. split; [reflexivity|].
    exists CNone, rest. split; [left; reflexivity|discriminate].
  - destruct (String.eqb (str_lower s) (str_lower name)
              && (col <? List.length (CStr s :: rest))%nat); [discriminate|exact Hnext].
  - intros H. injection H as <-. split; [reflexivity|].
    exists (CInt k), rest. split; [left; reflexivity|discriminate].
  - intros H. injection H as <-. split; [reflexivity|].
    exists (CBool b), rest. split; [left; reflexivity|discriminate].
Qed.

Lemma find_contact_failed (header name : string) (combined : dataset) (f : failure) :
  find_contact header name combined = Failed f ->
  f = AttributeError /\ non_text_row combined.
Proof.
  unfold find_contact, non_text_row.
  destruct (dict_get "Volunteer Info" combined) as [[|headers data]|];
    try discriminate.
  destruct (index_of header headers) as [col|]; [|discriminate].
  intros H. destruct (find_row_failed _ _ _ _ H) as [Hf (c & rest & Hin & Hc)].
  split; [exact Hf|]. exists headers, data, c, rest. auto.
Qed.

Lemma new_user_failed (combined : dataset) (df : table) (id name : string)
  (f : failure) :
  new_user combined df id name = Failed f ->
  f = AttributeError /\ non_text_row combined.
Proof.
  unfold new_user, get_email_from_name, get_phone_from_name.
  destruct (find_contact "Email" name combined) as [[email|]|f1] eqn:E1.
  - destruct (find_contact "Phone" name combined) as [[phone|]|f2] eqn:E2.
    + destruct (truthy phone); discriminate.
    + discriminate.
    + intros H. injection H as <-. exact (find_contact_failed _ _ _ _ E2).
  - destruct (find_contact "Phone" name combined) as [[phone|]|f2] eqn:E2.
    + destruct (truthy phone); discriminate.
    + discriminate.
    + intros H. injection H as <-. exact (find_contact_failed _ _ _ _ E2).
  - intros H. injection H as <-. exact (find_contact_failed _ _ _ _ E1).
Qed.

Lemma new_users_failed (uuid4 : nat -> string) (combined : dataset) (df : table)
  (names : list string) (n : nat) (f : failure) :
  new_users uuid4 combined df n names = Failed f ->
  f = AttributeError /\ non_text_row combined.
Proof.
  revert n. induction names as [|name names IH]; intros n; cbn [new_users];
    [discriminate|].
  destruct (new_user combined df (uuid4 n) name) as [r|f1] eqn:E1.
  - destruct (new_users uuid4 combined df (S n) names) as [rs|f2] eqn:E2;
      [discriminate|].
    intros H. injection H as <-. exact (IH _ E2).
  - intros H. injection H as <-. exact (new_user_failed _ _ _ _ _ E1).
Qed.

Lemma generate_migrated_users_failed (uuid4 : nat -> string) (names : list string)
  (combined : dataset) (df : table) (f : failure) :
  generate_migrated_users uuid4 names combined df = Failed f ->
  f = AttributeError /\ non_text_row combined.
Proof.
  unfold generate_migrated_users.
  match goal with |- context [new_users ?u ?c ?d ?n ?l] =>
    destruct (new_users u c d n l) as [rs|f1] eqn:E end; [discriminate|].
  intros H. injection H as <-. exact (new_users_failed _ _ _ _ _ _ E).
Qed.

(** X23.  The users step can fail in one way only: with the
    [AttributeError] of a contact lookup, and then the Volunteer Info
    sheet has a data row whose first cell is not a string.  On a sheet
    whose data rows all begin with text, or without the sheet, a table is
    always written. *)
Theorem users_step_fails_only_by_non_text_cell (uuid4 : nat -> string)
  (names : list string) (combined : dataset) (df : table) :
  (forall f, generate_migrated_users uuid4 names combined df = Failed f ->
             f = AttributeError /\ non_text_row combined)
  /\ (~ non_text_row combined ->
      exists out, generate_migrated_users uuid4 names combined df = Done out).
Proof.
  split.
  - intros f. apply generate_migrated_users_failed.
  - intros Hno.
    destruct (generate_migrated_users uuid4 names combined df) as [out|f] eqn:E.
    + exists out. reflexivity.
    + exfalso. apply Hno. exact (proj2 (generate_migrated_users_failed _ _ _ _ _ E)).
Qed.

Lemma users_step_fails_only_by_non_text_cell_witness :
  generate_migrated_users sample_uuid4 ["Bob Smith"] blank_row_people sample_users
  = Failed AttributeError
  /\ non_text_row blank_row_people.
Proof.
  destruct (generate_migrated_users sample_uuid4 ["Bob Smith"] blank_row_people
              sample_users) as [out|f] eqn:E; [vm_compute in E; discriminate|].
  destruct (proj1 (users_step_fails_only_by_non_text_cell _ _ _ _) f E) as [-> H].
  split; [reflexivity|exact H].
Defined.

(** X24.  After a run, every name of the legacy sheets is in the [name]
    column of the users table written: the names [users.csv] already had
    stay, the others get a row. *)
Theorem every_legacy_name_is_a_user (strptime_tz : string -> result datetime)
  (uuid4 : nat -> string) (now : datetime) (combined : dataset)
  (users opportunities out : table) (w : written) (st : attempt unit)
  (names : list string) (n : string) :
  do_merging strptime_tz uuid4 now combined users opportunities = Some (w, st) ->
  users_migrated w = Some out ->
  get_all_names combined = Some names ->
  In n names ->
  In (CStr n) (map (row_get "name") (rows out)).
Proof.
  unfold do_merging. intros H Hw Hnames Hn. rewrite Hnames in H.
  unfold get_new_value in H.
  destruct (has_column "name" users);
    [|injection H as <- <-; discriminate].
  set (names_new := filter (fun v => negb (is_none v))
                           (map (row_get "name") (rows users))) in H.
  destruct (generate_migrated_users uuid4 (legacy_only names names_new) combined users)
    as [users'|f] eqn:E; [|injection H as <- <-; discriminate].
  assert (Hout : users' = out).
  { destruct (generate_migrated_opportunities _ _ _ _ _) in H;
      injection H as <- <-; cbn in Hw; congruence. }
  subst users'. clear H Hw.
  destruct (generate_migrated_users_spec _ _ _ _ _ E)
    as (old & new & H1 & _ & H3 & H4 & _).
  rewrite H1, map_app, in_app_iff.
  destruct (existsb (fun v => cell_eq_str v n) names_new) eqn:Ex.
  - left. rewrite (H3 "name") by discriminate.
    apply existsb_exists in Ex as (v & Hv & Hvn).
    unfold names_new in Hv. apply filter_In in Hv as [Hv _].
    destruct v as [|s|k|b]; try discriminate.
    cbn [cell_eq_str] in Hvn. apply String.eqb_eq in Hvn. subst s. exact Hv.
  - right. rewrite H4. apply in_map. apply sort_In. unfold legacy_only.
    apply filter_In. rewrite Ex. auto.
Qed.

Lemma every_legacy_name_is_a_user_witness :
  exists w st out,
    do_merging strptime_tz_hhmm sample_uuid4 sample_now sample_people sample_users
               sample_table = Some (w, st)
    /\ users_migrated w = Some out
    /\ In (CStr "Jane Q. Doe") (map (row_get "name") (rows out)).
Proof.
  destruct (do_merging strptime_tz_hhmm sample_uuid4 sample_now sample_people
              sample_users sample_table) as [[w st]|] eqn:E;
    [|vm_compute in E; discriminate].
  destruct (users_migrated w) as [out|] eqn:Ew;
    [|vm_compute in E; injection E as <- <-; vm_compute in Ew; discriminate].
  exists w, st, out. split; [reflexivity|]. split; [exact Ew|].
  apply (every_legacy_name_is_a_user _ _ _ _ _ _ _ _ _
           ["Al Bo"; "Bob Smith"; "Jane Q. Doe"] _ E Ew).
  - vm_compute. reflexivity.
  - cbn. auto.
Defined.

(** X25.  The files of a run are written in order.  The opportunities
    file is written exactly when the run ends normally, and then the
    users file has been written too; the users file is missing only when
    [users.csv] has no [name] column (a [ValueError]) or a contact lookup
    raised its [AttributeError].  A run that fails in the opportunities
    step has written the users file. *)
Theorem files_written_in_order (strptime_tz : string -> result datetime)
  (uuid4 : nat -> string) (now : datetime) (combined : dataset)
  (users opportunities : table) (w : written) (st : attempt unit) :
  do_merging strptime_tz uuid4 now combined users opportunities = Some (w, st) ->
  (opportunities_migrated w <> None <-> st = Done tt)
  /\ (opportunities_migrated w <> None -> users_migrated w <> None)
  /\ (users_migrated w = None ->
      (has_column "name" users = false /\ st = Failed (Exception ValueError))
      \/ (non_text_row combined /\ st = Failed AttributeError)).
Proof.
  unfold do_merging.
  destruct (get_all_names combined) as [names|]; [|discriminate].
  unfold get_new_value.
  destruct (has_column "name" users).
  - match goal with |- context [generate_migrated_users ?u ?l ?c ?d] =>
      destruct (generate_migrated_users u l c d) as [users'|f] eqn:E end.
    + destruct (generate_migrated_opportunities _ _ _ _ _);
        intros H; injection H as <- <-; cbn [users_migrated opportunities_migrated];
        repeat split; intros; try congruence; try discriminate.
    + intros H. injection H as <- <-. cbn [users_migrated opportunities_migrated].
      destruct (generate_migrated_users_failed _ _ _ _ _ E) as [-> Hrow].
      repeat split; intros; try congruence; try discriminate. right. auto.
  - intros H. injection H as <- <-. cbn [users_migrated opportunities_migrated].
    repeat split; intros; try congruence; try discriminate. left. auto.
Qed.

Lemma files_written_in_order_witness :
  exists w st,
    do_merging strptime_tz_hhmm sample_uuid4 sample_now sample_people sample_users
               sample_table = Some (w, st)
    /\ users_migrated w <> None /\ opportunities_migrated w = None
    /\ st = Failed (Exception KeyError)
    /\ (opportunities_migrated w <> None <-> st = Done tt).
Proof.
  destruct (do_merging strptime_tz_hhmm sample_uuid4 sample_now sample_people
              sample_users sample_table) as [[w st]|] eqn:E;
    [|vm_compute in E; discriminate].
  exists w, st. split; [reflexivity|].
  destruct (files_written_in_order _ _ _ _ _ _ _ _ E) as (H1 & _ & _).
  vm_compute in E. injection E as <- <-.
  split; [discriminate|]. split; [reflexivity|]. split; [reflexivity|exact H1].
Defined.
